(** * BODACC ingestion pipeline: fetcher, merger, orchestrator and filter

    A shallow embedding of the day-by-day fetcher
    ([src/main/02_get_BODACC_by_day.py]) and of the identifier/keyword
    filter ([src/main/03_filter_BODACC_by_day.py]), with the properties
    the specification states about them. *)

From stdpp Require Import gmap list sorting.
From Stdlib Require Import ZArith Lia.
From Stdlib Require String Ascii DecimalNat.
Import String.StringSyntax.
Delimit Scope string_scope with string.

Set Warnings "-register-all,-clear-no-such-hyp".

Open Scope Z_scope.

(** ** Python values *)

(** A Python [str] is a sequence of Unicode code points. *)
Definition pystr : Type := list N.

(** ASCII literals of the source, as code points. *)
Definition u (s : String.string) : pystr :=
  map Ascii.N_of_ascii (String.list_ascii_of_string s).
Arguments u s%_string.

(** What [json.loads] returns.  Numbers are the integers ([int]); JSON reals
    are floating point in Python and are not represented.  An object keeps
    its keys in insertion order, as a Python [dict] does. *)
Inductive json : Type :=
| JNull
| JBool (b : bool)
| JInt (z : Z)
| JStr (s : pystr)
| JList (l : list json)
| JDict (d : list (pystr * json)).

(** [d.get(k)] / [d[k]] on a dict, [None] when the key is absent. *)
Fixpoint dict_get (k : pystr) (d : list (pystr * json)) : option json :=
  match d with
  | [] => None
  | (k', v) :: d' => if decide (k' = k) then Some v else dict_get k d'
  end.

(** [d[k] = v]: an existing key keeps its place, a new key goes last. *)
Fixpoint dict_set (k : pystr) (v : json) (d : list (pystr * json))
  : list (pystr * json) :=
  match d with
  | [] => [(k, v)]
  | (k', v') :: d' =>
      if decide (k' = k) then (k, v) :: d' else (k', v') :: dict_set k v d'
  end.

(** Python truthiness of a JSON value ([if not x]). *)
Definition truthy (x : json) : bool :=
  match x with
  | JNull => false
  | JBool b => b
  | JInt z => negb (z =? 0)
  | JStr s => negb (bool_decide (s = []))
  | JList l => negb (bool_decide (l = []))
  | JDict d => negb (bool_decide (d = []))
  end.

Definition is_dict (x : json) : bool :=
  match x with JDict _ => true | _ => false end.

(** [needle in haystack] on two strings: contiguous substring. *)
Fixpoint is_prefix (p s : pystr) : bool :=
  match p, s with
  | [], _ => true
  | _ :: _, [] => false
  | a :: p', b :: s' => bool_decide (a = b) && is_prefix p' s'
  end.

Fixpoint str_contains (needle hay : pystr) : bool :=
  is_prefix needle hay ||
  match hay with
  | [] => false
  | _ :: hay' => str_contains needle hay'
  end.

(** [sep.join(parts)]. *)
Fixpoint str_join (sep : pystr) (parts : list pystr) : pystr :=
  match parts with
  | [] => []
  | [p] => p
  | p :: rest => p ++ sep ++ str_join sep rest
  end.

(** An upper bound on the length of any JSON text of a value: every value
    [json.loads] returns from a text is at most as large as the text. *)
Fixpoint json_size (x : json) : nat :=
  match x with
  | JStr s => 2 + length s
  | JList l => 2 + foldr (fun v n => (json_size v + n)%nat) 0%nat l
  | JDict d =>
      2 + foldr (fun kv n => (let '(k, v) := kv in
                              3 + length k + json_size v + n)%nat) 0%nat d
  | _ => 1
  end.

(** [a <= b] on two strings: code-point lexicographic order. *)
Fixpoint str_leb (a b : pystr) : bool :=
  match a, b with
  | [], _ => true
  | _ :: _, [] => false
  | x :: a', y :: b' =>
      if (x <? y)%N then true
      else if (y <? x)%N then false
      else str_leb a' b'
  end.

Definition str_le (a b : pystr) : Prop := str_leb a b = true.

#[global] Instance str_le_dec : RelDecision str_le :=
  fun a b => decide (str_leb a b = true).

(** [str(n)] for a natural number, and the format [{n:03d}]. *)
Fixpoint uint_chars (d : Decimal.uint) : pystr :=
  match d with
  | Decimal.Nil => []
  | Decimal.D0 d' => 48%N :: uint_chars d'
  | Decimal.D1 d' => 49%N :: uint_chars d'
  | Decimal.D2 d' => 50%N :: uint_chars d'
  | Decimal.D3 d' => 51%N :: uint_chars d'
  | Decimal.D4 d' => 52%N :: uint_chars d'
  | Decimal.D5 d' => 53%N :: uint_chars d'
  | Decimal.D6 d' => 54%N :: uint_chars d'
  | Decimal.D7 d' => 55%N :: uint_chars d'
  | Decimal.D8 d' => 56%N :: uint_chars d'
  | Decimal.D9 d' => 57%N :: uint_chars d'
  end.

Definition str_of_nat (n : nat) : pystr := uint_chars (Nat.to_uint n).

Definition fmt_03d (n : nat) : pystr :=
  let digits := str_of_nat n in
  replicate (3 - length digits) 48%N ++ digits.

(** ** The fetcher: [src/main/02_get_BODACC_by_day.py] *)

Module Fetcher.

Definition PUBLICATION_TYPES : list pystr := [u "A"; u "B"; u "C"].

(** A [datetime.date], by its ordinal. *)
Definition date : Type := Z.

(** [_date_range]: the days from [start] to [end_], both included. *)
Definition _date_range (start end_ : date) : list date :=
  map (fun i => start + Z.of_nat i) (seq 0 (Z.to_nat (end_ - start + 1))).

(** *** [_extract_records] *)

(** The loop body over [payload["results"]]: one item. *)
Definition clean_item (item : json) : list json :=
  match item with
  | JDict d =>
      match dict_get (u "record") d with
      | Some (JDict r) => [JDict r]
      | _ =>
          match dict_get (u "fields") d with
          | Some (JDict f) => [JDict f]
          | _ => [item]
          end
      end
  | _ => []
  end.

Definition cleaned (items : list json) : list json :=
  flat_map clean_item items.

(** [k in payload] for a string [k]; [None] is the [TypeError] of a payload
    that is not a container. *)
Definition py_in (k : pystr) (payload : json) : option bool :=
  match payload with
  | JDict d => Some (bool_decide (is_Some (dict_get k d)))
  | JList l =>
      Some (existsb (fun x => match x with
                              | JStr s => bool_decide (s = k)
                              | _ => false
                              end) l)
  | JStr s => Some (str_contains k s)
  | _ => None
  end.

(** [payload[k]] for a string [k]: only a dict is indexed by a string. *)
Definition py_index (k : pystr) (payload : json) : option json :=
  match payload with
  | JDict d => dict_get k d
  | _ => None
  end.

(** [k in payload and isinstance(payload[k], list)], with the list when the
    test holds; the outer [None] is a raised [TypeError]. *)
Definition list_under (k : pystr) (payload : json) : option (option (list json)) :=
  present ← py_in k payload;
  if present : bool then
    v ← py_index k payload;
    Some (match v with JList l => Some l | _ => None end)
  else Some None.

(** [_extract_records(payload)]; [None] stands for a raised exception.  The
    parameter is annotated [Dict]; the other shapes a decoded body can have
    are followed through Python's [in] and indexing. *)
Definition _extract_records (payload : json) : option (list json) :=
  if negb (truthy payload) then Some []
  else
    results ← list_under (u "results") payload;
    match results with
    | Some records => Some (cleaned records)
    | None =>
        records ← list_under (u "records") payload;
        match records with
        | Some l => Some l
        | None => Some []
        end
    end.

(** *** The world the fetcher acts on *)

(** The parameters of one page request. *)
Record params : Type := {
  refine_dateparution : date;        (* "refine": dateparution:<day> *)
  where_publicationavis : pystr;     (* "where": publicationavis = '<c>' *)
  where_numeroannonce_gt : Z;        (*          AND numeroannonce > <n> *)
  order_by : pystr;
  limit : Z
}.

(** What one [session.get] brings back: status 429, any failure that raises
    before a payload is there (network error, [raise_for_status], a body that
    is not JSON), or a decoded payload. *)
Inductive response : Type :=
| Resp429
| RespFail
| RespOk (payload : json).

Inductive event : Type :=
| CallCleanup (day : date)
| CallFetch (day : date) (publicationavis : pystr)
| CallMerge (day : date)
| Request (p : params)
| Sleep429 (seconds : Z)           (* [time.sleep(too_many_requests_timeout_sec)] *)
| SleepBackoff (attempt : nat)     (* [time.sleep(backoff_base * 2**attempt)] *)
| WritePart (day : date) (name : pystr) (records : list json)
| UnlinkPart (day : date) (name : pystr)
| WriteDaily (day : date) (content : list json)
| TouchDaily (day : date).

(** A JSON-lines file is the list of its records.  [daily_dir] maps a day to
    [<day>_bodacc_update.jsonl]; [tmp_dir] maps a day to its fragments
    [<day>_bodacc_update_part_<name>.jsonl], by [<name>]. *)
Record world : Type := {
  daily_dir : gmap date (list json);
  tmp_dir : gmap date (gmap pystr (list json));
  trace : list event
}.

Definition emit (e : event) (w : world) : world :=
  {| daily_dir := daily_dir w; tmp_dir := tmp_dir w; trace := trace w ++ [e] |}.

Definition day_parts (day : date) (w : world) : gmap pystr (list json) :=
  default ∅ (tmp_dir w !! day).

(** *** [_write_ndjson_part], [_cleanup_day_parts], [_merge_day_parts] *)

Definition part_name (publicationavis : pystr) (page_idx : nat) : pystr :=
  publicationavis ++ u "_" ++ fmt_03d page_idx.

(** A surrogate code point, U+D800 to U+DFFF.  [json.loads] puts one in a
    string for an escape [\udXXX] that stands alone; [json.dumps] with
    [ensure_ascii=False] leaves it as it is; the UTF-8 codec of the file
    refuses it with [UnicodeEncodeError]. *)
Definition is_surrogate (c : N) : bool := ((55296 <=? c) && (c <=? 57343))%N.

Definition str_encodes (s : pystr) : bool :=
  forallb (fun c => negb (is_surrogate c)) s.

(** [part_file.write(json.dumps(record, ensure_ascii=False) + "\n")] returns
    for the record: no string in it, key or value at any depth, holds a
    surrogate.  All else in the text of a record is ASCII. *)
Fixpoint encodes (x : json) : bool :=
  match x with
  | JStr s => str_encodes s
  | JList l => forallb encodes l
  | JDict d => forallb (fun kv => let '(k, v) := kv in str_encodes k && encodes v) d
  | _ => true
  end.

(** The lines in the file when the loop over [records] is left: every record
    up to the first one whose line does not encode. *)
Fixpoint written_lines (records : list json) : list json :=
  match records with
  | [] => []
  | record :: rest => if encodes record then record :: written_lines rest else []
  end.

(** How a call of [_write_ndjson_part] ends, with the world it leaves: it
    returned, or [part_file.write] raised and the [with] block closed the
    file on the lines written so far. *)
Inductive write_result : Type :=
| WriteDone (w : world)
| WriteRaise (w : world).

Definition write_world (r : write_result) : world :=
  match r with WriteDone w | WriteRaise w => w end.

Definition _write_ndjson_part (day : date) (publicationavis : pystr)
    (page_idx : nat) (records : list json) (w : world) : write_result :=
  let name := part_name publicationavis page_idx in
  let lines := written_lines records in
  let w' := emit (WritePart day name lines)
              {| daily_dir := daily_dir w;
                 tmp_dir := <[day := <[name := lines]> (day_parts day w)]> (tmp_dir w);
                 trace := trace w |} in
  if forallb encodes records then WriteDone w' else WriteRaise w'.

(** [sorted(Path(tmp_dir).glob(...))]: the day's fragments by file name. *)
Definition name_le (a b : pystr * list json) : Prop :=
  str_leb (a.1 ++ u ".jsonl") (b.1 ++ u ".jsonl") = true.

#[global] Instance name_le_dec : RelDecision name_le :=
  fun a b => decide (str_leb (a.1 ++ u ".jsonl") (b.1 ++ u ".jsonl") = true).

Definition part_files (day : date) (w : world) : list (pystr * list json) :=
  merge_sort name_le (map_to_list (day_parts day w)).

Definition unlink_all (day : date) (parts : list (pystr * list json))
    (w : world) : world :=
  {| daily_dir := daily_dir w;
     tmp_dir := <[day := foldr (fun p m => delete p.1 m) (day_parts day w) parts]>
                  (tmp_dir w);
     trace := trace w ++ map (fun p => UnlinkPart day p.1) parts |}.

Definition _cleanup_day_parts (day : date) (w : world) : world :=
  unlink_all day (map_to_list (day_parts day w)) (emit (CallCleanup day) w).

Definition _merge_day_parts (day : date) (w0 : world) : world :=
  let w := emit (CallMerge day) w0 in
  let parts := part_files day w in
  if bool_decide (parts = []) then
    (* [Path(target_path).touch()] *)
    emit (TouchDaily day)
      {| daily_dir := match daily_dir w !! day with
                      | Some _ => daily_dir w
                      | None => <[day := []]> (daily_dir w)
                      end;
         tmp_dir := tmp_dir w; trace := trace w |}
  else
    let merged := concat (map snd parts) in
    unlink_all day parts
      (emit (WriteDaily day merged)
         {| daily_dir := <[day := merged]> (daily_dir w);
            tmp_dir := tmp_dir w; trace := trace w |}).

(** *** [_fetch_day] *)

Record config : Type := {
  per_page : Z;
  max_retries : Z;
  too_many_requests_timeout_sec : Z
}.

(** The local variables of [_fetch_day], with the world. *)
Record fetch_state : Type := {
  all_records : list json;
  last_numero : Z;
  page_idx : nat;
  fworld : world
}.

Definition with_world (f : world -> world) (s : fetch_state) : fetch_state :=
  {| all_records := all_records s; last_numero := last_numero s;
     page_idx := page_idx s; fworld := f (fworld s) |}.

(** [r.get("numeroannonce")] for the dict records where it is not [None]. *)
Definition numero_values (records : list json) : list json :=
  flat_map (fun r =>
              match r with
              | JDict d =>
                  match dict_get (u "numeroannonce") d with
                  | None | Some JNull => []
                  | Some v => [v]
                  end
              | _ => []
              end) records.

(** A value that orders with an [int]: an [int] or a [bool]. *)
Definition py_num (v : json) : option Z :=
  match v with
  | JInt z => Some z
  | JBool b => Some (Z.b2z b)
  | _ => None
  end.

(** [max(max(numero_values), last_numero)] when [numero_values] is not empty.
    Strings, lists and dicts do not order with the integer cursor, so one
    such value makes one of the two [max] raise [TypeError]: [None]. *)
Definition advance (values : list json) (last : Z) : option Z :=
  match values with
  | [] => Some last
  | _ => nums ← mapM py_num values; Some (foldr Z.max last nums)
  end.

Inductive page_result : Type :=
| PageRaise (s : fetch_state)     (* an exception reached the handler *)
| PageReturn (s : fetch_state)    (* [return all_records] *)
| PageBreak (s : fetch_state).    (* [break]: on to the next page *)

(** The body of the [try] from [payload = response.json()] on. *)
Definition process_page (cfg : config) (day : date) (publicationavis : pystr)
    (payload : json) (s : fetch_state) : page_result :=
  match _extract_records payload with
  | None => PageRaise s
  | Some records =>
      let s1 := {| all_records := all_records s ++ records;
                   last_numero := last_numero s;
                   page_idx := page_idx s; fworld := fworld s |} in
      if bool_decide (records = []) then PageReturn s1
      else
        let written := _write_ndjson_part day publicationavis
                         (S (page_idx s1)) records (fworld s1) in
        let s2 := {| all_records := all_records s1;
                     last_numero := last_numero s1;
                     page_idx := S (page_idx s1);
                     fworld := write_world written |} in
        match written with
        | WriteRaise _ => PageRaise s2
        | WriteDone _ =>
            match advance (numero_values records) (last_numero s2) with
            | None => PageRaise s2
            | Some n =>
                let s3 := {| all_records := all_records s2; last_numero := n;
                             page_idx := page_idx s2; fworld := fworld s2 |} in
                if bool_decide (Z.of_nat (length records) < per_page cfg)
                then PageReturn s3 else PageBreak s3
            end
        end
  end.

Definition request_params (cfg : config) (day : date) (publicationavis : pystr)
    (s : fetch_state) : params :=
  {| refine_dateparution := day;
     where_publicationavis := publicationavis;
     where_numeroannonce_gt := last_numero s;
     order_by := u "numeroannonce";
     limit := per_page cfg |}.

(** How a call of [_fetch_day] ends: it returned from inside the loop, it gave
    up after [max_retries] attempts on one page, or the responses at hand ran
    out while a request was waiting for its answer. *)
Inductive status : Type := Returned | Abandoned | Starved.

(** The two loops of [_fetch_day], from attempt [attempt] of the current page
    on.  [script] holds the answers of the API to the requests still to come;
    every attempt takes one. *)
Fixpoint fetch_loop (cfg : config) (day : date) (publicationavis : pystr)
    (script : list response) (attempt : nat) (s : fetch_state)
  : status * fetch_state * list response :=
  if bool_decide (Z.of_nat attempt < max_retries cfg) then
    let s := with_world (emit (Request (request_params cfg day publicationavis s))) s in
    match script with
    | [] => (Starved, s, [])
    | r :: script' =>
        match r with
        | Resp429 =>
            fetch_loop cfg day publicationavis script' (S attempt)
              (with_world (emit (Sleep429 (too_many_requests_timeout_sec cfg))) s)
        | RespFail =>
            fetch_loop cfg day publicationavis script' (S attempt)
              (with_world (emit (SleepBackoff attempt)) s)
        | RespOk payload =>
            match process_page cfg day publicationavis payload s with
            | PageRaise s' =>
                fetch_loop cfg day publicationavis script' (S attempt)
                  (with_world (emit (SleepBackoff attempt)) s')
            | PageReturn s' => (Returned, s', script')
            | PageBreak s' =>
                fetch_loop cfg day publicationavis script' 0 s'
            end
        end
    end
  else (Abandoned, s, script).

Definition _fetch_day (cfg : config) (day : date) (publicationavis : pystr)
    (script : list response) (w : world)
  : status * fetch_state * list response :=
  fetch_loop cfg day publicationavis script 0
    {| all_records := []; last_numero := 0; page_idx := 0;
       fworld := emit (CallFetch day publicationavis) w |}.

(** *** The day loop of [main] *)

(** [for publicationavis in PUBLICATION_TYPES: ... _fetch_day(...)]; [None]
    when the responses ran out. *)
Fixpoint fetch_types (cfg : config) (day : date) (types : list pystr)
    (script : list response) (w : world) : option (world * list response) :=
  match types with
  | [] => Some (w, script)
  | publicationavis :: rest =>
      match _fetch_day cfg day publicationavis script w with
      | (Starved, _, _) => None
      | (_, s, script') => fetch_types cfg day rest script' (fworld s)
      end
  end.

(** One turn of [for day in _date_range(start_date, end_date)]. *)
Definition visit_day (cfg : config) (day : date)
    (script : list response) (w : world) : option (world * list response) :=
  if bool_decide (is_Some (daily_dir w !! day)) then Some (w, script)
  else
    '(w', script') ← fetch_types cfg day PUBLICATION_TYPES script
                       (_cleanup_day_parts day w);
    Some (_merge_day_parts day w', script').

Fixpoint visit_days (cfg : config) (days : list date)
    (script : list response) (w : world) : option (world * list response) :=
  match days with
  | [] => Some (w, script)
  | day :: rest =>
      '(w', script') ← visit_day cfg day script w;
      visit_days cfg rest script' w'
  end.

(** The loop of [main] over the range. *)
Definition run (cfg : config) (start_date end_date : date)
    (script : list response) (w : world) : option (world * list response) :=
  visit_days cfg (_date_range start_date end_date) script w.

(** The events of [n] attempts in a row that met a 429, each one the request
    [p] and the fixed sleep. *)
Fixpoint events_429 (cfg : config) (p : params) (n : nat) : list event :=
  match n with
  | O => []
  | S n' => Request p :: Sleep429 (too_many_requests_timeout_sec cfg)
              :: events_429 cfg p n'
  end.

(** The state with more events in its trace and nothing else changed. *)
Definition add_events (events : list event) (s : fetch_state) : fetch_state :=
  with_world (fun w => {| daily_dir := daily_dir w; tmp_dir := tmp_dir w;
                          trace := trace w ++ events |}) s.

Definition page_state (r : page_result) : fetch_state :=
  match r with PageRaise s | PageReturn s | PageBreak s => s end.

(** The state after the call that writes the fragment of a page of
    [records], whether it returned or raised, with the cursor at [numero]. *)
Definition staged (day : date) (publicationavis : pystr)
    (records : list json) (numero : Z) (s : fetch_state) : fetch_state :=
  {| all_records := all_records s ++ records;
     last_numero := numero;
     page_idx := S (page_idx s);
     fworld := write_world
                 (_write_ndjson_part day publicationavis (S (page_idx s)) records
                    (fworld s)) |}.

(** No record that [_extract_records] finds in the payload holds a surrogate:
    the fragment of the page can be written in full. *)
Definition payload_encodes (payload : json) : bool :=
  match _extract_records payload with
  | Some records => forallb encodes records
  | None => true
  end.

Definition response_encodes (r : response) : bool :=
  match r with
  | RespOk payload => payload_encodes payload
  | _ => true
  end.

(** *** Reading a trace *)

(** The cursor values of the page requests of a trace, in order. *)
Definition cursors (events : list event) : list Z :=
  omap (fun e => match e with
                 | Request p => Some (where_numeroannonce_gt p)
                 | _ => None
                 end) events.

Definition requests (events : list event) : list params :=
  omap (fun e => match e with Request p => Some p | _ => None end) events.

Definition written_parts (events : list event) : list (pystr * list json) :=
  omap (fun e => match e with
                 | WritePart _ name records => Some (name, records)
                 | _ => None
                 end) events.

(** The day an event is about; a sleep is about none. *)
Definition event_day (e : event) : option date :=
  match e with
  | CallCleanup day | CallFetch day _ | CallMerge day
  | WritePart day _ _ | UnlinkPart day _ | WriteDaily day _ | TouchDaily day =>
      Some day
  | Request p => Some (refine_dateparution p)
  | Sleep429 _ | SleepBackoff _ => None
  end.

(** The sequence numbers of a page, when all of them are integers. *)
Definition page_numbers (records : list json) : option (list Z) :=
  mapM py_num (numero_values records).

(** The calls of the three functions of the day loop that a trace records. *)
Definition calls (events : list event) : list event :=
  List.filter (fun e => match e with
                        | CallCleanup _ | CallFetch _ _ | CallMerge _ => true
                        | _ => false
                        end) events.

(** A request of the pagination pass over [day] and [publicationavis]: the
    day and the category as filters, ascending [numeroannonce], at most
    [per_page] records. *)
Definition request_ok (cfg : config) (day : date) (publicationavis : pystr)
    (p : params) : Prop :=
  refine_dateparution p = day /\ where_publicationavis p = publicationavis
  /\ order_by p = u "numeroannonce" /\ limit p = per_page cfg.

(** What holds between a state [s] of the loop and a later state [s'], with
    the events of the trace in between: the cursor has not gone down, the
    requests carried the cursor values of the time, in order, and nothing but
    the fragments of [day] was touched. *)
Definition run_ok (cfg : config) (day : date) (publicationavis : pystr)
    (s s' : fetch_state) (events : list event) : Prop :=
  trace (fworld s') = trace (fworld s) ++ events
  /\ StronglySorted Z.le (cursors events)
  /\ Forall (fun c => last_numero s <= c <= last_numero s') (cursors events)
  /\ last_numero s <= last_numero s'
  /\ Forall (request_ok cfg day publicationavis) (requests events)
  /\ Forall (fun e => event_day e = Some day \/ event_day e = None) events
  /\ daily_dir (fworld s') = daily_dir (fworld s)
  /\ (forall d, d <> day -> tmp_dir (fworld s') !! d = tmp_dir (fworld s) !! d)
  /\ calls events = [].

(** The fragments of a day in page order: for each category in turn, its pages
    1 to [pages publicationavis], page [i] holding [content publicationavis i]. *)
Definition pages_in_order (pages : pystr -> nat)
    (content : pystr -> nat -> list json) : list (pystr * list json) :=
  flat_map (fun publicationavis =>
              map (fun i => (part_name publicationavis i, content publicationavis i))
                  (seq 1 (pages publicationavis)))
           PUBLICATION_TYPES.

Definition name_lt (a b : pystr * list json) : Prop :=
  name_le a b /\ a.1 <> b.1.

(** From [w] to [w'] nothing was touched but the files of [day], and the
    events in between are about [day]. *)
Definition touches_only (day : date) (w w' : world) (events : list event) : Prop :=
  trace w' = trace w ++ events
  /\ Forall (fun e => event_day e = Some day \/ event_day e = None) events
  /\ (forall d, d <> day -> daily_dir w' !! d = daily_dir w !! d)
  /\ (forall d, d <> day -> tmp_dir w' !! d = tmp_dir w !! d).

End Fetcher.

(** ** Worked inputs *)

Module Example.
Import Fetcher.

Definition empty_world : world :=
  {| daily_dir := ∅; tmp_dir := ∅; trace := [] |}.

Definition config3 : config :=
  {| per_page := 2; max_retries := 3; too_many_requests_timeout_sec := 300 |}.

(** 5 March 2024, as an ordinal. *)
Definition day1 : date := 738950.

Definition announcement (numero : Z) (registre text : pystr) : json :=
  JDict [ (u "numeroannonce", JInt numero);
          (u "dateparution", JStr (u "2024-03-05"));
          (u "registre", JStr registre);
          (u "familleavis_lib", JStr text) ].

(** A payload with the [results] wrapper around each record. *)
Definition page (numeros : list Z) : json :=
  JDict [ (u "total_count", JInt 3);
          (u "results",
           JList (map (fun n => JDict [(u "record",
                                        announcement n (u "123 456 789")
                                          (u "Jugement de liquidation judiciaire"))])
                      numeros)) ].

Definition start (w : world) : fetch_state :=
  {| all_records := []; last_numero := 0; page_idx := 0; fworld := w |}.


(** One record a page: a day with [n] announcements of category A and none
    of B and C, answered without any failure. *)
Definition config1 : config :=
  {| per_page := 1; max_retries := 5; too_many_requests_timeout_sec := 300 |}.

Definition one_a_page (n : nat) : list response :=
  map (fun i => RespOk (page [Z.of_nat i])) (seq 1 n)
  ++ [RespOk (page []); RespOk (page []); RespOk (page [])].

(** The sequence numbers of the records of a file, in file order. *)
Definition numeros (content : list json) : list Z :=
  omap (fun r => match r with
                 | JDict d => match dict_get (u "numeroannonce") d with
                              | Some (JInt n) => Some n
                              | _ => None
                              end
                 | _ => None
                 end) content.

End Example.

(** ** The filter: [src/main/03_filter_BODACC_by_day.py] *)

Module Filter.

Definition DEFAULT_TOPAGE_KEYWORDS : list pystr :=
  [ u "sauvegarde";
    u "redressement judiciaire";
    u "liquidation judiciaire";
    u "radiation";
    u "cloture pour insuffisance d'actifs" ].

Definition TEXT_COLUMNS_CANDIDATES : list pystr :=
  [ u "texte"; u "text"; u "objet"; u "description"; u "resume" ].

(** The field list of [_should_tag_topage]. *)
Definition TAG_FIELDS : list pystr :=
  TEXT_COLUMNS_CANDIDATES ++
  [ u "familleavis_lib"; u "typeavis_lib"; u "jugement";
    u "modificationsgenerales"; u "divers" ].

Section Library.

(** The functions of the Python library the filter calls. *)
Variable isdigit : N -> bool.          (* [ch.isdigit()] *)
Variable str_lower : pystr -> pystr.   (* [text.lower()] *)
Variable nfd : pystr -> pystr.         (* [unicodedata.normalize("NFD", .)] *)
Variable category_Mn : N -> bool.      (* [unicodedata.category(c) == "Mn"] *)
Variable json_loads : pystr -> option json.  (* [None]: it raised *)

(** [_clean_registre_values]. *)
Definition digits_only (value : pystr) : pystr := List.filter isdigit value.

Fixpoint _clean_registre_values (values : list json) : list pystr :=
  match values with
  | [] => []
  | JStr value :: rest =>
      let d := digits_only value in
      if bool_decide (d = []) then _clean_registre_values rest
      else d :: _clean_registre_values rest
  | _ :: rest => _clean_registre_values rest
  end.

(** [_matched_sirens]; [record] is the dict of the record. *)
Definition registre_list (record : list (pystr * json)) : list json :=
  match dict_get (u "registre") record with
  | None => []
  | Some registre_values =>
      if negb (truthy registre_values) then []
      else match registre_values with
           | JStr _ => [registre_values]
           | JList l => l
           | _ => []
           end
  end.

(** The identifier candidates as the specification words them: the
    [registre] field when it is one string, or its strings when it is a
    list. *)
Definition registre_candidates (record : list (pystr * json)) : list pystr :=
  match dict_get (u "registre") record with
  | Some (JStr s) => [s]
  | Some (JList l) =>
      omap (fun v => match v with JStr s => Some s | _ => None end) l
  | _ => []
  end.

Definition _matched_sirens (record : list (pystr * json))
    (sirens : gset pystr) : list pystr :=
  List.filter (fun value => bool_decide (value ∈ sirens))
    (_clean_registre_values (registre_list record)).

(** [_normalize_text]. *)
Definition _normalize_text (text : pystr) : pystr :=
  List.filter (fun c => negb (category_Mn c)) (nfd (str_lower text)).

(** [_deep_collect_text].  The string case recurses into the value
    [json.loads] returns, which is smaller than its text; [n] bounds the
    depth of the calls and [json_size] is enough. *)
Fixpoint collect_text (n : nat) (obj : json) : list pystr :=
  match n with
  | O => []
  | S n' =>
      match obj with
      | JDict d => flat_map (fun kv => collect_text n' (snd kv)) d
      | JList l => flat_map (collect_text n') l
      | JStr s =>
          s :: match json_loads s with
               | Some parsed => collect_text n' parsed
               | None => []
               end
      | _ => []
      end
  end.

Definition _deep_collect_text (obj : json) : list pystr :=
  collect_text (json_size obj) obj.

(** [_flag_keywords]. *)
Definition _flag_keywords (text : pystr) (keywords : list pystr) : bool :=
  if bool_decide (text = []) then false
  else
    let content := _normalize_text text in
    existsb (fun keyword => str_contains keyword content) keywords.

(** [_should_tag_topage]. *)
Definition text_parts (record : list (pystr * json)) : list pystr :=
  flat_map (fun field =>
              match dict_get field record with
              | Some v => _deep_collect_text v
              | None => []
              end) TAG_FIELDS.

Definition _should_tag_topage (record : list (pystr * json))
    (keywords : list pystr) : bool :=
  if bool_decide (keywords = []) then false
  else _flag_keywords (str_join (u " ") (text_parts record)) keywords.

(** [datetime.strptime(value, fmt).strftime("%Y%m%d")]; [None]: it raised. *)
Variable strptime_strftime : pystr -> pystr -> option pystr.

(** [_parse_day]: the first format that parses. *)
Fixpoint first_format (value : pystr) (fmts : list pystr) : option pystr :=
  match fmts with
  | [] => None
  | fmt :: rest =>
      match strptime_strftime value fmt with
      | Some day => Some day
      | None => first_format value rest
      end
  end.

Definition _parse_day (value : pystr) : option pystr :=
  first_format value [u "%Y-%m-%d"; u "%d/%m/%Y"; u "%Y%m%d"].

(** The filtered directory maps [d] to the file [<d>_bodacc_filtered.jsonl];
    a JSON-lines file is the list of its records. *)
Definition _existing_days (output_dir : gmap pystr (list json)) : gset pystr :=
  list_to_set
    (omap (fun d => let name := d ++ u "_bodacc_filtered" in
                    if bool_decide (8 <= length name)%nat
                    then Some (take 8 name) else None)
          (elements (dom output_dir))).

(** [_write_day_file]. *)
Definition _write_day_file (day_str : pystr) (records : list json)
    (output_dir : gmap pystr (list json)) : gmap pystr (list json) :=
  match output_dir !! day_str with
  | Some _ => output_dir
  | None => <[day_str := records]> output_dir
  end.

(** A source file: the stem of its name and the lines [_load_bodacc_jsonl]
    keeps (the ones that are not blank and that parse). *)
Record input_file : Type := { stem : pystr; lines : list json }.

(** [input_file.stem.split("_")[0]], when it is 8 digits. *)
Fixpoint before_underscore (name : pystr) : pystr :=
  match name with
  | [] => []
  | c :: rest => if bool_decide (c = 95%N) then [] else c :: before_underscore rest
  end.

Definition day_from_name (f : input_file) : option pystr :=
  let head := before_underscore (stem f) in
  if forallb isdigit head && bool_decide (head <> [])
     && bool_decide (length head = 8%nat)
  then Some head else None.

Variable sirens : gset pystr.
Variable keywords : list pystr.
(** The three PICRIS numbers of a SIREN, in the order CCPMA, CPCEA, AGRI. *)
Variable sirens_info : gmap pystr (pystr * pystr * pystr).

(** The enrichment loop: the first match that has an entry. *)
Fixpoint enrich (matches : list pystr) (record : list (pystr * json))
  : list (pystr * json) :=
  match matches with
  | [] => record
  | siren :: rest =>
      match sirens_info !! siren with
      | Some (ccpma, cpcea, agri) =>
          dict_set (u "MATRICULE_PICRIS_AGRI") (JStr agri)
            (dict_set (u "MATRICULE_PICRIS_CPCEA") (JStr cpcea)
               (dict_set (u "MATRICULE_PICRIS_CCPMA") (JStr ccpma) record))
      | None => enrich rest record
      end
  end.

(** [seen_per_day] and [kept_per_day] of the file being read. *)
Record per_file : Type := {
  seen_per_day : gset pystr;
  kept_per_day : gmap pystr (list json)
}.

(** The body of the loop over the records of one file; [None] is an
    exception ([record.get] on a line that is not an object). *)
Definition filter_record (existing : gset pystr) (acc : per_file)
    (record : json) : option per_file :=
  match record with
  | JDict d =>
      match dict_get (u "dateparution") d with
      | Some (JStr date_parution) =>
          match _parse_day date_parution with
          | None => Some acc
          | Some day_str =>
              if bool_decide (day_str = []) then Some acc
              else if bool_decide (day_str ∈ existing) then Some acc
              else
                let seen := seen_per_day acc ∪ {[day_str]} in
                let matches := _matched_sirens d sirens in
                if bool_decide (matches = []) then
                  Some {| seen_per_day := seen; kept_per_day := kept_per_day acc |}
                else if negb (_should_tag_topage d keywords) then
                  Some {| seen_per_day := seen; kept_per_day := kept_per_day acc |}
                else
                  let tagged := dict_set (u "topage_DDJC") (JStr (u "oui")) d in
                  let enriched := enrich matches tagged in
                  Some {| seen_per_day := seen;
                          kept_per_day :=
                            <[day_str := default [] (kept_per_day acc !! day_str)
                                         ++ [JDict enriched]]> (kept_per_day acc) |}
          end
      | _ => Some acc
      end
  | _ => None
  end.

Fixpoint filter_lines (existing : gset pystr) (acc : per_file)
    (records : list json) : option per_file :=
  match records with
  | [] => Some acc
  | record :: rest =>
      acc' ← filter_record existing acc record;
      filter_lines existing acc' rest
  end.

(** The publication day of a line, as [filter_record] reads it: the
[dateparution] string of an object, when it parses to a day. *)
Definition publication_day (record : json) : option pystr :=
  match record with
  | JDict d =>
      match dict_get (u "dateparution") d with
      | Some (JStr date_parution) =>
          match _parse_day date_parution with
          | Some day_str => if bool_decide (day_str = []) then None else Some day_str
          | None => None
          end
      | _ => None
      end
  | _ => None
  end.

(** The record as it is written out: tagged, with the PICRIS numbers of its
first match that has an entry. *)
Definition enriched (d : list (pystr * json)) : json :=
  JDict (enrich (_matched_sirens d sirens)
           (dict_set (u "topage_DDJC") (JStr (u "oui")) d)).

(** The lines of a file that go to the file of [day_str]: the records of
that publication day that match an identifier and a keyword. *)
Definition kept_for (day_str : pystr) (records : list json) : list json :=
  flat_map (fun record =>
              match record with
              | JDict d =>
                  if bool_decide (publication_day record = Some day_str)
                     && negb (bool_decide (_matched_sirens d sirens = []))
                     && _should_tag_topage d keywords
                  then [enriched d] else []
              | _ => []
              end) records.

(** The publication days of the lines that have no filtered file yet. *)
Definition fresh_days (st_existing : gset pystr) (records : list json)
  : gset pystr :=
  list_to_set
    (omap (fun record =>
             match publication_day record with
             | Some day => if bool_decide (day ∈ st_existing) then None else Some day
             | None => None
             end) records).

(** The test at the head of the loop over the files: the day in the name of
the file, if any, has its filtered file already. *)
Definition skipped (st_existing : gset pystr) (f : input_file) : bool :=
  match day_from_name f with
  | Some target_day => bool_decide (target_day ∈ st_existing)
  | None => false
  end.

(** [existing] and the filtered directory. *)
Record filter_state : Type := {
  existing : gset pystr;
  target_dir : gmap pystr (list json)
}.

(** Every day in [existing] has its filtered file. *)
Definition covered (st : filter_state) : Prop :=
  forall d, d ∈ existing st -> is_Some (target_dir st !! d).

(** [for day_str in sorted(seen_per_day): _write_day_file(...);
    existing.add(day_str)]. *)
Definition write_days (acc : per_file) (st : filter_state) : filter_state :=
  foldl (fun st day_str =>
           {| existing := existing st ∪ {[day_str]};
              target_dir := _write_day_file day_str
                              (default [] (kept_per_day acc !! day_str))
                              (target_dir st) |})
        st (merge_sort str_le (elements (seen_per_day acc))).

(** One turn of [for input_file in input_files]. *)
Definition filter_file (st : filter_state) (f : input_file) : filter_state :=
  if skipped (existing st) f
  then st
  else
    match filter_lines (existing st)
            {| seen_per_day := ∅; kept_per_day := ∅ |} (lines f) with
    | None => st
    | Some acc => write_days acc st
    end.

(** [_filter_records]: the filtered directory it leaves. *)
Definition _filter_records (input_files : list input_file)
    (target_dir0 : gmap pystr (list json)) : gmap pystr (list json) :=
  target_dir
    (foldl filter_file
       {| existing := _existing_days target_dir0; target_dir := target_dir0 |}
       input_files).

End Library.

End Filter.

(** ** A model of the library functions on Latin-1 text

    The examples of the specification are Latin-1 text.  The tables below give
    [str.isdigit], [str.lower], the canonical decomposition and the category
    test on Basic Latin, the Latin-1 Supplement and the combining diacritical
    marks (U+0300 to U+036F).  They say nothing of the code points of other
    blocks, which [str_lower] and [nfd] leave as they are and which count as
    no digit and no mark: the model is the library on text of these three
    blocks.
    Canonical reordering only permutes combining marks, which
    [_normalize_text] drops, so the decomposition is taken mark order as
    produced. *)

Module Latin1.

(** The digits [0] to [9]. *)
Definition ascii_digit (c : N) : bool := ((48 <=? c) && (c <=? 57))%N.

(** [str.isdigit] of one character: the digits [0] to [9] and the
    superscripts U+00B2, U+00B3 and U+00B9. *)
Definition isdigit (c : N) : bool :=
  ascii_digit c || (c =? 178)%N || (c =? 179)%N || (c =? 185)%N.

Definition lower_cp (c : N) : N :=
  if ((65 <=? c) && (c <=? 90))%N then (c + 32)%N
  else if ((192 <=? c) && (c <=? 222) && negb (c =? 215))%N then (c + 32)%N
  else c.

Definition str_lower (text : pystr) : pystr := map lower_cp text.

(** The combining mark of a lower-case accented Latin-1 letter, with its base
    letter. *)
Definition decompose_lower (c : N) : option (N * N) :=
  match c with
  | 224 => Some (97, 768) | 225 => Some (97, 769) | 226 => Some (97, 770)
  | 227 => Some (97, 771) | 228 => Some (97, 776) | 229 => Some (97, 778)
  | 231 => Some (99, 807)
  | 232 => Some (101, 768) | 233 => Some (101, 769) | 234 => Some (101, 770)
  | 235 => Some (101, 776)
  | 236 => Some (105, 768) | 237 => Some (105, 769) | 238 => Some (105, 770)
  | 239 => Some (105, 776)
  | 241 => Some (110, 771)
  | 242 => Some (111, 768) | 243 => Some (111, 769) | 244 => Some (111, 770)
  | 245 => Some (111, 771) | 246 => Some (111, 776)
  | 249 => Some (117, 768) | 250 => Some (117, 769) | 251 => Some (117, 770)
  | 252 => Some (117, 776)
  | 253 => Some (121, 769) | 255 => Some (121, 776)
  | _ => None
  end%N.

(** Canonical decomposition of one code point: the upper-case letters
    U+00C0 to U+00DD decompose as their lower-case forms do, on the
    upper-case base letter; four of the combining marks stand for other
    marks. *)
Definition decompose (c : N) : pystr :=
  match decompose_lower c with
  | Some (base, mark) => [base; mark]
  | None =>
      if ((192 <=? c) && (c <=? 221))%N then
        match decompose_lower (c + 32) with
        | Some (base, mark) => [(base - 32)%N; mark]
        | None => [c]
        end
      else
        match c with
        | 832 => [768] | 833 => [769] | 835 => [787] | 836 => [776; 769]
        | _ => [c]
        end%N
  end.

Definition nfd (text : pystr) : pystr := flat_map decompose text.

Definition category_Mn (c : N) : bool := ((768 <=? c) && (c <=? 879))%N.

(** [json.loads] on the texts that are one string literal without escapes,
    or one run of decimal digits; [None] on any other text. *)
Definition plain_char (c : N) : bool :=
  negb ((c =? 34) || (c =? 92) || (c <? 32))%N.

Definition digit_value (c : N) : Z := Z.of_N c - 48.

Definition json_loads (text : pystr) : option json :=
  match text with
  | 34%N :: rest =>
      match reverse rest with
      | 34%N :: inner_rev =>
          if forallb plain_char inner_rev then Some (JStr (reverse inner_rev))
          else None
      | _ => None
      end
  | c :: rest =>
      if forallb ascii_digit text && (negb (c =? 48)%N || bool_decide (rest = []))
      then Some (JInt (foldl (fun acc d => 10 * acc + digit_value d) 0 text))
      else None
  | [] => None
  end.

(** [strptime] then [strftime("%Y%m%d")] on the texts [YYYY-MM-DD] of ten
    characters with the format [%Y-%m-%d]; [None] on anything else.  The
    calendar is not checked. *)
Definition strptime_strftime (value fmt : pystr) : option pystr :=
  if bool_decide (fmt = u "%Y-%m-%d") then
    match value with
    | [y1; y2; y3; y4; 45%N; m1; m2; 45%N; d1; d2] =>
        let day := [y1; y2; y3; y4; m1; m2; d1; d2] in
        if forallb ascii_digit day then Some day else None
    | _ => None
    end
  else None.

End Latin1.

(** ** Worked inputs of the filter *)

Module FilterExample.
Import Filter.

Definition sirens : gset pystr := {[ u "123456789" ]}.

Definition sirens_info : gmap pystr (pystr * pystr * pystr) :=
  {[ u "123456789" := (u "CC-1", u "CP-2", u "AG-3") ]}.

Definition notice (numero : Z) (dateparution registre text : pystr) : json :=
  JDict [ (u "numeroannonce", JInt numero);
          (u "dateparution", JStr dateparution);
          (u "registre", JStr registre);
          (u "familleavis_lib", JStr text) ].

(** The file of 4 March holds a record published on 5 March; the file of
    5 March holds one record of 5 March and one of 6 March.  All three match
    the registry and a keyword. *)
Definition file_0304 : input_file :=
  {| stem := u "20240304_bodacc_update";
     lines := [ notice 1 (u "2024-03-05") (u "123 456 789")
                  (u "Jugement de liquidation judiciaire") ] |}.

Definition file_0305 : input_file :=
  {| stem := u "20240305_bodacc_update";
     lines := [ notice 2 (u "2024-03-05") (u "SIREN:123456789")
                  (u "Redressement judiciaire");
                notice 3 (u "2024-03-06") (u "123456789")
                  (u "Radiation d'office");
                notice 4 (u "2024-03-06") (u "987654321")
                  (u "Radiation d'office") ] |}.

(** [_filter_records] with the Latin-1 library model, this registry and the
    default keywords. *)
Definition filter_records :=
  _filter_records Latin1.isdigit Latin1.str_lower Latin1.nfd Latin1.category_Mn
    Latin1.json_loads Latin1.strptime_strftime sirens DEFAULT_TOPAGE_KEYWORDS
    sirens_info.

Definition day_of : json -> option pystr :=
  publication_day Latin1.strptime_strftime.

End FilterExample.

(** ** The entry point of the fetcher: [main] of [02_get_BODACC_by_day.py] *)

Module FetcherMain.
Import Fetcher.

(** The generator [_date_range] turn by turn: [current] starts at [start],
    each turn of the [while] yields it and adds one day.  [fuel] bounds the
    number of turns; [None] when it runs out. *)
Fixpoint _date_range_while (fuel : nat) (current end_ : date) : option (list date) :=
  if bool_decide (current <= end_) then
    match fuel with
    | O => None
    | S fuel' => cons current <$> _date_range_while fuel' (current + 1) end_
    end
  else Some [].

(** [args.start_date] and [args.end_date]: not given (or empty), a text
    [_parse_date] refuses ([strptime] raises [ValueError]), or a date. *)
Inductive date_arg : Type :=
| NoArg
| BadArg
| DateArg (d : date).

(** [_parse_date(arg) if arg else default]; [None] is the [ValueError]. *)
Definition arg_or (a : date_arg) (default_date : date) : option date :=
  match a with
  | NoArg => Some default_date
  | BadArg => None
  | DateArg d => Some d
  end.

(** The dates [main] works on, from [today = dt.date.today()] to the test
    [start_date > end_date]; [None] is a raised [ValueError].  Dates are
    ordinals here, without the first and the last day [datetime.date] has. *)
Definition date_window (today : date) (default_depth : Z)
    (start_arg end_arg : date_arg) : option (date * date) :=
  let yesterday := today - 1 in
  start_date ← arg_or start_arg (yesterday - (default_depth - 1));
  end_date ← arg_or end_arg yesterday;
  let end_date := if bool_decide (end_date >= today) then yesterday else end_date in
  if bool_decide (start_date > end_date) then None
  else Some (start_date, end_date).

(** How [main] ends: an exception reached its handler before the day loop
    ([sys.exit(1)]), or the day loop ran. *)
Inductive main_result : Type :=
| MainError
| MainRan (r : option (world * list response)).

(** [main], from the dates on to the end of the day loop, with a
    configuration that has the entries [main] reads.  The summary files
    [_write_tmp_outputs] writes after the loop are left out. *)
Definition main (cfg : config) (today : date) (default_depth : Z)
    (start_arg end_arg : date_arg) (script : list response) (w : world)
  : main_result :=
  match date_window today default_depth start_arg end_arg with
  | None => MainError
  | Some (start_date, end_date) => MainRan (run cfg start_date end_date script w)
  end.

(** The days of the page requests of a trace, in order. *)
Definition requested_days (events : list event) : list date :=
  map refine_dateparution (requests events).

End FetcherMain.

(** ** What a turn of the day loop stages and collects *)

Module Staging.
Import Fetcher.

(** [combined_records] of one turn of the day loop of [main]: the lists that
    the calls of [_fetch_day] return, one category after the other. *)
Fixpoint combined_records (cfg : config) (day : date) (types : list pystr)
    (script : list response) (w : world) : list json :=
  match types with
  | [] => []
  | publicationavis :: rest =>
      let '(_, s, script') := _fetch_day cfg day publicationavis script w in
      all_records s ++ combined_records cfg day rest script' (fworld s)
  end.

(** A directory of fragments after the files [parts] were written to it, in
    this order: a later file of the same name replaces the earlier one. *)
Definition apply_parts (parts : list (pystr * list json))
    (dir : gmap pystr (list json)) : gmap pystr (list json) :=
  foldl (fun m p => <[p.1 := p.2]> m) dir parts.

(** The fragments of the pages [pages] of a category, numbered from
    [first] on. *)
Definition page_files (publicationavis : pystr) (first : nat)
    (pages : list (list json)) : list (pystr * list json) :=
  imap (fun i page => (part_name publicationavis (first + i), page)) pages.

(** From [s] to [s'] the loop of [_fetch_day] staged the pages [pages], one
    fragment a page under the next page numbers, each with the lines of the
    page that could be written, put the records of the pages at the end of
    [all_records], and did nothing else to the fragments of [day]. *)
Definition staged_pages (day : date) (publicationavis : pystr)
    (s s' : fetch_state) (pages : list (list json)) : Prop :=
  exists events,
    trace (fworld s') = trace (fworld s) ++ events
    /\ written_parts events
       = page_files publicationavis (S (page_idx s)) (map written_lines pages)
    /\ page_idx s' = (page_idx s + length pages)%nat
    /\ all_records s' = all_records s ++ concat pages
    /\ day_parts day (fworld s')
       = apply_parts (written_parts events) (day_parts day (fworld s))
    /\ Forall (fun page => page <> []) pages.

(** Every record of the pages can be written: each fragment holds its page
    whole. *)
Definition all_encode (pages : list (list json)) : Prop :=
  Forall (fun page => forallb encodes page = true) pages.

(** A text of decimal digits read as a number. *)
Definition digits_value (text : pystr) : nat :=
  foldl (fun acc c => (10 * acc + (N.to_nat c - 48))%nat) 0%nat text.

End Staging.

Module DayFiles.
Import Fetcher Staging.

(** The fragments of a day after its three categories were fetched without
    any fragment there before: the pages of A, of B and of C under the page
    numbers 1, 2, ... of each category, in the order they were written. *)
Definition day_files (pages_A pages_B pages_C : list (list json))
  : list (pystr * list json) :=
  page_files (u "A") 1 pages_A ++ page_files (u "B") 1 pages_B
  ++ page_files (u "C") 1 pages_C.

End DayFiles.

(** ** Worked runs of the day loop *)

Module RunExample.
Import Fetcher Example.

(** A day with three announcements of category A, two a page, and none of B
    and C. *)
Definition three_a : list response :=
  [RespOk (page [1; 2]); RespOk (page [3]); RespOk (page []); RespOk (page [])].

(** The world after the turn of the day loop for [day1] on these answers. *)
Definition after_three_a : world :=
  match visit_day config3 day1 three_a empty_world with
  | Some (w, _) => w
  | None => empty_world
  end.

(** A page whose record has a text as its [numeroannonce]. *)
Definition text_numero : json :=
  JDict [ (u "results",
           JList [JDict [ (u "numeroannonce", JStr (u "A12"));
                          (u "dateparution", JStr (u "2024-03-05")) ]]) ].

(** The records of a page where the second one has a lone surrogate,
    U+D800, in a field, as [json.loads] makes of the escape [\ud800]. *)
Definition surrogate_records : list json :=
  [ announcement 1 (u "123 456 789") (u "radiation");
    JDict [ (u "numeroannonce", JInt 2);
            (u "dateparution", JStr (u "2024-03-05"));
            (u "commercant", JStr [68%N; 55296%N]) ] ].

Definition lone_surrogate : json :=
  JDict [(u "results", JList surrogate_records)].

End RunExample.

(** ** More Python values: [str.strip], the strings inside a value *)

(** [s.lstrip()] and [s.strip()]: the white space ([ch.isspace()]) at the two
    ends is dropped. *)
Fixpoint lstrip (isspace : N -> bool) (s : pystr) : pystr :=
  match s with
  | [] => []
  | c :: rest => if isspace c then lstrip isspace rest else s
  end.

Definition strip (isspace : N -> bool) (s : pystr) : pystr :=
  reverse (lstrip isspace (reverse (lstrip isspace s))).

(** The strings that are a value or sit inside it, as values of its objects
    and items of its lists, in the order of the text; the keys of the objects
    are not among them. *)
Fixpoint strings_of (x : json) : list pystr :=
  match x with
  | JStr s => [s]
  | JList l => flat_map strings_of l
  | JDict d => flat_map (fun kv => strings_of (snd kv)) d
  | _ => []
  end.

(** ** The inputs of the filter: [main] of [03_filter_BODACC_by_day.py] *)

Module FilterMain.
Import Filter.

Section Library.

Variable isdigit : N -> bool.          (* [ch.isdigit()] *)
Variable isspace : N -> bool.          (* [ch.isspace()] *)
Variable str_lower : pystr -> pystr.   (* [text.lower()] *)
Variable splitlines : pystr -> list pystr.   (* [text.splitlines()] *)

(** [_read_keywords].  [raw_value] is the text
    [config["keywords"].get(option, "")], and [None] when the configuration
    has no section [keywords]. *)
Definition _read_keywords (raw_value : option pystr) : list pystr :=
  match raw_value with
  | None => []
  | Some raw =>
      map (fun line => str_lower (strip isspace line))
        (List.filter (fun line => negb (bool_decide (strip isspace line = [])))
           (splitlines raw))
  end.

(** [_read_keywords(config, "topage_keywords") or DEFAULT_TOPAGE_KEYWORDS]. *)
Definition topage_keywords (raw_value : option pystr) : list pystr :=
  let configured := _read_keywords raw_value in
  if bool_decide (configured = []) then DEFAULT_TOPAGE_KEYWORDS else configured.

(** A row as [csv.DictReader] yields it: the cell under each column name of
    the header, [None] under a column the line is too short for. *)
Definition csv_row : Type := gmap pystr (option pystr).

(** [row.get(column) or ""]. *)
Definition get_or_empty (column : pystr) (row : csv_row) : pystr :=
  match row !! column with
  | Some (Some cell) => cell
  | _ => []
  end.

(** [row.get(column, "").strip()]; on the [None] of a short line [strip] is
    no attribute: [None] here is this [AttributeError]. *)
Definition get_stripped (column : pystr) (row : csv_row) : option pystr :=
  match row !! column with
  | None => Some (strip isspace [])
  | Some None => None
  | Some (Some cell) => Some (strip isspace cell)
  end.

(** The SIREN of a row: the digits of its cell [CODE_SIREN]. *)
Definition row_siren (row : csv_row) : pystr :=
  List.filter isdigit (strip isspace (get_or_empty (u "CODE_SIREN") row)).

(** A key of the registry as the loop takes it: nine digits. *)
Definition valid_key (siren : pystr) : Prop :=
  length siren = 9%nat /\ Forall (fun c => isdigit c = true) siren.

(** The body of the loop of [_load_sirens_with_info] over the rows. *)
Definition load_row (data : gmap pystr (pystr * pystr * pystr)) (row : csv_row)
  : option (gmap pystr (pystr * pystr * pystr)) :=
  let siren := row_siren row in
  if bool_decide (length siren <> 9%nat) then Some data
  else
    ccpma ← get_stripped (u "MATRICULE_PICRIS_CCPMA") row;
    cpcea ← get_stripped (u "MATRICULE_PICRIS_CPCEA") row;
    agri ← get_stripped (u "MATRICULE_PICRIS_AGRI") row;
    Some (<[siren := (ccpma, cpcea, agri)]> data).

Fixpoint load_rows (data : gmap pystr (pystr * pystr * pystr))
    (rows : list csv_row) : option (gmap pystr (pystr * pystr * pystr)) :=
  match rows with
  | [] => Some data
  | row :: rest => data' ← load_row data row; load_rows data' rest
  end.

(** [_load_sirens_with_info].  [file] is the rows of the CSV file, [None]
    when there is no file; an exception in the loop gives the empty
    dictionary. *)
Definition _load_sirens_with_info (file : option (list csv_row))
  : gmap pystr (pystr * pystr * pystr) :=
  match file with
  | None => ∅
  | Some rows => default ∅ (load_rows ∅ rows)
  end.

Variable nfd : pystr -> pystr.
Variable category_Mn : N -> bool.
Variable json_loads : pystr -> option json.
Variable strptime_strftime : pystr -> pystr -> option pystr.

(** [main], from the input files found on; [None] is an exception that
    reached its handler ([sys.exit(1)]) before any file was written. *)
Definition main (input_files : list input_file) (siren_file : option (list csv_row))
    (raw_keywords : option pystr) (target_dir0 : gmap pystr (list json))
  : option (gmap pystr (list json)) :=
  if bool_decide (input_files = []) then None
  else
    let sirens_info := _load_sirens_with_info siren_file in
    let sirens : gset pystr := dom sirens_info in
    if bool_decide (sirens = ∅) then None
    else
      Some (_filter_records isdigit str_lower nfd category_Mn json_loads
              strptime_strftime sirens (topage_keywords raw_keywords) sirens_info
              input_files target_dir0).

End Library.

End FilterMain.

Module Latin1Text.

(** [str.isspace] on Basic Latin and the Latin-1 Supplement. *)
Definition isspace (c : N) : bool :=
  (((9 <=? c) && (c <=? 13)) || ((28 <=? c) && (c <=? 32))
   || (c =? 133) || (c =? 160))%N.

(** The line boundaries of [str.splitlines] in these blocks. *)
Definition is_boundary (c : N) : bool :=
  (((10 <=? c) && (c <=? 13)) || ((28 <=? c) && (c <=? 30)) || (c =? 133))%N.

(** [str.splitlines]: the lines without their ends; a carriage return
    followed by a line feed is one line end, and a line end at the very end
    opens no last empty line. *)
Fixpoint splitlines_from (cur text : pystr) : list pystr :=
  match text with
  | [] => if bool_decide (cur = []) then [] else [cur]
  | c :: rest =>
      if is_boundary c then
        cur :: splitlines_from []
                 (if (c =? 13)%N
                  then match rest with
                       | 10%N :: rest' => rest'
                       | _ => rest
                       end
                  else rest)
      else splitlines_from (cur ++ [c]) rest
  end.

Definition splitlines (text : pystr) : list pystr := splitlines_from [] text.

End Latin1Text.

(** ** [json.dumps(value, ensure_ascii=False)] *)

Module JsonText.

Definition hex_digit (n : N) : N :=
  if (n <? 10)%N then (48 + n)%N else (87 + n)%N.

(** One character inside a string: the quote, the backslash and the control
    characters are escaped, any other character is written as it is. *)
Definition escape (c : N) : pystr :=
  if (c =? 34)%N then [92; 34]%N
  else if (c =? 92)%N then [92; 92]%N
  else if (c =? 10)%N then [92; 110]%N
  else if (c =? 13)%N then [92; 114]%N
  else if (c =? 9)%N then [92; 116]%N
  else if (c =? 8)%N then [92; 98]%N
  else if (c =? 12)%N then [92; 102]%N
  else if (c <? 32)%N then
    [92; 117; 48; 48]%N ++ [hex_digit (c / 16); hex_digit (c mod 16)]
  else [c].

Definition quoted (s : pystr) : pystr :=
  [34%N] ++ flat_map escape s ++ [34%N].

Definition int_text (z : Z) : pystr :=
  if z <? 0 then 45%N :: str_of_nat (Z.to_nat (- z)) else str_of_nat (Z.to_nat z).

Fixpoint json_dumps (x : json) : pystr :=
  match x with
  | JNull => u "null"
  | JBool true => u "true"
  | JBool false => u "false"
  | JInt z => int_text z
  | JStr s => quoted s
  | JList l => u "[" ++ str_join (u ", ") (map json_dumps l) ++ u "]"
  | JDict d =>
      u "{" ++ str_join (u ", ")
                 (map (fun kv => quoted (fst kv) ++ u ": " ++ json_dumps (snd kv)) d)
      ++ u "}"
  end.

End JsonText.

Module FilterState.
Import Filter.

(** The days of [existing] are the days of the files of the filtered
    directory, and they are written with eight characters. *)
Definition in_step (st : filter_state) : Prop :=
  existing st = dom (target_dir st)
  /\ forall d, d ∈ existing st -> length d = 8%nat.

(** The four fields the filter sets on a record it keeps. *)
Definition FIELDS_SET : list pystr :=
  [ u "topage_DDJC"; u "MATRICULE_PICRIS_CCPMA"; u "MATRICULE_PICRIS_CPCEA";
    u "MATRICULE_PICRIS_AGRI" ].

End FilterState.

(** ** The text of the JSON-lines files *)

Module Ndjson.

Section Library.

Variable json_dumps : json -> pystr.   (* [json.dumps(record, ensure_ascii=False)] *)
Variable json_loads : pystr -> option json.   (* [None]: [JSONDecodeError] *)
Variable isspace : N -> bool.          (* [ch.isspace()] *)

(** The text [_write_ndjson_part] writes for the records it gets through:
    each record and a line feed. *)
Definition part_text (records : list json) : pystr :=
  flat_map (fun record => json_dumps record ++ [10%N]) records.

(** What reading a file in text mode gives ([Path.read_text]): a carriage
    return, alone or before a line feed, is read as a line feed. *)
Fixpoint universal_newlines (text : pystr) : pystr :=
  match text with
  | [] => []
  | c :: rest =>
      if bool_decide (c = 13%N) then
        10%N :: universal_newlines match rest with
                                   | 10%N :: rest' => rest'
                                   | _ => rest
                                   end
      else c :: universal_newlines rest
  end.

(** The text [_merge_day_parts] writes: the texts read from the fragments,
    one after the other. *)
Definition merged_text (parts : list pystr) : pystr :=
  concat (map universal_newlines parts).

(** The text [_write_day_file] writes from the lines it is given, and
    nothing when there is none. *)
Definition day_file_text (records : list pystr) : pystr :=
  if bool_decide (records = []) then []
  else str_join [10%N] records ++ [10%N].

(** [for line in stream] on a file opened in text mode: a line ends at a line
    feed, at a carriage return or at the two in a row, and comes with a line
    feed at its end; what follows the last line end is a last line when it is
    not empty.  [cur] is the line read so far. *)
Fixpoint stream_lines (cur text : pystr) : list pystr :=
  match text with
  | [] => if bool_decide (cur = []) then [] else [cur]
  | c :: rest =>
      if bool_decide (c = 10%N) then
        (cur ++ [10%N]) :: stream_lines [] rest
      else if bool_decide (c = 13%N) then
        (cur ++ [10%N])
          :: stream_lines [] match rest with
                             | 10%N :: rest' => rest'
                             | _ => rest
                             end
      else stream_lines (cur ++ [c]) rest
  end.

(** [_load_bodacc_jsonl] on the text of the file: blank lines and lines
    [json.loads] refuses are passed over. *)
Definition _load_bodacc_jsonl (text : pystr) : list json :=
  flat_map (fun line =>
              let line := strip isspace line in
              if bool_decide (line = []) then []
              else match json_loads line with
                   | Some record => [record]
                   | None => []
                   end)
           (stream_lines [] text).

(** A text that stays on one line. *)
Definition one_line (text : pystr) : Prop :=
  Forall (fun c => c <> 10%N /\ c <> 13%N) text.

(** A record that [json.dumps] writes on one line, without white space at
    the two ends, and that [json.loads] reads back. *)
Definition reads_back (record : json) : Prop :=
  json_loads (json_dumps record) = Some record
  /\ one_line (json_dumps record)
  /\ (exists c, head (json_dumps record) = Some c /\ isspace c = false)
  /\ (exists c, last (json_dumps record) = Some c /\ isspace c = false).

End Library.

End Ndjson.

Module FilterRunExample.
Import Filter FilterExample.

(** A file with a record that matches and, after it, a line that is a JSON
    list. *)
Definition file_0306 : input_file :=
  {| stem := u "20240306_bodacc_update";
     lines := [ notice 5 (u "2024-03-06") (u "123456789") (u "Radiation");
                JList [JInt 1] ] |}.

(** A record with its text two levels down in the field [jugement]. *)
Definition nested : list (pystr * json) :=
  [ (u "registre", JStr (u "123456789"));
    (u "jugement",
     JDict [ (u "date", JStr (u "2024-03-05"));
             (u "nature", JList [JStr (u "Jugement de Liquidation Judiciaire")]) ]) ].

End FilterRunExample.

(** ** Values of the configuration in [ENC(...)]:
    [src/utils/utils_load_config_ini.py] and
    [src/utils/crypto_config_cipher.py] *)

Module ConfigCipher.

Definition ENC_PREFIX : pystr := u "ENC(".
Definition ENC_SUFFIX : pystr := u ")".

(** [s.endswith(suffix)]. *)
Definition endswith (suffix s : pystr) : bool :=
  is_prefix (reverse suffix) (reverse s).

(** [is_encrypted]; [startswith] is [is_prefix]. *)
Definition is_encrypted (value : pystr) : bool :=
  is_prefix ENC_PREFIX value && endswith ENC_SUFFIX value.

(** The slice [value[len(ENC_PREFIX) : -len(ENC_SUFFIX)]] of
    [decrypt_value]. *)
Definition encrypted_part (value : pystr) : pystr :=
  drop (length ENC_PREFIX) (take (length value - length ENC_SUFFIX) value).

Section Fernet.

(** [fernet.encrypt(value.encode()).decode()] and
    [fernet.decrypt(token.encode()).decode()]; [None]: it raised. *)
Variable encrypt : pystr -> pystr.
Variable decrypt : pystr -> option pystr.

(** [encrypt_value] of the cipher tool. *)
Definition encrypt_value (value : pystr) : pystr :=
  ENC_PREFIX ++ encrypt value ++ ENC_SUFFIX.

(** [decrypt_value] of the loader. *)
Definition decrypt_value (value : pystr) : option pystr :=
  decrypt (encrypted_part value).

(** Whether [config[section][option] = text] takes the text: [configparser]
    raises on a text with a [%] that is no interpolation. *)
Variable settable : pystr -> bool.

(** What [decrypt_config_if_needed] leaves in an option that held [value];
    [has_key] tells whether a Fernet key was found.  An exception of the
    decryption or of the assignment is logged and the value stays. *)
Definition decrypt_option (has_key : bool) (value : pystr) : pystr :=
  if has_key then
    if is_encrypted value then
      match decrypt_value value with
      | Some clear => if settable clear then clear else value
      | None => value
      end
    else value
  else value.

End Fernet.

End ConfigCipher.

(** ** The name of the SIREN file: [main] of
    [01_get_SIREN_from_SEMARCHY_MDM.py] and of [03_filter_BODACC_by_day.py] *)

Module SirenFile.

Section Library.

Variable str_lower : pystr -> pystr.   (* [text.lower()] *)
Variable isspace : N -> bool.          (* [ch.isspace()] *)

(** A section of the configuration, from the names of its options to their
    values.  [configparser] keeps the name of an option in lower case. *)
Definition kept_in_lower_case (section : gmap pystr pystr) : Prop :=
  forall name, is_Some (section !! name) -> str_lower name = name.

(** [config[section].get(option)]: the section proxy puts the name asked for
    in lower case too. *)
Definition proxy_get (name : pystr) (section : gmap pystr pystr) : option pystr :=
  section !! str_lower name.

(** [x or y] on a value that is a string or [None]. *)
Definition or_else (x : option pystr) (y : pystr) : pystr :=
  match x with
  | Some v => if bool_decide (v = []) then y else v
  | None => y
  end.

(** [nom_base] of the extraction of the SIREN: the base name of the CSV file
    it writes in the temporary directory.  A section that is missing counts
    as the empty one. *)
Definition nom_base (bodacc_files exports_files : gmap pystr pystr) : pystr :=
  strip isspace
    (or_else (proxy_get (u "SIREN_FILENAME") bodacc_files)
       (or_else (proxy_get (u "SIREN_FILENAME") exports_files)
          (u "01_get_SIREN_from_SEMARCHY_MDM"))).

(** [siren_base] of the filter: the base name of the CSV file it reads in the
    temporary directory.  [_get_section] copies the section into a [dict],
    and [get] on a [dict] looks the name up as it is written. *)
Definition siren_base (exports_files bodacc_files : gmap pystr pystr) : pystr :=
  strip isspace
    (default (default (u "siren") (bodacc_files !! u "SIREN_FILENAME"))
       (exports_files !! u "SIREN_FILENAME")).

End Library.

End SirenFile.

(** The normalisation and the keyword search on Latin-1 text. *)
Abbreviation latin1_normalize :=
  (Filter._normalize_text Latin1.str_lower Latin1.nfd Latin1.category_Mn).
Abbreviation latin1_flag :=
  (Filter._flag_keywords Latin1.str_lower Latin1.nfd Latin1.category_Mn).

(** * Properties *)

(** ** Strings *)

Lemma is_prefix_spec (p s : pystr) :
  is_prefix p s = true <-> exists rest, s = p ++ rest.
Proof.
  revert s. induction p as [|a p IH]; intros s; simpl.
  - split; [intros _; by exists s | done].
  - destruct s as [|b s].
    + split; [done | intros [rest H]; discriminate].
    + rewrite andb_true_iff, bool_decide_eq_true, IH. split.
      * intros [-> [rest ->]]. by exists rest.
      * intros [rest H]. injection H as -> ->. split; [done | by exists rest].
Qed.

(** [needle in hay] is true exactly when [needle] is a contiguous part of
    [hay]. *)
Lemma str_contains_spec (needle hay : pystr) :
  str_contains needle hay = true <->
  exists before after, hay = before ++ needle ++ after.
Proof.
  induction hay as [|c hay IH]; simpl.
  - rewrite orb_false_r, is_prefix_spec. split.
    + intros [rest H]. by exists [], rest.
    + intros [before [after H]]. destruct before; [by exists after | done].
  - rewrite orb_true_iff, is_prefix_spec, IH. split.
    + intros [[rest H] | [before [after H]]].
      * by exists [], rest.
      * exists (c :: before), after. by rewrite H.
    + intros [[|b before] [after H]].
      * left. by exists after.
      * right. injection H as -> ->. by exists before, after.
Qed.

(** ** Record extraction *)

Section ExtractRecords.
Import Fetcher.

Lemma list_under_dict (k : pystr) (d : list (pystr * json)) :
  list_under k (JDict d) =
  Some (match dict_get k d with Some (JList l) => Some l | _ => None end).
Proof.
  unfold list_under; simpl.
  destruct (dict_get k d) as [v|] eqn:E; simpl.
  - done.
  - done.
Qed.

Lemma list_under_str (k s : pystr) :
  list_under k (JStr s) = if str_contains k s then None else Some None.
Proof. unfold list_under; simpl. by destruct (str_contains k s). Qed.

Lemma list_under_list (k : pystr) (l : list json) :
  list_under k (JList l) =
  if existsb (fun x => match x with
                       | JStr s => bool_decide (s = k)
                       | _ => false
                       end) l
  then None else Some None.
Proof. unfold list_under; simpl. by destruct (existsb _ l). Qed.

Lemma list_under_list_elem (k : pystr) (l : list json) :
  JStr k ∈ l -> list_under k (JList l) = None.
Proof.
  intros Hin. rewrite list_under_list.
  destruct (existsb _ l) eqn:E; [done|].
  apply not_true_iff_false in E. destruct E.
  apply existsb_exists. exists (JStr k).
  split; [by apply list_elem_of_In|]. by apply bool_decide_eq_true.
Qed.

Lemma list_under_list_no_elem (k : pystr) (l : list json) :
  JStr k ∉ l -> list_under k (JList l) = Some None.
Proof.
  intros Hout. rewrite list_under_list.
  destruct (existsb _ l) eqn:E; [|done].
  apply existsb_exists in E as (x & Hx & E). destruct x; try discriminate E.
  apply bool_decide_eq_true in E. subst. destruct Hout. by apply list_elem_of_In.
Qed.

Lemma list_under_list_cases (k : pystr) (l : list json) :
  (JStr k ∈ l /\ list_under k (JList l) = None)
  \/ ((JStr k ∉ l) /\ list_under k (JList l) = Some None).
Proof.
  rewrite list_under_list. destruct (existsb _ l) eqn:E.
  - left. split; [|done].
    apply existsb_exists in E as (x & Hx & E). destruct x; try discriminate E.
    apply bool_decide_eq_true in E. subst. by apply list_elem_of_In.
  - right. split; [|done]. intros Hin.
    apply not_true_iff_false in E. destruct E.
    apply existsb_exists. exists (JStr k).
    split; [by apply list_elem_of_In|]. by apply bool_decide_eq_true.
Qed.

Lemma extract_records_dict (d : list (pystr * json)) :
  _extract_records (JDict d) =
  Some match dict_get (u "results") d with
       | Some (JList items) => cleaned items
       | _ =>
           match dict_get (u "records") d with
           | Some (JList l) => l
           | _ => []
           end
       end.
Proof.
  unfold _extract_records.
  destruct d as [|kv d]; [done|].
  change (negb (truthy (JDict (kv :: d)))) with false. cbv iota.
  rewrite !list_under_dict.
  generalize (dict_get (u "results") (kv :: d)) (dict_get (u "records") (kv :: d)).
  intros [[| | | |items|]|] [[| | | |l|]|]; reflexivity.
Qed.

(** C10, as the code has it.  On every payload that is a JSON object
    [_extract_records] returns a list and never raises.  A [results] list is
    used alone, whatever [records] holds: each dict item gives its inner
    [record] dict, else its inner [fields] dict, else the item itself, and an
    item that is not a dict gives nothing.  Without a [results] list, a
    [records] list is returned as it is; without either the result is the
    empty list, as it is for the empty payload and for [None].  On a decoded
    body that is no object the function is not total: it returns the empty
    list when the body is falsy ([null], [false], [0], the empty string, the
    empty list), it raises [TypeError] on [true] and on a number other than
    0, on a string that contains ["results"] or ["records"] and on a list
    that holds one of the two as an item, and it returns the empty list on
    the other strings and lists. *)
Theorem extract_records_precedence :
  (forall d : list (pystr * json),
     _extract_records (JDict d) =
     Some match dict_get (u "results") d with
          | Some (JList items) =>
              flat_map
                (fun item =>
                   match item with
                   | JDict i =>
                       match dict_get (u "record") i with
                       | Some (JDict r) => [JDict r]
                       | _ => match dict_get (u "fields") i with
                              | Some (JDict f) => [JDict f]
                              | _ => [item]
                              end
                       end
                   | _ => []
                   end) items
          | _ =>
              match dict_get (u "records") d with
              | Some (JList l) => l
              | _ => []
              end
          end)
  /\ _extract_records (JDict []) = Some []
  /\ _extract_records JNull = Some []
  /\ (forall payload, truthy payload = false -> _extract_records payload = Some [])
  /\ (forall b, _extract_records (JBool b) = if b then None else Some [])
  /\ (forall z, _extract_records (JInt z) = if z =? 0 then Some [] else None)
  /\ (forall s,
        _extract_records (JStr s) =
        if str_contains (u "results") s || str_contains (u "records") s
        then None else Some [])
  /\ (forall l,
        (JStr (u "results") ∈ l \/ JStr (u "records") ∈ l ->
         _extract_records (JList l) = None)
        /\ (JStr (u "results") ∉ l -> JStr (u "records") ∉ l ->
            _extract_records (JList l) = Some [])).
Proof.
  split; [exact extract_records_dict|].
  split; [done|]. split; [done|].
  split; [intros payload Hfalsy; unfold _extract_records; by rewrite Hfalsy|].
  split; [by intros [|]|].
  split; [intros z; unfold _extract_records; cbn; by destruct (z =? 0)|].
  split.
  - intros s. unfold _extract_records. destruct s as [|c s]; [done|].
    change (negb (truthy (JStr (c :: s)))) with false. cbv iota.
    rewrite !list_under_str.
    destruct (str_contains (u "results") (c :: s)); [done|].
    by destruct (str_contains (u "records") (c :: s)).
  - intros l. destruct l as [|x l].
    { split; [|done]. intros [H|H]; by apply elem_of_nil in H. }
    unfold _extract_records.
    change (negb (truthy (JList (x :: l)))) with false. cbv iota.
    destruct (list_under_list_cases (u "results") (x :: l)) as [[Hres ->]|[Hres ->]];
      cbn [mbind option_bind]; [by split|].
    destruct (list_under_list_cases (u "records") (x :: l)) as [[Hrec ->]|[Hrec ->]];
      cbn [mbind option_bind]; [by split|].
    split; [by intros [H|H] | done].
Qed.

(** Two decoded bodies on which [_extract_records] raises: the number 5, and
    a list that holds the text ["results"]. *)
Lemma payload_that_is_no_object_raises :
  _extract_records (JInt 5) = None
  /\ _extract_records (JList [JStr (u "results")]) = None.
Proof. split; reflexivity. Qed.

End ExtractRecords.

(** ** Identifier matching *)

Section MatchedSirens.
Import Filter.
Variable isdigit : N -> bool.

Lemma clean_registre_values_spec (values : list json) :
  _clean_registre_values isdigit values =
  List.filter (fun d => negb (bool_decide (d = [])))
    (map (digits_only isdigit)
       (omap (fun v => match v with JStr s => Some s | _ => None end) values)).
Proof.
  induction values as [|v values IH]; [done|].
  destruct v; simpl in *; try exact IH.
  repeat case_bool_decide; simpl; by rewrite ?IH.
Qed.

Lemma matched_sirens_spec (record : list (pystr * json)) (sirens : gset pystr) :
  _matched_sirens isdigit record sirens =
  List.filter (fun d => bool_decide (d ∈ sirens))
    (List.filter (fun d => negb (bool_decide (d = [])))
       (map (digits_only isdigit) (registre_candidates record))).
Proof.
  unfold _matched_sirens. f_equal.
  rewrite clean_registre_values_spec.
  unfold registre_list, registre_candidates.
  destruct (dict_get (u "registre") record) as [v|]; [|done].
  destruct v as [|b|z|s|l|d]; simpl; try done.
  - by destruct b.
  - by destruct (negb (z =? 0)).
  - by case_bool_decide; subst.
  - by case_bool_decide; subst.
  - by case_bool_decide.
Qed.

Lemma digits_only_insert (a b : pystr) (c : N) :
  isdigit c = false ->
  digits_only isdigit (a ++ c :: b) = digits_only isdigit (a ++ b).
Proof.
  intros Hc. unfold digits_only. rewrite !List.filter_app. simpl. by rewrite Hc.
Qed.

Lemma digits_only_ascii (s : pystr) :
  (forall c, (c < 128)%N -> isdigit c = Latin1.isdigit c) ->
  Forall (fun c => (c < 128)%N) s ->
  digits_only isdigit s = digits_only Latin1.isdigit s.
Proof.
  intros Hascii Hs. unfold digits_only.
  induction Hs as [|c s Hc Hs IH]; [done|].
  simpl. by rewrite Hascii, IH.
Qed.

End MatchedSirens.

(** C7.  The record passes the identifier test exactly when one of its
    candidates (the [registre] field, one string or the strings of a list),
    once every character that is not a digit is taken out, is a key of the
    registry.  So a character that is not a digit can be put in or taken out
    of a candidate without changing the matches; ["123 456 789"],
    ["123456789"] and ["SIREN:123456789"] all match the key ["123456789"];
    and a [registre] of another type matches nothing. *)
Theorem matched_sirens_digit_normalised
    (isdigit : N -> bool) (sirens : gset pystr)
    (Hascii : forall c, (c < 128)%N -> isdigit c = Latin1.isdigit c)
    (Hkeys : [] ∉ sirens) :
  (forall record,
     Filter._matched_sirens isdigit record sirens <> [] <->
     exists c, c ∈ Filter.registre_candidates record /\
               Filter.digits_only isdigit c ∈ sirens)
  /\ (forall a b c, isdigit c = false ->
        Filter.digits_only isdigit (a ++ c :: b) = Filter.digits_only isdigit (a ++ b))
  /\ (forall r1 r2,
        map (Filter.digits_only isdigit) (Filter.registre_candidates r1) =
        map (Filter.digits_only isdigit) (Filter.registre_candidates r2) ->
        Filter._matched_sirens isdigit r1 sirens =
        Filter._matched_sirens isdigit r2 sirens)
  /\ (u "123456789" ∈ sirens ->
      forall candidate,
        candidate ∈ [u "123 456 789"; u "123456789"; u "SIREN:123456789"] ->
        Filter._matched_sirens isdigit [(u "registre", JStr candidate)] sirens
          = [u "123456789"]
        /\ Filter._matched_sirens isdigit
             [(u "registre", JList [JStr candidate])] sirens
          = [u "123456789"])
  /\ (forall record v,
        dict_get (u "registre") record = Some v ->
        (forall s, v <> JStr s) -> (forall l, v <> JList l) ->
        Filter._matched_sirens isdigit record sirens = []).
Proof.
  assert (Hex : forall candidate,
            candidate ∈ [u "123 456 789"; u "123456789"; u "SIREN:123456789"] ->
            Filter.digits_only isdigit candidate = u "123456789").
  { intros candidate Hc.
    rewrite (digits_only_ascii isdigit candidate Hascii).
    - set_unfold in Hc. by destruct Hc as [->|[->|[->|[]]]].
    - set_unfold in Hc.
      destruct Hc as [->|[->|[->|[]]]]; vm_compute; repeat constructor. }
  split; [|split; [|split; [|split]]].
  - intros record. rewrite matched_sirens_spec. split.
    + intros Hne.
      destruct (List.filter _ _) as [|d rest] eqn:E; [done|].
      assert (In d (d :: rest)) as Hin by (by left).
      rewrite <- E in Hin. apply List.filter_In in Hin as [Hin Hd].
      apply List.filter_In in Hin as [Hin _].
      apply List.in_map_iff in Hin as [c [<- Hc]].
      exists c. split; [by apply list_elem_of_In | by apply bool_decide_eq_true in Hd].
    + intros [c [Hc Hd]] Hnil.
      assert (In (Filter.digits_only isdigit c) []) as Hin; [|done].
      rewrite <- Hnil. apply List.filter_In. split.
      * apply List.filter_In. split.
        -- apply List.in_map. by apply list_elem_of_In.
        -- apply negb_true_iff, bool_decide_eq_false. by intros E; rewrite E in Hd.
      * by apply bool_decide_eq_true.
  - intros a b c. apply digits_only_insert.
  - intros r1 r2 H. by rewrite !matched_sirens_spec, H.
  - intros Hkey candidate Hc.
    rewrite !matched_sirens_spec. simpl. rewrite (Hex _ Hc). simpl.
    by rewrite bool_decide_eq_true_2.
  - intros record v Hv Hs Hl. rewrite matched_sirens_spec.
    unfold Filter.registre_candidates. rewrite Hv.
    destruct v; try done; [by destruct (Hs s) | by destruct (Hl l)].
Qed.

Lemma registry_key_not_empty : [] ∉ ({[ u "123456789" ]} : gset pystr).
Proof. set_solver. Qed.

Lemma matched_sirens_digit_normalised_witness :
  Filter._matched_sirens Latin1.isdigit
    [(u "registre", JStr (u "SIREN:123456789"))] {[ u "123456789" ]}
  = [u "123456789"].
Proof.
  apply (matched_sirens_digit_normalised Latin1.isdigit {[ u "123456789" ]}
           (fun c _ => eq_refl) registry_key_not_empty).
  - apply elem_of_singleton_2. reflexivity.
  - apply list_elem_of_In. right. right. left. reflexivity.
Defined.

(** ** Keyword matching *)

Section FlagKeywords.
Import Filter.
Variable str_lower nfd : pystr -> pystr.
Variable category_Mn : N -> bool.

Lemma flag_keywords_spec (text : pystr) (keywords : list pystr) :
  _flag_keywords str_lower nfd category_Mn text keywords = true <->
  text <> [] /\
  exists keyword, keyword ∈ keywords /\
    exists before after,
      _normalize_text str_lower nfd category_Mn text = before ++ keyword ++ after.
Proof.
  unfold _flag_keywords. case_bool_decide as Ht.
  - split; [done | by intros [? _]].
  - rewrite existsb_exists. split.
    + intros [keyword [Hin Hc]]. split; [done|].
      exists keyword. split; [by apply list_elem_of_In|].
      by apply str_contains_spec.
    + intros [_ [keyword [Hin Hc]]]. exists keyword.
      split; [by apply list_elem_of_In | by apply str_contains_spec].
Qed.

End FlagKeywords.

Lemma latin1_normalize_app (a b : pystr) :
  Filter._normalize_text Latin1.str_lower Latin1.nfd Latin1.category_Mn (a ++ b) =
  Filter._normalize_text Latin1.str_lower Latin1.nfd Latin1.category_Mn a ++
  Filter._normalize_text Latin1.str_lower Latin1.nfd Latin1.category_Mn b.
Proof.
  unfold Filter._normalize_text, Latin1.str_lower, Latin1.nfd.
  by rewrite map_app, flat_map_app, List.filter_app.
Qed.

Lemma latin1_flag_inside (phrase keyword : pystr) (keywords : list pystr) :
  Filter._normalize_text Latin1.str_lower Latin1.nfd Latin1.category_Mn phrase
    = keyword ->
  phrase <> [] -> keyword ∈ keywords ->
  forall before after,
    Filter._flag_keywords Latin1.str_lower Latin1.nfd Latin1.category_Mn
      (before ++ phrase ++ after) keywords = true.
Proof.
  intros Hn Hne Hin before after. apply flag_keywords_spec. split.
  - destruct before; [by destruct phrase | done].
  - exists keyword. split; [done|].
    rewrite !latin1_normalize_app, Hn. eauto.
Qed.

(** C8.  The keyword test holds exactly when some keyword is a contiguous
    part of the text once the text is lower-cased, decomposed canonically and
    cleared of its combining marks; a record is tagged exactly when this holds
    of its collected text.  Text containing ["Liquidation Judiciaire"] matches
    the keyword ["liquidation judiciaire"], text containing ["clôture pour
    insuffisance d'actifs"] matches ["cloture pour insuffisance d'actifs"],
    and the empty text matches no keyword. *)
Theorem flag_keywords_normalised
    (str_lower nfd : pystr -> pystr) (category_Mn : N -> bool)
    (json_loads : pystr -> option json) (keywords : list pystr)
    (Hlower : str_lower [] = []) (Hnfd : nfd [] = [])
    (Hkeywords : Forall (fun keyword => keyword <> []) keywords) :
  let normalized text :=
    List.filter (fun c => negb (category_Mn c)) (nfd (str_lower text)) in
  (forall text,
     Filter._flag_keywords str_lower nfd category_Mn text keywords = true <->
     exists keyword, keyword ∈ keywords /\
       exists before after, normalized text = before ++ keyword ++ after)
  /\ (forall record,
        Filter._should_tag_topage str_lower nfd category_Mn json_loads
          record keywords = true <->
        exists keyword, keyword ∈ keywords /\
          exists before after,
            normalized (str_join (u " ") (Filter.text_parts json_loads record))
            = before ++ keyword ++ after)
  /\ (u "liquidation judiciaire" ∈ keywords ->
      forall before after,
        Filter._flag_keywords Latin1.str_lower Latin1.nfd Latin1.category_Mn
          (before ++ u "Liquidation Judiciaire" ++ after) keywords = true)
  /\ (u "cloture pour insuffisance d'actifs" ∈ keywords ->
      forall before after,
        Filter._flag_keywords Latin1.str_lower Latin1.nfd Latin1.category_Mn
          (before ++ (u "cl" ++ [244%N] ++ u "ture pour insuffisance d'actifs")
             ++ after) keywords = true)
  /\ Filter._flag_keywords str_lower nfd category_Mn [] keywords = false.
Proof.
  intros normalized.
  assert (Htext : forall text,
     Filter._flag_keywords str_lower nfd category_Mn text keywords = true <->
     exists keyword, keyword ∈ keywords /\
       exists before after, normalized text = before ++ keyword ++ after).
  { intros text. rewrite flag_keywords_spec. split; [by intros [_ H]|].
    intros [keyword [Hin [before [after H]]]]. split; [|by eauto 6].
    intros ->. unfold normalized in H. rewrite Hlower, Hnfd in H. simpl in H.
    assert (keyword <> []) as Hne.
    { apply (proj1 (List.Forall_forall _ _) Hkeywords keyword).
      by apply list_elem_of_In. }
    destruct before; [by destruct keyword | done]. }
  split; [exact Htext|]. split; [|split; [|split]].
  - intros record. unfold Filter._should_tag_topage. case_bool_decide as Hk.
    + subst keywords. split; [done|]. intros [keyword [Hin _]]. by set_unfold in Hin.
    + apply Htext.
  - intros Hin.
    by apply (latin1_flag_inside _ (u "liquidation judiciaire")).
  - intros Hin.
    by apply (latin1_flag_inside _ (u "cloture pour insuffisance d'actifs")).
  - done.
Qed.

Lemma default_keywords_not_empty :
  Forall (fun keyword : pystr => keyword <> []) Filter.DEFAULT_TOPAGE_KEYWORDS.
Proof. by repeat constructor. Qed.

Lemma flag_keywords_normalised_witness :
  Filter._flag_keywords Latin1.str_lower Latin1.nfd Latin1.category_Mn
    (u "Jugement de Liquidation Judiciaire simplifiee")
    Filter.DEFAULT_TOPAGE_KEYWORDS = true.
Proof.
  apply (flag_keywords_normalised Latin1.str_lower Latin1.nfd
           Latin1.category_Mn Latin1.json_loads Filter.DEFAULT_TOPAGE_KEYWORDS
           eq_refl eq_refl default_keywords_not_empty).
  exists (u "liquidation judiciaire"). split.
  - apply list_elem_of_In. right. right. left. reflexivity.
  - exists (u "jugement de "), (u " simplifiee"). reflexivity.
Defined.

(** ** Free-text collection *)

Lemma json_size_pos (x : json) : (1 <= json_size x)%nat.
Proof. destruct x; simpl; lia. Qed.

Lemma json_size_list_elem (l : list json) (v : json) :
  v ∈ l -> (json_size v < json_size (JList l))%nat.
Proof.
  simpl. induction 1 as [v l|v w l _ IH]; simpl; [lia|]. simpl in IH. lia.
Qed.

Lemma json_size_dict_elem (d : list (pystr * json)) (kv : pystr * json) :
  kv ∈ d -> (json_size kv.2 < json_size (JDict d))%nat.
Proof.
  simpl. induction 1 as [[k v] d|[k v] [k' w] d _ IH]; simpl in *; lia.
Qed.

Lemma flat_map_ext_elem {A B} (f g : A -> list B) (l : list A) :
  (forall x, x ∈ l -> f x = g x) -> flat_map f l = flat_map g l.
Proof.
  induction l as [|x l IH]; intros H; [done|]. simpl.
  rewrite (H x) by constructor. f_equal. apply IH. intros y Hy. apply H.
  by constructor.
Qed.

Section DeepCollectText.
Import Filter.
Variable json_loads : pystr -> option json.
Hypothesis loads_size :
  forall text v, json_loads text = Some v -> (json_size v <= length text)%nat.

(** Any depth bound from [json_size] on gives the same texts. *)
Lemma collect_text_enough (n m : nat) (obj : json) :
  (json_size obj <= n)%nat -> (json_size obj <= m)%nat ->
  collect_text json_loads n obj = collect_text json_loads m obj.
Proof.
  revert m obj. induction n as [|n IH]; intros m obj Hn Hm.
  { pose proof (json_size_pos obj). lia. }
  destruct m as [|m]; [pose proof (json_size_pos obj); lia|].
  destruct obj as [| | |s|l|d]; simpl; try done.
  - f_equal. destruct (json_loads s) as [parsed|] eqn:E; [|done].
    apply loads_size in E. simpl in Hn, Hm. apply IH; lia.
  - apply flat_map_ext_elem. intros v Hv.
    apply json_size_list_elem in Hv. apply IH; lia.
  - apply flat_map_ext_elem. intros kv Hkv.
    apply json_size_dict_elem in Hkv. apply IH; lia.
Qed.

Lemma collect_text_succ (n : nat) (obj : json) :
  collect_text json_loads (S n) obj =
  match obj with
  | JDict d => flat_map (fun kv => collect_text json_loads n kv.2) d
  | JList l => flat_map (collect_text json_loads n) l
  | JStr s =>
      s :: match json_loads s with
           | Some parsed => collect_text json_loads n parsed
           | None => []
           end
  | _ => []
  end.
Proof. done. Qed.

Lemma deep_collect_text_at (n : nat) (obj : json) :
  (json_size obj <= n)%nat ->
  collect_text json_loads n obj = _deep_collect_text json_loads obj.
Proof. intros Hn. by apply collect_text_enough. Qed.

Lemma deep_collect_text_dict (d : list (pystr * json)) :
  _deep_collect_text json_loads (JDict d) =
  flat_map (fun kv => _deep_collect_text json_loads kv.2) d.
Proof.
  unfold _deep_collect_text at 1.
  change (json_size (JDict d)) with (S (pred (json_size (JDict d)))).
  rewrite collect_text_succ. apply flat_map_ext_elem. intros kv Hkv.
  apply json_size_dict_elem in Hkv. apply deep_collect_text_at. simpl in *. lia.
Qed.

Lemma deep_collect_text_list (l : list json) :
  _deep_collect_text json_loads (JList l) =
  flat_map (_deep_collect_text json_loads) l.
Proof.
  unfold _deep_collect_text at 1.
  change (json_size (JList l)) with (S (pred (json_size (JList l)))).
  rewrite collect_text_succ. apply flat_map_ext_elem. intros v Hv.
  apply json_size_list_elem in Hv. apply deep_collect_text_at. simpl in *. lia.
Qed.

Lemma deep_collect_text_str (s : pystr) :
  _deep_collect_text json_loads (JStr s) =
  s :: match json_loads s with
       | Some parsed => _deep_collect_text json_loads parsed
       | None => []
       end.
Proof.
  unfold _deep_collect_text at 1.
  change (json_size (JStr s)) with (S (S (length s))).
  rewrite collect_text_succ. f_equal.
  destruct (json_loads s) as [parsed|] eqn:E; [|done].
  apply loads_size in E. apply deep_collect_text_at. lia.
Qed.

End DeepCollectText.

(** C9.  The collector gives, for a dict, the texts of all its values; for a
    list, the texts of all its elements; for a string, the string and, when
    it parses as JSON, the texts of the parsed value; for any other value,
    nothing.  The keyword test of a record is run on the texts collected
    from the ten candidate fields the record has, joined by spaces, and on
    nothing else of the record. *)
Theorem deep_collect_text_equations
    (json_loads : pystr -> option json)
    (loads_size : forall text v,
        json_loads text = Some v -> (json_size v <= length text)%nat) :
  (forall d, Filter._deep_collect_text json_loads (JDict d) =
             flat_map (fun kv => Filter._deep_collect_text json_loads kv.2) d)
  /\ (forall l, Filter._deep_collect_text json_loads (JList l) =
                flat_map (Filter._deep_collect_text json_loads) l)
  /\ (forall s, Filter._deep_collect_text json_loads (JStr s) =
                s :: match json_loads s with
                     | Some parsed => Filter._deep_collect_text json_loads parsed
                     | None => []
                     end)
  /\ Filter._deep_collect_text json_loads JNull = []
  /\ (forall b, Filter._deep_collect_text json_loads (JBool b) = [])
  /\ (forall z, Filter._deep_collect_text json_loads (JInt z) = [])
  /\ (forall str_lower nfd category_Mn record keywords,
        Filter._should_tag_topage str_lower nfd category_Mn json_loads
          record keywords =
        if bool_decide (keywords = []) then false
        else
          Filter._flag_keywords str_lower nfd category_Mn
            (str_join (u " ")
               (flat_map
                  (fun field =>
                     match dict_get field record with
                     | Some v => Filter._deep_collect_text json_loads v
                     | None => []
                     end)
                  [ u "texte"; u "text"; u "objet"; u "description";
                    u "resume"; u "familleavis_lib"; u "typeavis_lib";
                    u "jugement"; u "modificationsgenerales"; u "divers" ]))
            keywords)
  /\ (forall str_lower nfd category_Mn r1 r2 keywords,
        (forall field, field ∈ Filter.TAG_FIELDS ->
                       dict_get field r1 = dict_get field r2) ->
        Filter._should_tag_topage str_lower nfd category_Mn json_loads r1 keywords
        = Filter._should_tag_topage str_lower nfd category_Mn json_loads r2 keywords).
Proof.
  split; [by apply deep_collect_text_dict|].
  split; [by apply deep_collect_text_list|].
  split; [by apply deep_collect_text_str|].
  do 4 (split; [done|]).
  intros str_lower nfd category_Mn r1 r2 keywords Hfields.
  unfold Filter._should_tag_topage, Filter.text_parts.
  rewrite (flat_map_ext_elem _
             (fun field => match dict_get field r2 with
                           | Some v => Filter._deep_collect_text json_loads v
                           | None => []
                           end)); [done|].
  intros field Hfield. by rewrite (Hfields field Hfield).
Qed.

Lemma latin1_json_loads_size (text : pystr) (v : json) :
  Latin1.json_loads text = Some v -> (json_size v <= length text)%nat.
Proof.
  unfold Latin1.json_loads. destruct text as [|c rest]; [done|].
  assert (Hnum : (if forallb Latin1.ascii_digit (c :: rest)
                     && (negb (c =? 48)%N || bool_decide (rest = []))
                  then Some (JInt (foldl (fun acc d => 10 * acc + Latin1.digit_value d)
                                     0 (c :: rest)))
                  else None) = Some v -> (json_size v <= length (c :: rest))%nat).
  { destruct (_ && _); [|done]. intros [= <-]. simpl. lia. }
  destruct (decide (c = 34%N)) as [->|Hc].
  - destruct (reverse rest) as [|c' inner_rev] eqn:E; [done|].
    destruct (decide (c' = 34%N)) as [->|Hc'].
    + destruct (forallb Latin1.plain_char inner_rev); [|done].
      intros [= <-]. simpl. rewrite length_reverse.
      apply (f_equal length) in E. rewrite length_reverse in E. simpl in E. lia.
    + intros H. exfalso. revert H.
      destruct c' as [|p]; [done|]. do 6 (destruct p as [p|p|]; try done).
  - intros H. apply Hnum. revert H.
    destruct c as [|p]; [done|]. do 6 (destruct p as [p|p|]; try done).
Qed.

Lemma deep_collect_text_equations_witness :
  Filter._deep_collect_text Latin1.json_loads
    (JStr [34%N; 114%N; 97%N; 100%N; 105%N; 97%N; 116%N; 105%N; 111%N; 110%N; 34%N])
  = [ [34%N; 114%N; 97%N; 100%N; 105%N; 97%N; 116%N; 105%N; 111%N; 110%N; 34%N];
      u "radiation" ].
Proof.
  rewrite (proj1 (proj2 (proj2
             (deep_collect_text_equations Latin1.json_loads latin1_json_loads_size)))).
  reflexivity.
Defined.

(** ** The pagination loop *)

Section FetchLoop.
Import Fetcher.
Variable cfg : config.
Variable day : date.
Variable publicationavis : pystr.

Abbreviation loop := (fetch_loop cfg day publicationavis).
Abbreviation request_of s := (Request (request_params cfg day publicationavis s)).

Lemma fetch_loop_unfold (script : list response) (attempt : nat) (s : fetch_state) :
  loop script attempt s =
  if bool_decide (Z.of_nat attempt < max_retries cfg) then
    let s := with_world (emit (request_of s)) s in
    match script with
    | [] => (Starved, s, [])
    | r :: script' =>
        match r with
        | Resp429 =>
            loop script' (S attempt)
              (with_world (emit (Sleep429 (too_many_requests_timeout_sec cfg))) s)
        | RespFail =>
            loop script' (S attempt) (with_world (emit (SleepBackoff attempt)) s)
        | RespOk payload =>
            match process_page cfg day publicationavis payload s with
            | PageRaise s' =>
                loop script' (S attempt) (with_world (emit (SleepBackoff attempt)) s')
            | PageReturn s' => (Returned, s', script')
            | PageBreak s' => loop script' 0 s'
            end
        end
    end
  else (Abandoned, s, script).
Proof. by destruct script. Qed.

(** A 429 answer: the fixed sleep, then the next attempt of the same page. *)
Lemma fetch_loop_429 (script : list response) (attempt : nat) (s : fetch_state) :
  Z.of_nat attempt < max_retries cfg ->
  loop (Resp429 :: script) attempt s =
  loop script (S attempt)
    (with_world (fun w => emit (Sleep429 (too_many_requests_timeout_sec cfg))
                            (emit (request_of s) w)) s).
Proof.
  intros Ha. rewrite fetch_loop_unfold, bool_decide_eq_true_2 by done. done.
Qed.

Lemma fetch_loop_fail (script : list response) (attempt : nat) (s : fetch_state) :
  Z.of_nat attempt < max_retries cfg ->
  loop (RespFail :: script) attempt s =
  loop script (S attempt)
    (with_world (fun w => emit (SleepBackoff attempt) (emit (request_of s) w)) s).
Proof.
  intros Ha. rewrite fetch_loop_unfold, bool_decide_eq_true_2 by done. done.
Qed.

Lemma fetch_loop_exhausted (script : list response) (attempt : nat) (s : fetch_state) :
  max_retries cfg <= Z.of_nat attempt ->
  loop script attempt s = (Abandoned, s, script).
Proof.
  intros Ha. rewrite fetch_loop_unfold, bool_decide_eq_false_2; [done | lia].
Qed.

Lemma add_events_nil (s : fetch_state) : add_events [] s = s.
Proof.
  destruct s as [a l p [d t tr]]. unfold add_events, with_world. simpl.
  by rewrite app_nil_r.
Qed.

Lemma fetch_loop_429_run (n : nat) (script : list response) (attempt : nat)
    (s : fetch_state) :
  Z.of_nat attempt + Z.of_nat n <= max_retries cfg ->
  loop (replicate n Resp429 ++ script) attempt s =
  loop script (attempt + n)
    (add_events (events_429 cfg (request_params cfg day publicationavis s) n) s).
Proof.
  revert attempt s. induction n as [|n IH]; intros attempt s Hn.
  - simpl. by rewrite add_events_nil, Nat.add_0_r.
  - simpl replicate. simpl app. rewrite fetch_loop_429 by lia.
    rewrite IH by lia. f_equal; [lia|].
    destruct s as [a l p [d t tr]]. unfold add_events, with_world, emit. simpl.
    do 2 f_equal. by rewrite <- !app_assoc.
Qed.

Lemma request_params_add_events (events : list event) (s : fetch_state) :
  request_params cfg day publicationavis (add_events events s) =
  request_params cfg day publicationavis s.
Proof. done. Qed.

(** Attempts that fail, by a 429 or otherwise, up to the last one the
    budget allows. *)
Lemma fetch_loop_failures (fails script : list response) (attempt : nat)
    (s : fetch_state) :
  Forall (fun r => r = Resp429 \/ r = RespFail) fails ->
  Z.of_nat attempt + Z.of_nat (length fails) = max_retries cfg ->
  exists s', loop (fails ++ script) attempt s = (Abandoned, s', script)
             /\ last_numero s' = last_numero s
             /\ page_idx s' = page_idx s
             /\ all_records s' = all_records s
             /\ tmp_dir (fworld s') = tmp_dir (fworld s).
Proof.
  intros Hfails. revert attempt s.
  induction Hfails as [|r fails Hr _ IH]; intros attempt s Hn; simpl in Hn.
  - exists s. rewrite fetch_loop_exhausted by lia. done.
  - simpl app. destruct Hr as [-> | ->].
    + rewrite fetch_loop_429 by lia.
      destruct (IH (S attempt)
                  (with_world (fun w => emit (Sleep429 (too_many_requests_timeout_sec cfg))
                                          (emit (request_of s) w)) s))
        as [s' [-> H]]; [lia|]. by exists s'.
    + rewrite fetch_loop_fail by lia.
      destruct (IH (S attempt)
                  (with_world (fun w => emit (SleepBackoff attempt)
                                          (emit (request_of s) w)) s))
        as [s' [-> H]]; [lia|]. by exists s'.
Qed.

End FetchLoop.

(** C1, as the code has it.  A 429 answer brings the fixed sleep of
    [too_many_requests_timeout_sec] and then the same page request again, and
    it takes one of the [max_retries] attempts of the page, as a failed
    attempt of any other kind does: fewer than [max_retries] such answers in a
    row leave the loop on the same page with as many attempts used, and
    [max_retries] failed attempts in a row on one page, 429 answers among them
    or all of them, end the call with the day and category abandoned. *)
Theorem rate_limit_takes_an_attempt
    (cfg : Fetcher.config) (day : Fetcher.date) (publicationavis : pystr)
    (n : nat) (Hn : Z.of_nat n = Fetcher.max_retries cfg) :
  (forall script attempt s,
     (attempt < n)%nat ->
     let s' := Fetcher.add_events
                 [Fetcher.Request (Fetcher.request_params cfg day publicationavis s);
                  Fetcher.Sleep429 (Fetcher.too_many_requests_timeout_sec cfg)] s in
     Fetcher.fetch_loop cfg day publicationavis (Fetcher.Resp429 :: script) attempt s
     = Fetcher.fetch_loop cfg day publicationavis script (S attempt) s'
     /\ Fetcher.request_params cfg day publicationavis s'
        = Fetcher.request_params cfg day publicationavis s)
  /\ (forall k script s,
        (k <= n)%nat ->
        Fetcher.fetch_loop cfg day publicationavis
          (replicate k Fetcher.Resp429 ++ script) 0 s
        = Fetcher.fetch_loop cfg day publicationavis script k
            (Fetcher.add_events
               (Fetcher.events_429 cfg
                  (Fetcher.request_params cfg day publicationavis s) k) s))
  /\ (forall script s,
        Fetcher.fetch_loop cfg day publicationavis
          (replicate n Fetcher.Resp429 ++ script) 0 s
        = (Fetcher.Abandoned,
           Fetcher.add_events
             (Fetcher.events_429 cfg
                (Fetcher.request_params cfg day publicationavis s) n) s,
           script))
  /\ (forall fails script s,
        Forall (fun r => r = Fetcher.Resp429 \/ r = Fetcher.RespFail) fails ->
        length fails = n ->
        (Fetcher.fetch_loop cfg day publicationavis (fails ++ script) 0 s).1.1
        = Fetcher.Abandoned).
Proof.
  split; [|split; [|split]].
  - intros script attempt s Ha s'. split; [|done].
    rewrite fetch_loop_429 by lia. f_equal.
    destruct s as [a l p [d t tr]]. unfold s', Fetcher.add_events,
      Fetcher.with_world, Fetcher.emit. simpl.
    do 2 f_equal. by rewrite <- app_assoc.
  - intros k script s Hk. by rewrite fetch_loop_429_run by lia.
  - intros script s. rewrite fetch_loop_429_run by lia.
    by rewrite fetch_loop_exhausted by lia.
  - intros fails script s Hfails Hlen.
    destruct (fetch_loop_failures cfg day publicationavis fails script 0%nat s Hfails)
      as [s' [-> _]]; [lia | done].
Qed.

(** ** One page *)

Section ProcessPage.
Import Fetcher.
Variable cfg : config.
Variable day : date.
Variable publicationavis : pystr.

Lemma advance_numbers (records : list json) (last : Z) (nums : list Z) :
  page_numbers records = Some nums ->
  advance (numero_values records) last = Some (foldr Z.max last nums).
Proof.
  unfold page_numbers, advance. intros H.
  destruct (numero_values records) as [|v values]; [by injection H as <-|].
  by rewrite H.
Qed.

Lemma foldr_max_ge (last : Z) (nums : list Z) : last <= foldr Z.max last nums.
Proof. induction nums as [|n nums IH]; simpl; lia. Qed.

Lemma foldr_max_ge_elem (last : Z) (nums : list Z) (n : Z) :
  n ∈ nums -> n <= foldr Z.max last nums.
Proof. induction 1; simpl; lia. Qed.

Lemma foldr_max_elem (last : Z) (nums : list Z) :
  foldr Z.max last nums = last \/ foldr Z.max last nums ∈ nums.
Proof.
  induction nums as [|n nums IH]; simpl; [by left|].
  destruct (Z.max_spec n (foldr Z.max last nums)) as [[_ ->]|[_ ->]].
  - destruct IH as [IH|IH]; [by left | right; by constructor].
  - right. constructor.
Qed.

Lemma advance_ge (values : list json) (last n : Z) :
  advance values last = Some n -> last <= n.
Proof.
  unfold advance. destruct values as [|v values]; [intros [= <-]; lia|].
  destruct (mapM py_num (v :: values)) as [nums|]; [|done].
  intros [= <-]. apply foldr_max_ge.
Qed.

Lemma state_app_nil (s : fetch_state) :
  {| all_records := all_records s ++ []; last_numero := last_numero s;
     page_idx := page_idx s; fworld := fworld s |} = s.
Proof. destruct s. simpl. by rewrite app_nil_r. Qed.

Lemma process_page_empty (payload : json) (s : fetch_state) :
  _extract_records payload = Some [] ->
  process_page cfg day publicationavis payload s = PageReturn s.
Proof. intros E. unfold process_page. rewrite E. simpl. by rewrite state_app_nil. Qed.

Lemma written_lines_encoded (records : list json) :
  forallb encodes records = true -> written_lines records = records.
Proof.
  induction records as [|record records IH]; [done|].
  cbn. intros [-> Hrest]%andb_prop. by rewrite IH.
Qed.

(** The file system after the call, however it ends. *)
Lemma write_ndjson_part_world (page_idx : nat) (records : list json) (w : world) :
  write_world (_write_ndjson_part day publicationavis page_idx records w) =
  emit (WritePart day (part_name publicationavis page_idx) (written_lines records))
    {| daily_dir := daily_dir w;
       tmp_dir := <[day := <[part_name publicationavis page_idx
                              := written_lines records]> (day_parts day w)]>
                    (tmp_dir w);
       trace := trace w |}.
Proof. unfold _write_ndjson_part. by destruct (forallb encodes records). Qed.

Lemma write_ndjson_part_done (page_idx : nat) (records : list json) (w : world) :
  forallb encodes records = true ->
  _write_ndjson_part day publicationavis page_idx records w =
  WriteDone (write_world (_write_ndjson_part day publicationavis page_idx records w)).
Proof. intros H. unfold _write_ndjson_part. by rewrite H. Qed.

Lemma write_ndjson_part_raise (page_idx : nat) (records : list json) (w : world) :
  forallb encodes records = false ->
  _write_ndjson_part day publicationavis page_idx records w =
  WriteRaise (write_world (_write_ndjson_part day publicationavis page_idx records w)).
Proof. intros H. unfold _write_ndjson_part. by rewrite H. Qed.

(** The fragment of the page after the call: the lines that were written. *)
Lemma staged_fragment (records : list json) (numero : Z) (s : fetch_state) :
  day_parts day (fworld (staged day publicationavis records numero s))
    !! part_name publicationavis (S (page_idx s))
  = Some (written_lines records).
Proof.
  unfold staged. cbn [fworld]. rewrite write_ndjson_part_world.
  unfold day_parts at 1. cbn [emit tmp_dir].
  rewrite lookup_insert_eq. cbn [default]. apply lookup_insert_eq.
Qed.

Lemma process_page_staged (payload : json) (records : list json)
    (nums : list Z) (s : fetch_state) :
  _extract_records payload = Some records -> records <> [] ->
  forallb encodes records = true ->
  page_numbers records = Some nums ->
  process_page cfg day publicationavis payload s =
  (if bool_decide (Z.of_nat (length records) < per_page cfg)
   then PageReturn else PageBreak)
    (staged day publicationavis records (foldr Z.max (last_numero s) nums) s).
Proof.
  intros E Hne Henc Hnums. unfold process_page. rewrite E.
  rewrite bool_decide_eq_false_2 by done. cbn [last_numero all_records page_idx fworld].
  rewrite (write_ndjson_part_done _ _ _ Henc).
  rewrite (advance_numbers _ _ _ Hnums). by case_bool_decide.
Qed.

(** A page that raises once its records are in [all_records] and the page
    counter has moved: the write on a record that does not encode, or the
    comparison of a [numeroannonce] that is no number.  The cursor stays. *)
Lemma process_page_raises (payload : json) (records : list json) (s : fetch_state) :
  _extract_records payload = Some records -> records <> [] ->
  forallb encodes records = false \/ page_numbers records = None ->
  process_page cfg day publicationavis payload s
  = PageRaise (staged day publicationavis records (last_numero s) s).
Proof.
  intros Hp Hne Hraise. unfold process_page. rewrite Hp.
  rewrite bool_decide_eq_false_2 by done.
  cbn [last_numero all_records page_idx fworld].
  destruct (forallb encodes records) eqn:Henc.
  - destruct Hraise as [Hraise|Hnum]; [discriminate Hraise|].
    rewrite (write_ndjson_part_done _ _ _ Henc).
    unfold advance. unfold page_numbers in Hnum.
    destruct (numero_values records) as [|v values] eqn:Hv; [discriminate Hnum|].
    by rewrite Hnum.
  - by rewrite (write_ndjson_part_raise _ _ _ Henc).
Qed.

(** What a page leaves behind, however it ends: the cursor has not gone
    down, and the trace has at most one more event, the write of the
    fragment. *)
Lemma process_page_effect (payload : json) (s : fetch_state) :
  let s' := page_state (process_page cfg day publicationavis payload s) in
  last_numero s <= last_numero s'
  /\ daily_dir (fworld s') = daily_dir (fworld s)
  /\ (forall d, d <> day -> tmp_dir (fworld s') !! d = tmp_dir (fworld s) !! d)
  /\ (trace (fworld s') = trace (fworld s)
      \/ exists name records,
           trace (fworld s') = trace (fworld s) ++ [WritePart day name records]).
Proof.
  unfold process_page.
  destruct (_extract_records payload) as [records|]; simpl;
    [|repeat split; [lia | by left]].
  case_bool_decide; simpl; [repeat split; [lia | by left]|].
  pose proof (write_ndjson_part_world (S (page_idx s)) records (fworld s)) as Hw.
  assert (forall d, d <> day ->
            <[day:=<[part_name publicationavis (S (page_idx s)):=written_lines records]>
                     (day_parts day (fworld s))]> (tmp_dir (fworld s)) !! d
            = tmp_dir (fworld s) !! d) as Htmp.
  { intros d Hd. by rewrite lookup_insert_ne. }
  destruct (_write_ndjson_part day publicationavis (S (page_idx s)) records (fworld s))
    as [w'|w']; cbn [write_world] in Hw; subst w'; simpl.
  - destruct (advance _ _) as [n|] eqn:E; simpl.
    + apply advance_ge in E.
      case_bool_decide; simpl; (repeat split; [done | done | right; eauto]).
    + repeat split; [lia | done | right; eauto].
  - repeat split; [lia | done | right; eauto].
Qed.

End ProcessPage.

(** ** The whole pagination pass *)

Section FetchRun.
Import Fetcher.
Variable cfg : config.
Variable day : date.
Variable publicationavis : pystr.

Abbreviation loop := (fetch_loop cfg day publicationavis).
Abbreviation ok := (run_ok cfg day publicationavis).

Lemma cursors_app (a b : list event) : cursors (a ++ b) = cursors a ++ cursors b.
Proof. apply omap_app. Qed.

Lemma requests_app (a b : list event) : requests (a ++ b) = requests a ++ requests b.
Proof. apply omap_app. Qed.

Lemma run_ok_refl (s : fetch_state) : ok s s [].
Proof.
  repeat split; try done; try constructor; try lia. by rewrite app_nil_r.
Qed.

Lemma run_ok_compose (s s1 s2 : fetch_state) (e1 e2 : list event) :
  ok s s1 e1 -> ok s1 s2 e2 -> ok s s2 (e1 ++ e2).
Proof.
  intros (Ht1 & Hs1 & Hc1 & Hl1 & Hr1 & Hd1 & Hdd1 & Htm1 & Hca1)
         (Ht2 & Hs2 & Hc2 & Hl2 & Hr2 & Hd2 & Hdd2 & Htm2 & Hca2).
  repeat split.
  - by rewrite Ht2, Ht1, <- app_assoc.
  - rewrite cursors_app. apply StronglySorted_app_2; [|done|done].
    intros x1 x2 Hx1 Hx2.
    pose proof (proj1 (list.Forall_forall _ _) Hc1 _ Hx1).
    pose proof (proj1 (list.Forall_forall _ _) Hc2 _ Hx2). simpl in *. lia.
  - rewrite cursors_app. apply Forall_app. split.
    + eapply Forall_impl; [exact Hc1|]. simpl. intros; lia.
    + eapply Forall_impl; [exact Hc2|]. simpl. intros; lia.
  - lia.
  - rewrite requests_app. by apply Forall_app.
  - by apply Forall_app.
  - by rewrite Hdd2.
  - intros d Hd. by rewrite Htm2, Htm1.
  - unfold calls in *. by rewrite List.filter_app, Hca1, Hca2.
Qed.

Lemma run_ok_request (s : fetch_state) :
  ok s (with_world (emit (Request (request_params cfg day publicationavis s))) s)
    [Request (request_params cfg day publicationavis s)].
Proof.
  repeat split; simpl; try done; repeat constructor; simpl; lia.
Qed.

Lemma run_ok_sleep (e : event) (s : fetch_state) :
  (exists n, e = Sleep429 n) \/ (exists n, e = SleepBackoff n) ->
  ok s (with_world (emit e) s) [e].
Proof.
  intros [[n ->]|[n ->]]; repeat split; simpl; try done;
    repeat constructor; simpl; try lia; by right.
Qed.

Lemma run_ok_page (payload : json) (s : fetch_state) :
  exists events,
    ok s (page_state (process_page cfg day publicationavis payload s)) events
    /\ cursors events = [].
Proof.
  destruct (process_page_effect cfg day publicationavis payload s)
    as (Hl & Hdd & Htm & [Ht | (name & records & Ht)]).
  - exists []. split; [|done].
    repeat split; try done; try constructor; try lia. by rewrite app_nil_r.
  - exists [WritePart day name records]. split; [|done].
    repeat split; simpl; try done; repeat constructor; simpl; by left.
Qed.

(** The invariant of the two loops. *)
Lemma fetch_loop_run (script : list response) (attempt : nat) (s : fetch_state) :
  exists events,
    ok s (loop script attempt s).1.2 events
    /\ (Z.of_nat attempt < max_retries cfg ->
        exists more,
          events = Request (request_params cfg day publicationavis s) :: more).
Proof.
  revert attempt s. induction script as [|r script IH]; intros attempt s.
  - simpl. case_bool_decide as Ha; simpl.
    + eexists. split; [apply run_ok_request | eauto].
    + exists []. split; [apply run_ok_refl | done].
  - rewrite fetch_loop_unfold. case_bool_decide as Ha; simpl;
      [|exists []; split; [apply run_ok_refl | done]].
    pose proof (run_ok_request s) as Hreq.
    set (s0 := with_world (emit (Request (request_params cfg day publicationavis s))) s)
      in *.
    destruct r as [| |payload].
    + pose proof (run_ok_sleep (Sleep429 (too_many_requests_timeout_sec cfg)) s0
                    (or_introl (ex_intro _ _ eq_refl))) as Hsl.
      destruct (IH (S attempt)
                  (with_world (emit (Sleep429 (too_many_requests_timeout_sec cfg))) s0))
        as (ev & Hev & _).
      exists ([Request (request_params cfg day publicationavis s)]
                ++ [Sleep429 (too_many_requests_timeout_sec cfg)] ++ ev).
      split; [|intros _; by eexists].
      eapply run_ok_compose; [exact Hreq|].
      eapply run_ok_compose; [exact Hsl | exact Hev].
    + pose proof (run_ok_sleep (SleepBackoff attempt) s0
                    (or_intror (ex_intro _ _ eq_refl))) as Hsl.
      destruct (IH (S attempt) (with_world (emit (SleepBackoff attempt)) s0))
        as (ev & Hev & _).
      exists ([Request (request_params cfg day publicationavis s)]
                ++ [SleepBackoff attempt] ++ ev).
      split; [|intros _; by eexists].
      eapply run_ok_compose; [exact Hreq|].
      eapply run_ok_compose; [exact Hsl | exact Hev].
    + destruct (run_ok_page payload s0) as (evp & Hpage & _).
      destruct (process_page cfg day publicationavis payload s0) as [s'|s'|s'];
        simpl in Hpage.
      * pose proof (run_ok_sleep (SleepBackoff attempt) s'
                      (or_intror (ex_intro _ _ eq_refl))) as Hsl.
        destruct (IH (S attempt) (with_world (emit (SleepBackoff attempt)) s'))
          as (ev & Hev & _).
        exists ([Request (request_params cfg day publicationavis s)]
                  ++ evp ++ [SleepBackoff attempt] ++ ev).
        split; [|intros _; by eexists].
        eapply run_ok_compose; [exact Hreq|].
        eapply run_ok_compose; [exact Hpage|].
        eapply run_ok_compose; [exact Hsl | exact Hev].
      * exists ([Request (request_params cfg day publicationavis s)] ++ evp).
        split; [|intros _; by eexists].
        eapply run_ok_compose; [exact Hreq | exact Hpage].
      * destruct (IH 0%nat s') as (ev & Hev & _).
        exists ([Request (request_params cfg day publicationavis s)] ++ evp ++ ev).
        split; [|intros _; by eexists].
        eapply run_ok_compose; [exact Hreq|].
        eapply run_ok_compose; [exact Hpage | exact Hev].
Qed.

End FetchRun.

(** C2.  A page that comes back with no record ends the pass at once and
    stages nothing, so that a first answer without records leaves no fragment.
    A page with at least one record, whose records can all be written and
    whose [numeroannonce] values are numbers, is staged whole: with fewer
    than [per_page] records it ends the pass, with [per_page] records or more
    the loop asks for a further page, from the new cursor.  A page with a
    record that cannot be written, or with a [numeroannonce] that is no
    number, is no successful page: its fragment holds the lines written
    before the exception, the attempt counts as failed, and the loop goes on
    with the next attempt of the same request. *)
Theorem pagination_ends_on_short_page
    (cfg : Fetcher.config) (day : Fetcher.date) (publicationavis : pystr)
    (payload : json) (records : list json)
    (script : list Fetcher.response) (attempt : nat) (s : Fetcher.fetch_state)
    (Hattempt : Z.of_nat attempt < Fetcher.max_retries cfg)
    (Hpayload : Fetcher._extract_records payload = Some records) :
  let asked :=
    Fetcher.add_events
      [Fetcher.Request (Fetcher.request_params cfg day publicationavis s)] s in
  let run :=
    Fetcher.fetch_loop cfg day publicationavis
      (Fetcher.RespOk payload :: script) attempt s in
  (records = [] -> run = (Fetcher.Returned, asked, script))
  /\ (records = [] ->
      forall w,
        let first := Fetcher._fetch_day cfg day publicationavis
                       (Fetcher.RespOk payload :: script) w in
        first.1.1 = Fetcher.Returned
        /\ Fetcher.tmp_dir (Fetcher.fworld first.1.2) = Fetcher.tmp_dir w
        /\ Fetcher.written_parts
             (drop (length (Fetcher.trace w)) (Fetcher.trace (Fetcher.fworld first.1.2)))
           = [])
  /\ (forall nums,
        records <> [] -> forallb Fetcher.encodes records = true ->
        Fetcher.page_numbers records = Some nums ->
        let after := Fetcher.staged day publicationavis records
                       (foldr Z.max (Fetcher.last_numero s) nums) asked in
        Fetcher.day_parts day (Fetcher.fworld after)
          !! Fetcher.part_name publicationavis (S (Fetcher.page_idx s))
        = Some records
        /\ (Z.of_nat (length records) < Fetcher.per_page cfg ->
            run = (Fetcher.Returned, after, script))
        /\ (Fetcher.per_page cfg <= Z.of_nat (length records) ->
            run = Fetcher.fetch_loop cfg day publicationavis script 0 after
            /\ exists more,
                 Fetcher.trace (Fetcher.fworld run.1.2) =
                 Fetcher.trace (Fetcher.fworld s) ++
                 [ Fetcher.Request (Fetcher.request_params cfg day publicationavis s);
                   Fetcher.WritePart day
                     (Fetcher.part_name publicationavis (S (Fetcher.page_idx s)))
                     records;
                   Fetcher.Request
                     (Fetcher.request_params cfg day publicationavis after) ]
                 ++ more))
  /\ (records <> [] ->
      forallb Fetcher.encodes records = false
      \/ Fetcher.page_numbers records = None ->
      let failed := Fetcher.staged day publicationavis records
                      (Fetcher.last_numero s) asked in
      Fetcher.day_parts day (Fetcher.fworld failed)
        !! Fetcher.part_name publicationavis (S (Fetcher.page_idx s))
      = Some (Fetcher.written_lines records)
      /\ run = Fetcher.fetch_loop cfg day publicationavis script (S attempt)
                 (Fetcher.with_world (Fetcher.emit (Fetcher.SleepBackoff attempt))
                    failed)).
Proof.
  intros asked run.
  assert (Hrun : run =
    match Fetcher.process_page cfg day publicationavis payload asked with
    | Fetcher.PageRaise s' =>
        Fetcher.fetch_loop cfg day publicationavis script (S attempt)
          (Fetcher.with_world (Fetcher.emit (Fetcher.SleepBackoff attempt)) s')
    | Fetcher.PageReturn s' => (Fetcher.Returned, s', script)
    | Fetcher.PageBreak s' => Fetcher.fetch_loop cfg day publicationavis script 0 s'
    end).
  { unfold run. rewrite fetch_loop_unfold, bool_decide_eq_true_2 by done. done. }
  split; [|split; [|split]].
  - intros ->. by rewrite Hrun, (process_page_empty _ _ _ _ _ Hpayload).
  - intros -> w first. unfold first, Fetcher._fetch_day.
    rewrite fetch_loop_unfold. case_bool_decide as H0; [|lia].
    cbv zeta. rewrite (process_page_empty _ _ _ _ _ Hpayload). simpl.
    split; [done|]. split; [done|].
    by rewrite <- app_assoc, drop_app_length.
  - intros nums Hne Henc Hnums after. split; [|split].
    + etrans; [apply (staged_fragment day publicationavis records _ asked)|].
      by rewrite (written_lines_encoded _ Henc).
    + intros Hshort.
      rewrite Hrun, (process_page_staged _ _ _ _ _ _ _ Hpayload Hne Henc Hnums).
      by rewrite bool_decide_eq_true_2.
    + intros Hfull.
      assert (run = Fetcher.fetch_loop cfg day publicationavis script 0 after) as E.
      { rewrite Hrun, (process_page_staged _ _ _ _ _ _ _ Hpayload Hne Henc Hnums).
        rewrite bool_decide_eq_false_2 by lia. done. }
      split; [done|]. rewrite E.
      destruct (fetch_loop_run cfg day publicationavis script 0 after)
        as (events & (Ht & _) & Hfirst).
      destruct Hfirst as [more ->]; [lia|].
      exists more. rewrite Ht. subst after. unfold Fetcher.staged at 1.
      cbn [Fetcher.fworld]. rewrite write_ndjson_part_world.
      rewrite (written_lines_encoded _ Henc). simpl. by rewrite <- !app_assoc.
  - intros Hne Hraise failed. split.
    + apply (staged_fragment day publicationavis records _ asked).
    + by rewrite Hrun, (process_page_raises _ _ _ _ _ _ Hpayload Hne Hraise).
Qed.

Lemma pagination_ends_on_short_page_witness :
  (Fetcher.fetch_loop Example.config3 Example.day1 (u "A")
     [Fetcher.RespOk (Example.page [7])] 0 (Example.start Example.empty_world)).1.1
  = Fetcher.Returned.
Proof.
  pose proof (pagination_ends_on_short_page Example.config3 Example.day1 (u "A")
                (Example.page [7])
                [Example.announcement 7 (u "123 456 789")
                   (u "Jugement de liquidation judiciaire")]
                [] 0 (Example.start Example.empty_world)
                eq_refl eq_refl) as H.
  destruct H as (_ & _ & H & _).
  destruct (H [7] ltac:(discriminate) eq_refl eq_refl) as (_ & Hshort & _).
  rewrite (Hshort eq_refl). reflexivity.
Defined.

(** C3.  A pass starts with the cursor at 0.  Every page request filters on
    the day and the category, asks for [numeroannonce] above the cursor of
    the moment, in ascending [numeroannonce] order, at most [per_page]
    records.  After a staged page, one whose records were all written and
    whose [numeroannonce] values are numbers, the cursor is the largest of
    its former value and the sequence numbers of the page.  After a page that
    raised, in the write or in the comparison, the cursor is what it was.  So
    the cursor values of the successive requests of a pass never go down. *)
Theorem cursor_never_decreases
    (cfg : Fetcher.config) (day : Fetcher.date) (publicationavis : pystr) :
  (forall script w,
     let pass := Fetcher._fetch_day cfg day publicationavis script w in
     exists events,
       Fetcher.trace (Fetcher.fworld pass.1.2)
       = Fetcher.trace w ++ Fetcher.CallFetch day publicationavis :: events
       /\ (0 < Fetcher.max_retries cfg ->
           exists more,
             events =
             Fetcher.Request
               {| Fetcher.refine_dateparution := day;
                  Fetcher.where_publicationavis := publicationavis;
                  Fetcher.where_numeroannonce_gt := 0;
                  Fetcher.order_by := u "numeroannonce";
                  Fetcher.limit := Fetcher.per_page cfg |} :: more)
       /\ Forall (Fetcher.request_ok cfg day publicationavis)
            (Fetcher.requests events)
       /\ StronglySorted Z.le (Fetcher.cursors events)
       /\ Forall (fun c => 0 <= c <= Fetcher.last_numero pass.1.2)
            (Fetcher.cursors events))
  /\ (forall script attempt s,
        Z.of_nat attempt < Fetcher.max_retries cfg ->
        exists more,
          Fetcher.trace
            (Fetcher.fworld
               (Fetcher.fetch_loop cfg day publicationavis script attempt s).1.2)
          = Fetcher.trace (Fetcher.fworld s) ++
            Fetcher.Request
              {| Fetcher.refine_dateparution := day;
                 Fetcher.where_publicationavis := publicationavis;
                 Fetcher.where_numeroannonce_gt := Fetcher.last_numero s;
                 Fetcher.order_by := u "numeroannonce";
                 Fetcher.limit := Fetcher.per_page cfg |} :: more)
  /\ (forall payload records nums s,
        Fetcher._extract_records payload = Some records -> records <> [] ->
        forallb Fetcher.encodes records = true ->
        Fetcher.page_numbers records = Some nums ->
        let s' := Fetcher.page_state
                    (Fetcher.process_page cfg day publicationavis payload s) in
        Fetcher.last_numero s' = foldr Z.max (Fetcher.last_numero s) nums
        /\ Fetcher.last_numero s <= Fetcher.last_numero s'
        /\ Forall (fun n => n <= Fetcher.last_numero s') nums
        /\ (Fetcher.last_numero s' = Fetcher.last_numero s
            \/ Fetcher.last_numero s' ∈ nums))
  /\ (forall payload s,
        Fetcher.last_numero s <=
        Fetcher.last_numero
          (Fetcher.page_state
             (Fetcher.process_page cfg day publicationavis payload s)))
  /\ (forall payload records s,
        Fetcher._extract_records payload = Some records -> records <> [] ->
        forallb Fetcher.encodes records = false
        \/ Fetcher.page_numbers records = None ->
        exists s',
          Fetcher.process_page cfg day publicationavis payload s
          = Fetcher.PageRaise s'
          /\ Fetcher.last_numero s' = Fetcher.last_numero s
          /\ Fetcher.page_idx s' = S (Fetcher.page_idx s)
          /\ Fetcher.all_records s' = Fetcher.all_records s ++ records).
Proof.
  split; [|split; [|split; [|split]]].
  - intros script w pass. unfold pass, Fetcher._fetch_day.
    destruct (fetch_loop_run cfg day publicationavis script 0
                {| Fetcher.all_records := []; Fetcher.last_numero := 0;
                   Fetcher.page_idx := 0;
                   Fetcher.fworld :=
                     Fetcher.emit (Fetcher.CallFetch day publicationavis) w |})
      as (events & (Ht & Hs & Hc & _ & Hr & _) & Hfirst).
    exists events. split; [|split; [|split; [|split]]]; try done.
    by rewrite Ht; simpl; rewrite <- app_assoc.
  - intros script attempt s Ha.
    destruct (fetch_loop_run cfg day publicationavis script attempt s)
      as (events & (Ht & _) & Hfirst).
    destruct (Hfirst Ha) as [more ->]. by exists more.
  - intros payload records nums s He Hne Henc Hnums s'.
    assert (Fetcher.last_numero s' = foldr Z.max (Fetcher.last_numero s) nums) as E.
    { unfold s'. rewrite (process_page_staged _ _ _ _ _ _ _ He Hne Henc Hnums).
      by case_bool_decide. }
    rewrite E. split; [done|]. split; [apply foldr_max_ge|]. split.
    + apply list.Forall_forall. intros n Hn. by apply foldr_max_ge_elem.
    + apply foldr_max_elem.
  - intros payload s.
    by destruct (process_page_effect cfg day publicationavis payload s) as [H _].
  - intros payload records s He Hne Hraise. eexists.
    split; [exact (process_page_raises _ _ _ _ _ _ He Hne Hraise)|]. done.
Qed.

Lemma cursor_never_decreases_witness :
  Fetcher.last_numero
    (Fetcher.page_state
       (Fetcher.process_page Example.config3 Example.day1 (u "A")
          (Example.page [4; 9])
          (Fetcher.staged Example.day1 (u "A") [] 6
             (Example.start Example.empty_world))))
  = 9.
Proof.
  destruct (proj1 (proj2 (proj2
              (cursor_never_decreases Example.config3 Example.day1 (u "A"))))
              (Example.page [4; 9])
              [Example.announcement 4 (u "123 456 789")
                 (u "Jugement de liquidation judiciaire");
               Example.announcement 9 (u "123 456 789")
                 (u "Jugement de liquidation judiciaire")]
              [4; 9]
              (Fetcher.staged Example.day1 (u "A") [] 6
                 (Example.start Example.empty_world))
              eq_refl ltac:(discriminate) eq_refl eq_refl) as [H _].
  rewrite H. reflexivity.
Defined.

(** Three 429 answers in a row, with [max_retries] at 3 and nothing else
    going wrong: the call gives up, and the page that was ready next is never
    asked for. *)
Lemma rate_limit_abandons :
  let pass :=
    Fetcher._fetch_day Example.config3 Example.day1 (u "A")
      [Fetcher.Resp429; Fetcher.Resp429; Fetcher.Resp429;
       Fetcher.RespOk (Example.page [1])] Example.empty_world in
  pass.1.1 = Fetcher.Abandoned
  /\ pass.2 = [Fetcher.RespOk (Example.page [1])]
  /\ Fetcher.all_records pass.1.2 = []
  /\ Fetcher.requests (Fetcher.trace (Fetcher.fworld pass.1.2))
     = replicate 3 (Fetcher.request_params Example.config3 Example.day1 (u "A")
                      (Example.start Example.empty_world)).
Proof. vm_compute. done. Qed.

Lemma rate_limit_takes_an_attempt_witness :
  (Fetcher.fetch_loop Example.config3 Example.day1 (u "A")
     (replicate 3 Fetcher.Resp429 ++ [Fetcher.RespOk (Example.page [1])]) 0
     (Example.start Example.empty_world)).1.1
  = Fetcher.Abandoned.
Proof.
  rewrite (proj1 (proj2 (proj2
             (rate_limit_takes_an_attempt Example.config3 Example.day1 (u "A")
                3 eq_refl)))).
  reflexivity.
Defined.

(** ** Fragments: staging, cleanup and merge *)

Section Fragments.
Import Fetcher.
Variable day : date.

Lemma unlink_all_parts (parts : list (pystr * list json)) (w : world) :
  (forall name content, day_parts day w !! name = Some content ->
                        (name, content) ∈ parts) ->
  day_parts day (unlink_all day parts w) = ∅.
Proof.
  intros Hall. unfold day_parts at 1, unlink_all. simpl.
  rewrite lookup_insert_eq. simpl.
  apply map_eq. intros name. rewrite lookup_empty.
  destruct (day_parts day w !! name) as [content|] eqn:E.
  - apply Hall in E. clear Hall.
    induction parts as [|[n c] parts IH]; [by apply elem_of_nil in E|].
    simpl. destruct (decide (n = name)) as [->|Hn].
    + apply lookup_delete_eq.
    + rewrite lookup_delete_ne by done. apply IH.
      apply elem_of_cons in E as [E|E]; [congruence | done].
  - clear Hall. induction parts as [|[n c] parts IH]; [done|].
    simpl. destruct (decide (n = name)) as [->|Hn].
    + apply lookup_delete_eq.
    + by rewrite lookup_delete_ne.
Qed.

Lemma unlink_all_touches (parts : list (pystr * list json)) (w : world) :
  touches_only day w (unlink_all day parts w)
    (map (fun p => UnlinkPart day p.1) parts).
Proof.
  repeat split; simpl; try done.
  - apply Forall_map. apply list.Forall_forall. intros; by left.
  - intros d Hd. by rewrite lookup_insert_ne.
Qed.

Lemma part_files_elem (w : world) (name : pystr) (content : list json) :
  (name, content) ∈ part_files day w <-> day_parts day w !! name = Some content.
Proof.
  unfold part_files. rewrite merge_sort_Permutation.
  apply elem_of_map_to_list.
Qed.

Lemma part_files_nil (w : world) :
  part_files day w = [] <-> day_parts day w = ∅.
Proof.
  split.
  - intros E. apply map_eq. intros name. rewrite lookup_empty.
    destruct (day_parts day w !! name) as [content|] eqn:H; [|done].
    apply part_files_elem in H. rewrite E in H. by apply elem_of_nil in H.
  - intros E. unfold part_files. rewrite E, map_to_list_empty. done.
Qed.

End Fragments.

(** ** The day loop *)

Section DayLoop.
Import Fetcher.
Variable cfg : config.

Lemma calls_unlinks (day : date) (parts : list (pystr * list json)) :
  calls (map (fun p => UnlinkPart day p.1) parts) = [].
Proof. induction parts as [|p l IH]; simpl; [done | exact IH]. Qed.

Lemma touches_only_trans (day : date) (w w1 w2 : world) (e1 e2 : list event) :
  touches_only day w w1 e1 -> touches_only day w1 w2 e2 ->
  touches_only day w w2 (e1 ++ e2).
Proof.
  intros (Ht1 & He1 & Hd1 & Hp1) (Ht2 & He2 & Hd2 & Hp2). repeat split.
  - by rewrite Ht2, Ht1, <- app_assoc.
  - by apply Forall_app.
  - intros d Hd. by rewrite Hd2, Hd1.
  - intros d Hd. by rewrite Hp2, Hp1.
Qed.

Lemma emit_touches (day : date) (e : event) (w : world) :
  event_day e = Some day ->
  touches_only day w (emit e w) [e].
Proof.
  intros He. repeat split; simpl; try done.
  constructor; [by left | constructor].
Qed.

Lemma cleanup_touches (day : date) (w : world) :
  touches_only day w (_cleanup_day_parts day w)
    (CallCleanup day
       :: map (fun p => UnlinkPart day p.1) (map_to_list (day_parts day w)))
  /\ daily_dir (_cleanup_day_parts day w) = daily_dir w
  /\ day_parts day (_cleanup_day_parts day w) = ∅.
Proof.
  unfold _cleanup_day_parts. split; [|split].
  - change (CallCleanup day :: ?l) with ([CallCleanup day] ++ l).
    eapply touches_only_trans; [by apply emit_touches|].
    apply (unlink_all_touches day _ (emit (CallCleanup day) w)).
  - done.
  - apply unlink_all_parts. intros name content H.
    by apply elem_of_map_to_list.
Qed.

(** What [_merge_day_parts] leaves: the day's file holds the fragments in
    the order of their file names, or nothing when there was no fragment and
    no file; no fragment of the day is left. *)
Lemma merge_day_parts_spec (day : date) (w : world) :
  daily_dir (_merge_day_parts day w) !! day =
    (if bool_decide (part_files day w = [])
     then match daily_dir w !! day with
          | Some content => Some content
          | None => Some []
          end
     else Some (concat (map snd (part_files day w))))
  /\ day_parts day (_merge_day_parts day w) = ∅
  /\ exists events,
       touches_only day w (_merge_day_parts day w) (CallMerge day :: events)
       /\ calls events = [].
Proof.
  unfold _merge_day_parts.
  change (part_files day (emit (CallMerge day) w)) with (part_files day w).
  case_bool_decide as Hparts.
  - split; [|split].
    + simpl. destruct (daily_dir w !! day) eqn:E; [done|]. apply lookup_insert_eq.
    + by apply part_files_nil.
    + exists [TouchDaily day]. split; [|done].
      repeat split; simpl; try done.
      * by rewrite <- app_assoc.
      * constructor; [by left|]. constructor; [by left | constructor].
      * intros d Hd. destruct (daily_dir w !! day); [done|].
        by rewrite lookup_insert_ne.
  - split; [|split].
    + simpl. apply lookup_insert_eq.
    + apply unlink_all_parts. intros name content H. by apply part_files_elem.
    + exists (WriteDaily day (concat (map snd (part_files day w)))
                :: map (fun p => UnlinkPart day p.1) (part_files day w)).
      split.
      * repeat split; simpl; try done.
        -- by rewrite <- !app_assoc.
        -- constructor; [by left|]. constructor; [by left|].
           apply Forall_map, list.Forall_forall. intros; by left.
        -- intros d Hd. by rewrite lookup_insert_ne.
        -- intros d Hd. by rewrite lookup_insert_ne.
      * apply (calls_unlinks day).
Qed.

Lemma fetch_day_touches (day : date) (publicationavis : pystr)
    (script : list response) (w : world) :
  let pass := _fetch_day cfg day publicationavis script w in
  exists events,
    touches_only day w (fworld pass.1.2) (CallFetch day publicationavis :: events)
    /\ calls events = []
    /\ daily_dir (fworld pass.1.2) = daily_dir w.
Proof.
  intros pass. unfold pass, _fetch_day.
  destruct (fetch_loop_run cfg day publicationavis script 0
              {| all_records := []; last_numero := 0; page_idx := 0;
                 fworld := emit (CallFetch day publicationavis) w |})
    as (events & (Ht & _ & _ & _ & _ & Hev & Hdd & Htmp & Hcalls) & _).
  exists events. split; [|split]; try done.
  repeat split.
  - rewrite Ht. simpl. by rewrite <- app_assoc.
  - constructor; [by left | done].
  - intros d Hd. by rewrite Hdd.
  - intros d Hd. by rewrite Htmp.
Qed.

Lemma touches_only_refl (day : date) (w : world) : touches_only day w w [].
Proof. repeat split; try done. by rewrite app_nil_r. Qed.

Lemma fetch_types_touches (day : date) (types : list pystr)
    (script script' : list response) (w w' : world) :
  fetch_types cfg day types script w = Some (w', script') ->
  exists events,
    touches_only day w w' events
    /\ calls events = map (CallFetch day) types
    /\ daily_dir w' = daily_dir w.
Proof.
  revert script w. induction types as [|publicationavis types IH];
    intros script w H; simpl in H.
  - injection H as <- <-. exists []. split; [apply touches_only_refl | done].
  - destruct (fetch_day_touches day publicationavis script w)
      as (ev1 & Hto1 & Hc1 & Hd1).
    destruct (_fetch_day cfg day publicationavis script w) as [[st s] script1].
    simpl in Hto1, Hd1.
    assert (fetch_types cfg day types script1 (fworld s) = Some (w', script')) as H'.
    { by destruct st. }
    destruct (IH _ _ H') as (ev2 & Hto2 & Hc2 & Hd2).
    exists ((CallFetch day publicationavis :: ev1) ++ ev2). split; [|split].
    + by eapply touches_only_trans.
    + unfold calls in *. rewrite List.filter_app. simpl. by rewrite Hc1, Hc2.
    + by rewrite Hd2.
Qed.

Lemma visit_day_absent (day : date) (script : list response) (w : world) :
  daily_dir w !! day = None ->
  visit_day cfg day script w =
  match fetch_types cfg day PUBLICATION_TYPES script (_cleanup_day_parts day w) with
  | Some (w', script') => Some (_merge_day_parts day w', script')
  | None => None
  end.
Proof.
  intros H. unfold visit_day. rewrite H.
  rewrite bool_decide_eq_false_2 by (by intros [? ?]).
  by destruct (fetch_types _ _ _ _ _) as [[w' script']|].
Qed.

Lemma visit_day_calls (day : date) (script script' : list response) (w w' : world) :
  daily_dir w !! day = None ->
  visit_day cfg day script w = Some (w', script') ->
  exists events,
    touches_only day w w' events
    /\ calls events = [ CallCleanup day; CallFetch day (u "A");
                        CallFetch day (u "B"); CallFetch day (u "C");
                        CallMerge day ]
    /\ is_Some (daily_dir w' !! day)
    /\ day_parts day w' = ∅.
Proof.
  intros Habs H. rewrite (visit_day_absent _ _ _ Habs) in H.
  destruct (fetch_types _ _ _ _ _) as [[w1 script1]|] eqn:Hf; [|done].
  injection H as <- <-.
  destruct (cleanup_touches day w) as (Hc & Hcd & _).
  destruct (fetch_types_touches _ _ _ _ _ _ Hf) as (ev & Hto & Hcalls & Hd).
  destruct (merge_day_parts_spec day w1) as (Hm & Hparts & evm & Htm & Hcm).
  eexists. split; [|split; [|split]].
  - eapply touches_only_trans; [exact Hc|].
    eapply touches_only_trans; [exact Hto | exact Htm].
  - unfold calls in *. rewrite !List.filter_app. simpl.
    rewrite Hcalls, Hcm.
    pose proof (calls_unlinks day (map_to_list (day_parts day w))) as Hu.
    unfold calls in Hu. by rewrite Hu.
  - rewrite Hm. case_bool_decide; [|done].
    rewrite Hd, Hcd, Habs. done.
  - done.
Qed.

Lemma visit_day_touches (day : date) (script script' : list response) (w w' : world) :
  visit_day cfg day script w = Some (w', script') ->
  exists events, touches_only day w w' events.
Proof.
  intros H. destruct (daily_dir w !! day) as [artifact|] eqn:E.
  - unfold visit_day in H. rewrite E in H.
    rewrite bool_decide_eq_true_2 in H by eauto. injection H as <- <-.
    exists []. apply touches_only_refl.
  - destruct (visit_day_calls _ _ _ _ _ E H) as (events & Ht & _). eauto.
Qed.

(** A day that has its file keeps it, with its fragments, through the visits
    of any days, and no event is about it. *)
Lemma visit_days_keeps (days : list date) (day : date) (artifact : list json)
    (script script' : list response) (w w' : world) :
  daily_dir w !! day = Some artifact ->
  visit_days cfg days script w = Some (w', script') ->
  daily_dir w' !! day = Some artifact
  /\ tmp_dir w' !! day = tmp_dir w !! day
  /\ exists events,
       trace w' = trace w ++ events
       /\ Forall (fun e => event_day e <> Some day) events.
Proof.
  revert script w. induction days as [|d days IH]; intros script w Hart H; simpl in H.
  - injection H as <- <-. repeat split; try done. exists []. by rewrite app_nil_r.
  - destruct (visit_day cfg d script w) as [[w1 script1]|] eqn:Hv; [|done].
    simpl in H. destruct (decide (d = day)) as [->|Hd].
    + unfold visit_day in Hv. rewrite Hart in Hv.
      rewrite bool_decide_eq_true_2 in Hv by eauto. injection Hv as <- <-.
      by apply (IH script w).
    + destruct (visit_day_touches _ _ _ _ _ Hv) as (ev1 & Ht1 & He1 & Hd1 & Hp1).
      destruct (IH script1 w1) as (Ha & Hp & ev2 & Ht2 & He2); [|done|].
      { by rewrite Hd1. }
      split; [done|]. split; [by rewrite Hp, Hp1|].
      exists (ev1 ++ ev2). split; [by rewrite Ht2, Ht1, <- app_assoc|].
      apply Forall_app. split; [|done].
      eapply Forall_impl; [exact He1|]. simpl. intros e [E|E]; congruence.
Qed.

End DayLoop.



(** ** The order of the merged fragments *)

(** Up to page 999 the zero-padded page numbers order the file names as the
    pages are numbered. *)
Lemma fmt_03d_order (n m : nat) :
  (n < 1000)%nat -> (m < 1000)%nat ->
  str_leb (fmt_03d n ++ u ".jsonl") (fmt_03d m ++ u ".jsonl") = (n <=? m)%nat.
Proof.
  intros Hn Hm.
  set (names := map (fun n => (N.of_nat n, fmt_03d n ++ u ".jsonl")) (seq 0 1000)).
  assert (forallb (fun a => forallb (fun b =>
            Bool.eqb (str_leb a.2 b.2) (a.1 <=? b.1)%N) names) names = true) as H.
  { vm_compute. reflexivity. }
  rewrite forallb_forall in H.
  assert (forall k, (k < 1000)%nat ->
            In (N.of_nat k, fmt_03d k ++ u ".jsonl") names) as Hin.
  { intros k Hk. unfold names.
    apply (in_map (fun n => (N.of_nat n, fmt_03d n ++ u ".jsonl"))).
    apply in_seq. lia. }
  specialize (H _ (Hin n Hn)). rewrite forallb_forall in H.
  specialize (H _ (Hin m Hm)). apply Bool.eqb_prop in H. simpl in H.
  rewrite H. destruct (N.leb_spec (N.of_nat n) (N.of_nat m));
    destruct (Nat.leb_spec n m); (done || lia).
Qed.

(** ** The order of file names *)

Lemma str_leb_total (a b : pystr) : str_leb a b = true \/ str_leb b a = true.
Proof.
  revert b. induction a as [|x a IH]; intros [|y b]; simpl; auto.
  destruct (N.ltb_spec x y), (N.ltb_spec y x); auto; lia.
Qed.

Lemma str_leb_trans (a b c : pystr) :
  str_leb a b = true -> str_leb b c = true -> str_leb a c = true.
Proof.
  revert b c. induction a as [|x a IH]; intros [|y b] [|z c]; simpl; try done.
  destruct (N.ltb_spec x y), (N.ltb_spec y x), (N.ltb_spec y z),
    (N.ltb_spec z y), (N.ltb_spec x z), (N.ltb_spec z x);
    try done; try lia.
  apply IH.
Qed.

Lemma str_leb_antisym (a b : pystr) :
  str_leb a b = true -> str_leb b a = true -> a = b.
Proof.
  revert b. induction a as [|x a IH]; intros [|y b]; simpl; try done.
  destruct (N.ltb_spec x y), (N.ltb_spec y x); try done; try lia.
  intros H1 H2. f_equal; [lia | by apply IH].
Qed.

Lemma str_leb_prefix (p a b : pystr) : str_leb (p ++ a) (p ++ b) = str_leb a b.
Proof.
  induction p as [|x p IH]; [done|]. simpl. by rewrite N.ltb_irrefl.
Qed.

#[global] Instance name_le_total : Total Fetcher.name_le.
Proof. intros a b. apply str_leb_total. Qed.

#[global] Instance name_le_trans : Transitive Fetcher.name_le.
Proof. intros a b c. apply str_leb_trans. Qed.

Lemma name_le_antisym (a b : pystr * list json) :
  Fetcher.name_le a b -> Fetcher.name_le b a -> a.1 = b.1.
Proof.
  intros H1 H2. apply (app_inv_tail (u ".jsonl")). by apply str_leb_antisym.
Qed.

Section PageOrder.
Import Fetcher.

Lemma part_name_lt (publicationavis : pystr) (i j : nat) (c1 c2 : list json) :
  (i < j < 1000)%nat ->
  name_lt (part_name publicationavis i, c1) (part_name publicationavis j, c2).
Proof.
  intros Hij. unfold name_lt, name_le, part_name. cbn [fst].
  rewrite <- !app_assoc, !str_leb_prefix.
  split.
  - rewrite fmt_03d_order by lia. apply Nat.leb_le. lia.
  - intros E. apply app_inv_head, app_inv_head in E.
    assert (str_leb (fmt_03d j ++ u ".jsonl") (fmt_03d i ++ u ".jsonl") = true) as H
      by (by rewrite E, str_leb_prefix).
    rewrite fmt_03d_order in H by lia. apply Nat.leb_le in H. lia.
Qed.

Lemma type_name_lt (t1 t2 : pystr) (i j : nat) (c1 c2 : list json) :
  (t1 = u "A" /\ (t2 = u "B" \/ t2 = u "C")) \/ (t1 = u "B" /\ t2 = u "C") ->
  name_lt (part_name t1 i, c1) (part_name t2 j, c2).
Proof.
  intros [[-> [-> | ->]] | [-> ->]]; split; simpl; done.
Qed.

Lemma pages_of_type_sorted (publicationavis : pystr) (content : nat -> list json)
    (start n : nat) :
  (start + n <= 1000)%nat ->
  StronglySorted name_lt
    (map (fun i => (part_name publicationavis i, content i)) (seq start n)).
Proof.
  revert start. induction n as [|n IH]; intros start Hn; simpl; constructor.
  - apply IH. lia.
  - apply Forall_map, list.Forall_forall. intros j Hj. simpl.
    apply list_elem_of_In, in_seq in Hj. apply part_name_lt. lia.
Qed.

Lemma pages_in_order_sorted (pages : pystr -> nat)
    (content : pystr -> nat -> list json) :
  (forall publicationavis, (pages publicationavis < 1000)%nat) ->
  StronglySorted name_lt (pages_in_order pages content).
Proof.
  intros Hn. unfold pages_in_order, PUBLICATION_TYPES. simpl. rewrite app_nil_r.
  assert (forall t, StronglySorted name_lt
            (map (fun i => (part_name t i, content t i)) (seq 1 (pages t)))) as Hs.
  { intros t. apply pages_of_type_sorted. specialize (Hn t). lia. }
  assert (forall t1 t2 x1 x2,
            (t1 = u "A" /\ (t2 = u "B" \/ t2 = u "C")) \/ (t1 = u "B" /\ t2 = u "C") ->
            x1 ∈ map (fun i => (part_name t1 i, content t1 i)) (seq 1 (pages t1)) ->
            x2 ∈ map (fun i => (part_name t2 i, content t2 i)) (seq 1 (pages t2)) ->
            name_lt x1 x2) as Hcross.
  { intros t1 t2 x1 x2 Ht H1 H2.
    apply list_elem_of_fmap in H1 as (i & -> & _).
    apply list_elem_of_fmap in H2 as (j & -> & _).
    by apply type_name_lt. }
  apply StronglySorted_app_2; [|apply Hs|].
  - intros x1 x2 H1 H2. apply elem_of_app in H2 as [H2|H2].
    + apply (Hcross (u "A") (u "B")); auto.
    + apply (Hcross (u "A") (u "C")); auto.
  - apply StronglySorted_app_2; [|apply Hs|apply Hs].
    intros x1 x2 H1 H2. apply (Hcross (u "B") (u "C")); auto.
Qed.

Lemma name_lt_sorted_le (l : list (pystr * list json)) :
  StronglySorted name_lt l -> StronglySorted name_le l.
Proof.
  induction 1 as [|x l Hl IH Hx]; constructor; [done|].
  eapply Forall_impl; [exact Hx|]. by intros y [H _].
Qed.

Lemma name_lt_sorted_nodup (l : list (pystr * list json)) :
  StronglySorted name_lt l -> NoDup l.*1.
Proof.
  induction 1 as [|x l Hl IH Hx]; simpl; constructor; [|done].
  intros Hin. apply list_elem_of_fmap in Hin as (y & Hy & Hin).
  rewrite list.Forall_forall in Hx. by destruct (Hx y Hin) as [_ Hne].
Qed.

(** Up to 999 pages a category, the sorted file names give the fragments in
    page order, category by category. *)
Lemma part_files_page_order (day : date) (w : world) (pages : pystr -> nat)
    (content : pystr -> nat -> list json) :
  (forall publicationavis, (pages publicationavis < 1000)%nat) ->
  day_parts day w = list_to_map (pages_in_order pages content) ->
  part_files day w = pages_in_order pages content.
Proof.
  intros Hn Hparts.
  pose proof (pages_in_order_sorted pages content Hn) as Hsorted.
  unfold part_files. rewrite Hparts.
  apply (StronglySorted_unique_strong name_le).
  - intros x1 x2 H1 H2 Hle1 Hle2.
    pose proof (name_le_antisym _ _ Hle1 Hle2) as Hname.
    rewrite merge_sort_Permutation in H1.
    rewrite map_to_list_to_map in H1 by (by apply name_lt_sorted_nodup).
    destruct x1 as [n1 c1], x2 as [n2 c2]. simpl in Hname. subst n2.
    f_equal.
    pose proof (name_lt_sorted_nodup _ Hsorted) as Hnodup.
    pose proof (elem_of_list_to_map_1 (M := gmap pystr) _ _ _ Hnodup H1) as E1.
    pose proof (elem_of_list_to_map_1 (M := gmap pystr) _ _ _ Hnodup H2) as E2.
    congruence.
  - apply StronglySorted_merge_sort; apply _.
  - by apply name_lt_sorted_le.
  - rewrite merge_sort_Permutation.
    apply map_to_list_to_map. by apply name_lt_sorted_nodup.
Qed.

(** With at most 999 pages a category, the merge leaves one file with the
    fragments in page order and deletes them; without any fragment and
    without the file, it leaves the empty file. *)
Lemma merge_in_page_order_below_1000 (day : date) (w : world)
    (pages : pystr -> nat) (content : pystr -> nat -> list json) :
  (forall publicationavis, (pages publicationavis < 1000)%nat) ->
  day_parts day w = list_to_map (pages_in_order pages content) ->
  daily_dir w !! day = None ->
  daily_dir (_merge_day_parts day w) !! day
  = Some (concat (map snd (pages_in_order pages content)))
  /\ day_parts day (_merge_day_parts day w) = ∅.
Proof.
  intros Hn Hparts Habs.
  destruct (merge_day_parts_spec day w) as (Hm & Hempty & _).
  pose proof (part_files_page_order day w pages content Hn Hparts) as Hpf.
  split; [|done]. rewrite Hm. case_bool_decide as E.
  - by rewrite Habs, <- Hpf, E.
  - by rewrite Hpf.
Qed.

End PageOrder.

(** C5, at 1000 pages.  A day with 1000 announcements of category A fetched
    one a page stages the pages 1 to 1000 in this order, and the merge leaves
    a file where the record of page 1000 comes right after the one of page
    100, before those of pages 101 to 999: the file name of page 1000 sorts
    between the names of pages 100 and 101.  With 999 announcements the file
    is in page order. *)
Theorem merge_breaks_page_order_at_1000 :
  match Fetcher.visit_day Example.config1 Example.day1
          (Example.one_a_page 1000) Example.empty_world with
  | Some (w, rest) =>
      rest = []
      /\ map fst (Fetcher.written_parts (Fetcher.trace w))
         = map (Fetcher.part_name (u "A")) (seq 1 1000)
      /\ (Example.numeros <$> Fetcher.daily_dir w !! Example.day1)
         = Some (map Z.of_nat (seq 1 100 ++ [1000%nat] ++ seq 101 899))
      /\ Fetcher.part_name (u "A") 1000 = u "A_1000"
      /\ str_leb (u "A_100.jsonl") (u "A_1000.jsonl") = true
      /\ str_leb (u "A_1000.jsonl") (u "A_101.jsonl") = true
  | None => False
  end
  /\ match Fetcher.visit_day Example.config1 Example.day1
             (Example.one_a_page 999) Example.empty_world with
     | Some (w, rest) =>
         (Example.numeros <$> Fetcher.daily_dir w !! Example.day1)
         = Some (map Z.of_nat (seq 1 999))
     | None => False
     end.
Proof. split; vm_compute; repeat split; reflexivity. Qed.

(** ** The filter stage *)

Section FilterStage.
Import Filter.
Variable isdigit : N -> bool.
Variable str_lower nfd : pystr -> pystr.
Variable category_Mn : N -> bool.
Variable json_loads : pystr -> option json.
Variable strptime_strftime : pystr -> pystr -> option pystr.
Variable sirens : gset pystr.
Variable keywords : list pystr.
Variable sirens_info : gmap pystr (pystr * pystr * pystr).

Abbreviation day_of := (publication_day strptime_strftime).
Abbreviation kept := (kept_for isdigit str_lower nfd category_Mn json_loads
                        strptime_strftime sirens keywords sirens_info).
Abbreviation flines := (filter_lines isdigit str_lower nfd category_Mn json_loads
                          strptime_strftime sirens keywords sirens_info).
Abbreviation frecord := (filter_record isdigit str_lower nfd category_Mn json_loads
                           strptime_strftime sirens keywords sirens_info).
Abbreviation frecords := (_filter_records isdigit str_lower nfd category_Mn
                            json_loads strptime_strftime sirens keywords
                            sirens_info).
Abbreviation ffile := (filter_file isdigit str_lower nfd category_Mn json_loads
                         strptime_strftime sirens keywords sirens_info).

Abbreviation matched d := (_matched_sirens isdigit d sirens).
Abbreviation tagged d :=
  (_should_tag_topage str_lower nfd category_Mn json_loads d keywords).
Abbreviation enriched_of d := (enriched isdigit sirens sirens_info d).

(** One line that is an object, by its publication day. *)
Lemma filter_record_dict (existing : gset pystr) (acc : per_file)
    (d : list (pystr * json)) :
  frecord existing acc (JDict d) =
  Some match day_of (JDict d) with
       | None => acc
       | Some day_str =>
           if bool_decide (day_str ∈ existing) then acc
           else
             {| seen_per_day := seen_per_day acc ∪ {[day_str]};
                kept_per_day :=
                  if negb (bool_decide (matched d = [])) && tagged d
                  then <[day_str := default [] (kept_per_day acc !! day_str)
                                    ++ [enriched_of d]]> (kept_per_day acc)
                  else kept_per_day acc |}
       end.
Proof.
  unfold filter_record, publication_day.
  destruct (dict_get (u "dateparution") d) as [[| | |v| |]|]; try done.
  destruct (_parse_day strptime_strftime v) as [day_str|]; [|done].
  case_bool_decide as Hempty; [done|].
  case_bool_decide as Hex; [done|].
  case_bool_decide as Hm; [done|]. simpl.
  by destruct (tagged d).
Qed.

Lemma kept_for_cons (day : pystr) (record : json) (records : list json) :
  kept day (record :: records) = kept day [record] ++ kept day records.
Proof. unfold kept_for. simpl. by rewrite app_nil_r. Qed.

Lemma kept_for_dict (day : pystr) (d : list (pystr * json)) :
  kept day [JDict d] =
  if bool_decide (day_of (JDict d) = Some day)
     && negb (bool_decide (matched d = [])) && tagged d
  then [enriched_of d] else [].
Proof. unfold kept_for. simpl. by rewrite app_nil_r. Qed.

Abbreviation fresh := (fresh_days strptime_strftime).

Lemma fresh_days_elem (existing : gset pystr) (records : list json) (day : pystr) :
  day ∈ fresh existing records <->
  (day ∉ existing) /\ exists record, record ∈ records /\ day_of record = Some day.
Proof.
  unfold fresh_days. rewrite elem_of_list_to_set, list_elem_of_omap. split.
  - intros (record & Hin & H). destruct (day_of record) as [day'|] eqn:E; [|done].
    case_bool_decide as Hex; [done|]. injection H as ->. eauto.
  - intros (Hex & record & Hin & H). exists record. split; [done|].
    rewrite H. by rewrite bool_decide_eq_false_2.
Qed.

Lemma fresh_days_cons (existing : gset pystr) (record : json) (records : list json) :
  fresh existing (record :: records) =
  match day_of record with
  | Some day => if bool_decide (day ∈ existing) then ∅ else {[ day ]}
  | None => ∅
  end ∪ fresh existing records.
Proof.
  unfold fresh_days. cbn [omap list_omap].
  destruct (day_of record) as [day|]; [|set_solver].
  case_bool_decide; [set_solver|]. by rewrite list_to_set_cons.
Qed.

(** The lines of a file whose lines are all objects: every day met that has
no file yet is seen, and the lines kept for it are the matching ones, in
file order. *)
Lemma filter_lines_dicts (existing : gset pystr) (records : list json)
    (acc : per_file) :
  Forall (fun record => is_dict record = true) records ->
  exists acc',
    flines existing acc records = Some acc'
    /\ seen_per_day acc' = seen_per_day acc ∪ fresh existing records
    /\ (forall day, day ∉ existing ->
          default [] (kept_per_day acc' !! day) =
          default [] (kept_per_day acc !! day) ++ kept day records).
Proof.
  intros Hdicts. revert acc.
  induction Hdicts as [|record records Hd _ IH]; intros acc.
  - exists acc. split; [done|]. split.
    + unfold fresh_days. simpl. set_solver.
    + intros day _. unfold kept_for. simpl. by rewrite app_nil_r.
  - destruct record as [| | | | |d]; try done.
    change (flines existing acc (JDict d :: records))
      with (frecord existing acc (JDict d) ≫= fun a => flines existing a records).
    rewrite filter_record_dict. cbn [mbind option_bind].
    match goal with |- context [flines existing ?a records] =>
      destruct (IH a) as (acc' & -> & Hseen & Hkept) end.
    exists acc'. split; [done|]. split.
    + rewrite Hseen, fresh_days_cons.
      destruct (day_of (JDict d)) as [day_str|]; [|set_solver].
      case_bool_decide; [set_solver|]. cbn [seen_per_day]. set_solver.
    + intros day Hday. rewrite (Hkept day Hday), kept_for_cons, kept_for_dict.
      rewrite app_assoc. f_equal.
      destruct (day_of (JDict d)) as [day_str|]; [|by rewrite app_nil_r].
      case_bool_decide as Hex.
      { rewrite bool_decide_eq_false_2; [by rewrite app_nil_r|].
        intros [= ->]. done. }
      simpl. destruct (negb (bool_decide (matched d = [])) && tagged d) eqn:E.
      * destruct (decide (day_str = day)) as [->|Hne].
        -- rewrite lookup_insert_eq. simpl.
           rewrite bool_decide_eq_true_2 by done. simpl. by rewrite E.
        -- rewrite lookup_insert_ne by done.
           rewrite bool_decide_eq_false_2 by congruence. simpl.
           by rewrite app_nil_r.
      * rewrite <- andb_assoc, E, andb_false_r. by rewrite app_nil_r.
Qed.

Lemma write_day_file_lookup (day_str : pystr) (records : list json)
    (dir : gmap pystr (list json)) (d : pystr) :
  _write_day_file day_str records dir !! d =
  match dir !! d with
  | Some c => Some c
  | None => if bool_decide (d = day_str) then Some records else None
  end.
Proof.
  unfold _write_day_file. destruct (dir !! day_str) as [c0|] eqn:E.
  - destruct (dir !! d) as [c|] eqn:Ed; [done|].
    rewrite bool_decide_eq_false_2; [done | congruence].
  - destruct (decide (d = day_str)) as [->|Hne].
    + by rewrite lookup_insert_eq, E, bool_decide_eq_true_2.
    + rewrite lookup_insert_ne by done.
      by rewrite bool_decide_eq_false_2 by done; destruct (dir !! d).
Qed.

(** The writes of the days of a list, whatever its order. *)
Lemma write_list_spec (acc : per_file) (days : list pystr) (st : filter_state) :
  let st' :=
    foldl (fun st day_str =>
             {| existing := existing st ∪ {[day_str]};
                target_dir := _write_day_file day_str
                                (default [] (kept_per_day acc !! day_str))
                                (target_dir st) |}) st days in
  existing st' = existing st ∪ list_to_set days
  /\ forall d,
       target_dir st' !! d =
       match target_dir st !! d with
       | Some c => Some c
       | None => if bool_decide (d ∈ days)
                 then Some (default [] (kept_per_day acc !! d)) else None
       end.
Proof.
  revert st. induction days as [|day days IH]; intros st; simpl.
  - split; [set_solver|]. intros d. by destruct (target_dir st !! d).
  - match goal with |- context [foldl ?f ?s days] =>
      destruct (IH s) as [He Ht] end.
    simpl in He, Ht. split; [rewrite He; set_solver|].
    intros d. rewrite Ht, write_day_file_lookup.
    destruct (target_dir st !! d) as [c|]; [done|].
    destruct (decide (d = day)) as [->|Hne].
    + rewrite bool_decide_eq_true_2 by done.
      by rewrite bool_decide_eq_true_2 by constructor.
    + rewrite (bool_decide_eq_false_2 (d = day)) by done.
      case_bool_decide as H1; case_bool_decide as H2; try done.
      * exfalso. apply H2. by constructor.
      * exfalso. apply elem_of_cons in H2 as [H2|H2]; done.
Qed.

Lemma write_days_spec (acc : per_file) (st : filter_state) :
  existing (write_days acc st) = existing st ∪ seen_per_day acc
  /\ forall d,
       target_dir (write_days acc st) !! d =
       match target_dir st !! d with
       | Some c => Some c
       | None => if bool_decide (d ∈ seen_per_day acc)
                 then Some (default [] (kept_per_day acc !! d)) else None
       end.
Proof.
  destruct (write_list_spec acc (merge_sort str_le (elements (seen_per_day acc))) st)
    as [He Ht].
  assert (forall d, d ∈ merge_sort str_le (elements (seen_per_day acc))
                    <-> d ∈ seen_per_day acc) as Hin.
  { intros d. by rewrite merge_sort_Permutation, elem_of_elements. }
  unfold write_days. split.
  - rewrite He. apply set_eq. intros d.
    rewrite !elem_of_union, elem_of_list_to_set, Hin. done.
  - intros d. rewrite Ht. destruct (target_dir st !! d); [done|].
    case_bool_decide as H1; case_bool_decide as H2; try done.
    + exfalso. by apply H2, Hin.
    + exfalso. by apply H1, Hin.
Qed.

(** A file that is read, with objects on all its lines. *)
Lemma filter_file_read (st : filter_state) (f : input_file) :
  skipped isdigit (existing st) f = false ->
  Forall (fun record => is_dict record = true) (lines f) ->
  existing (ffile st f) = existing st ∪ fresh (existing st) (lines f)
  /\ forall d,
       target_dir (ffile st f) !! d =
       match target_dir st !! d with
       | Some c => Some c
       | None => if bool_decide (d ∈ fresh (existing st) (lines f))
                 then Some (kept d (lines f)) else None
       end.
Proof.
  intros Hread Hdicts. unfold filter_file. rewrite Hread.
  destruct (filter_lines_dicts (existing st) (lines f)
              {| seen_per_day := ∅; kept_per_day := ∅ |} Hdicts)
    as (acc & -> & Hseen & Hkept).
  destruct (write_days_spec acc st) as [He Ht].
  simpl in Hseen. assert (seen_per_day acc = fresh (existing st) (lines f)) as Hs
    by (rewrite Hseen; set_solver).
  split; [by rewrite He, Hs|].
  intros d. rewrite Ht, Hs. destruct (target_dir st !! d); [done|].
  case_bool_decide as Hd; [|done].
  apply fresh_days_elem in Hd as [Hd _].
  rewrite (Hkept d Hd). cbn [kept_per_day]. by rewrite lookup_empty.
Qed.

(** Whatever the file, a filtered file that is there stays as it is. *)
Lemma filter_file_keeps (st : filter_state) (f : input_file) (d : pystr)
    (c : list json) :
  target_dir st !! d = Some c -> target_dir (ffile st f) !! d = Some c.
Proof.
  intros H. unfold filter_file. destruct (skipped _ _ _); [done|].
  destruct (flines _ _ _) as [acc|]; [|done].
  destruct (write_days_spec acc st) as [_ Ht]. by rewrite Ht, H.
Qed.

Lemma filter_files_keep (files : list input_file) (st : filter_state) (d : pystr)
    (c : list json) :
  target_dir st !! d = Some c -> target_dir (foldl ffile st files) !! d = Some c.
Proof.
  revert st. induction files as [|f files IH]; intros st H; [done|].
  simpl. apply IH. by apply filter_file_keeps.
Qed.

Lemma filter_file_covered (st : filter_state) (f : input_file) :
  covered st -> covered (ffile st f).
Proof.
  intros Hc. unfold filter_file. destruct (skipped _ _ _); [done|].
  destruct (flines _ _ _) as [acc|]; [|done].
  destruct (write_days_spec acc st) as [He Ht].
  intros d Hd. rewrite He in Hd. rewrite Ht.
  apply elem_of_union in Hd as [Hd|Hd].
  - destruct (Hc d Hd) as [c ->]. eauto.
  - destruct (target_dir st !! d); [eauto|].
    rewrite bool_decide_eq_true_2 by done. eauto.
Qed.

Lemma filter_files_covered (files : list input_file) (st : filter_state) :
  covered st -> covered (foldl ffile st files).
Proof.
  revert st. induction files as [|f files IH]; intros st H; [done|].
  simpl. apply IH. by apply filter_file_covered.
Qed.

Lemma existing_days_covered (target0 : gmap pystr (list json)) :
  (forall d, is_Some (target0 !! d) -> length d = 8%nat) ->
  covered {| existing := _existing_days target0; target_dir := target0 |}.
Proof.
  intros Hlen d Hd. simpl in *. unfold _existing_days in Hd.
  apply elem_of_list_to_set, list_elem_of_omap in Hd as (k & Hk & H).
  apply elem_of_elements, elem_of_dom in Hk.
  case_bool_decide; [|done]. injection H as <-.
  by rewrite take_app_length' by (symmetry; by apply Hlen).
Qed.

(** C6, as the code has it.  The filter groups its output by the day
parsed from the [dateparution] of each record.  A file whose name starts with
a day that has its filtered file already is passed over whole, whatever the
days of its records.  A file that is read, with an object on every line,
gives each publication day of its records that has no filtered file yet one
filtered file, with the matching records of that day in file order, empty
when none matches: one source file can feed several filtered files.  A
filtered file that is there is never written again, by any input. *)
Theorem filter_groups_by_record_day :
  (forall st f target_day,
     day_from_name isdigit f = Some target_day -> target_day ∈ existing st ->
     ffile st f = st)
  /\ (forall st f,
        skipped isdigit (existing st) f = false ->
        Forall (fun record => is_dict record = true) (lines f) ->
        existing (ffile st f) = existing st ∪ fresh (existing st) (lines f)
        /\ forall d,
             target_dir (ffile st f) !! d =
             match target_dir st !! d with
             | Some c => Some c
             | None => if bool_decide (d ∈ fresh (existing st) (lines f))
                       then Some (kept d (lines f)) else None
             end)
  /\ (forall existing records d,
        d ∈ fresh existing records <->
        (d ∉ existing)
        /\ exists record, record ∈ records /\ day_of record = Some d)
  /\ (forall files target0 d c,
        target0 !! d = Some c -> frecords files target0 !! d = Some c)
  /\ (forall target0 pre f post,
        (forall d, is_Some (target0 !! d) -> length d = 8%nat) ->
        let st := foldl ffile {| existing := _existing_days target0;
                                 target_dir := target0 |} pre in
        skipped isdigit (existing st) f = false ->
        Forall (fun record => is_dict record = true) (lines f) ->
        forall record d,
          record ∈ lines f -> day_of record = Some d ->
          is_Some (frecords (pre ++ f :: post) target0 !! d)
          /\ (target_dir st !! d = None ->
              frecords (pre ++ f :: post) target0 !! d = Some (kept d (lines f)))).
Proof.
  split; [|split; [|split; [|split]]].
  - intros st f target_day Hname Hin. unfold filter_file, skipped.
    by rewrite Hname, bool_decide_eq_true_2.
  - intros st f. apply filter_file_read.
  - intros existing records d. apply fresh_days_elem.
  - intros files target0 d c H. unfold _filter_records.
    by apply filter_files_keep.
  - intros target0 pre f post Hlen st Hread Hdicts record d Hin Hday.
    unfold _filter_records. rewrite foldl_app. simpl. fold st.
    assert (covered st) as Hcov.
    { apply filter_files_covered. by apply existing_days_covered. }
    destruct (filter_file_read st f Hread Hdicts) as [_ Ht].
    specialize (Ht d).
    destruct (target_dir st !! d) as [c|] eqn:E.
    + split; [|done]. erewrite filter_files_keep; [eauto | exact Ht].
    + assert (d ∈ fresh (existing st) (lines f)) as Hfresh.
      { apply fresh_days_elem. split; [|eauto].
        intros Hex. destruct (Hcov d Hex) as [c Hc]. congruence. }
      rewrite bool_decide_eq_true_2 in Ht by done.
      rewrite (filter_files_keep post _ _ _ Ht). eauto.
Qed.

End FilterStage.

(** Two files into an empty directory.  The file of 4 March gives the
filtered file of 5 March; the file of 5 March is then passed over: its record
of 6 March, which matches, gets no filtered file, and its record of 5 March
is not in the file of 5 March. *)
Lemma publication_day_without_file :
  let out := FilterExample.filter_records
               [FilterExample.file_0304; FilterExample.file_0305] ∅ in
  FilterExample.day_of
    (FilterExample.notice 3 (u "2024-03-06") (u "123456789")
       (u "Radiation d'office")) = Some (u "20240306")
  /\ out !! u "20240306" = None
  /\ (Example.numeros <$> out !! u "20240305") = Some [1].
Proof. vm_compute. done. Qed.

Lemma no_filtered_file_yet (d : pystr) :
  is_Some ((∅ : gmap pystr (list json)) !! d) -> length d = 8%nat.
Proof. rewrite lookup_empty. by intros [? ?]. Qed.

Lemma file_0305_lines_are_objects :
  Forall (fun record => is_dict record = true)
    (Filter.lines FilterExample.file_0305).
Proof. by repeat constructor. Qed.

Lemma filter_groups_by_record_day_witness :
  FilterExample.filter_records [FilterExample.file_0305] ∅ !! u "20240306"
  = Some (Filter.kept_for Latin1.isdigit Latin1.str_lower Latin1.nfd
            Latin1.category_Mn Latin1.json_loads Latin1.strptime_strftime
            FilterExample.sirens Filter.DEFAULT_TOPAGE_KEYWORDS
            FilterExample.sirens_info (u "20240306")
            (Filter.lines FilterExample.file_0305)).
Proof.
  apply (proj2 (proj2 (proj2 (proj2
           (filter_groups_by_record_day Latin1.isdigit Latin1.str_lower
              Latin1.nfd Latin1.category_Mn Latin1.json_loads
              Latin1.strptime_strftime FilterExample.sirens
              Filter.DEFAULT_TOPAGE_KEYWORDS FilterExample.sirens_info))))
           ∅ [] FilterExample.file_0305 [] no_filtered_file_yet
           eq_refl file_0305_lines_are_objects
           (FilterExample.notice 3 (u "2024-03-06") (u "123456789")
              (u "Radiation d'office"))
           (u "20240306")).
  - apply list_elem_of_In. right. left. reflexivity.
  - reflexivity.
  - reflexivity.
Defined.

(** ** The range of days *)

Section DateRange.
Import Fetcher FetcherMain.

Lemma date_range_unfold (start end_ : date) :
  start <= end_ ->
  _date_range start end_ = start :: _date_range (start + 1) end_.
Proof.
  intros H. unfold _date_range.
  replace (Z.to_nat (end_ - start + 1)) with (S (Z.to_nat (end_ - (start + 1) + 1))) by lia.
  cbn [seq map]. f_equal; [lia|].
  rewrite <- seq_shift, map_map. apply map_ext. intros i. lia.
Qed.

Lemma date_range_empty (start end_ : date) :
  end_ < start -> _date_range start end_ = [].
Proof.
  intros H. unfold _date_range.
  replace (Z.to_nat (end_ - start + 1)) with 0%nat by lia. reflexivity.
Qed.

Lemma date_range_elem (start end_ d : date) :
  d ∈ _date_range start end_ <-> start <= d <= end_.
Proof.
  unfold _date_range. rewrite list_elem_of_fmap. split.
  - intros (i & -> & Hi). apply elem_of_seq in Hi. lia.
  - intros H. exists (Z.to_nat (d - start)). split; [lia|].
    apply elem_of_seq. lia.
Qed.

Lemma date_range_sorted (start end_ : date) :
  StronglySorted Z.lt (_date_range start end_).
Proof.
  unfold _date_range. generalize (Z.to_nat (end_ - start + 1)). intros n.
  generalize 0%nat. induction n as [|n IH]; intros k; cbn [seq map]; constructor.
  - apply IH.
  - apply list.Forall_forall. intros x Hx.
    apply list_elem_of_fmap in Hx as (i & -> & Hi). apply elem_of_seq in Hi. lia.
Qed.

End DateRange.

(** X1.  The generator [_date_range], run turn by turn, stops and yields the
    days from [start] to [end_], both included, one day after the other:
    every day of the interval once, in ascending order, and no day when
    [start] is after [end_]. *)
Theorem date_range_days (start end_ : Fetcher.date) (fuel : nat)
    (Hfuel : end_ - start < Z.of_nat fuel) :
  FetcherMain._date_range_while fuel start end_
    = Some (Fetcher._date_range start end_)
  /\ (forall d, d ∈ Fetcher._date_range start end_ <-> start <= d <= end_)
  /\ StronglySorted Z.lt (Fetcher._date_range start end_)
  /\ length (Fetcher._date_range start end_) = Z.to_nat (end_ - start + 1)
  /\ (end_ < start -> Fetcher._date_range start end_ = []).
Proof.
  split; [|split; [|split; [|split]]].
  - revert start Hfuel. induction fuel as [|fuel IH]; intros start Hfuel.
    + cbn. case_bool_decide; [lia|]. by rewrite date_range_empty by lia.
    + cbn [FetcherMain._date_range_while]. case_bool_decide.
      * rewrite IH by lia. rewrite (date_range_unfold start end_) by lia. done.
      * by rewrite date_range_empty by lia.
  - intros d. apply date_range_elem.
  - apply date_range_sorted.
  - unfold Fetcher._date_range. by rewrite length_map, length_seq.
  - apply date_range_empty.
Qed.

Lemma date_range_days_witness :
  FetcherMain._date_range_while 5 738948 738950
  = Some [738948; 738949; 738950].
Proof.
  refine (eq_trans (proj1 (date_range_days 738948 738950 5 _)) _);
    [lia | reflexivity].
Defined.

(** ** The dates of [main] and the days it asks for *)

Section MainDays.
Import Fetcher FetcherMain.

Variable cfg : config.

Lemma requested_days_app (a b : list event) :
  requested_days (a ++ b) = requested_days a ++ requested_days b.
Proof. unfold requested_days, requests. by rewrite omap_app, map_app. Qed.

Lemma requested_days_of (day : date) (events : list event) :
  Forall (fun e => event_day e = Some day \/ event_day e = None) events ->
  Forall (fun d => d = day) (requested_days events).
Proof.
  induction 1 as [|e events He _ IH]; [constructor|].
  destruct e; try exact IH.
  change (Forall (fun d => d = day)
            (refine_dateparution p :: requested_days events)).
  constructor; [|exact IH]. cbn in He. destruct He; congruence.
Qed.

Lemma constant_sorted (day : date) (l : list date) :
  Forall (fun d => d = day) l -> StronglySorted Z.le l.
Proof.
  induction 1 as [|x l Hx Hl IH]; constructor; [exact IH|].
  eapply Forall_impl; [exact Hl|]. cbn. intros; lia.
Qed.

(** The day loop over [days]: its events are about these days, its page
    requests follow the order of [days], and the files of any other day are
    left as they were. *)
Lemma visit_days_frame (days : list date) (script script' : list response)
    (w w' : world) :
  visit_days cfg days script w = Some (w', script') ->
  exists events,
    trace w' = trace w ++ events
    /\ Forall (fun e => forall d, event_day e = Some d -> d ∈ days) events
    /\ (forall d, d ∉ days ->
          daily_dir w' !! d = daily_dir w !! d /\ tmp_dir w' !! d = tmp_dir w !! d)
    /\ (StronglySorted Z.lt days -> StronglySorted Z.le (requested_days events)).
Proof.
  revert script w. induction days as [|day days IH]; intros script w Hrun.
  - cbn in Hrun. injection Hrun as <- <-. exists []. rewrite app_nil_r.
    repeat split; constructor.
  - cbn [visit_days] in Hrun.
    destruct (visit_day cfg day script w) as [[w1 script1]|] eqn:Hday;
      [|discriminate].
    cbn in Hrun.
    destruct (visit_day_touches cfg day script script1 w w1 Hday)
      as (e1 & Htrace1 & Habout1 & Hdaily1 & Htmp1).
    destruct (IH _ _ Hrun) as (e2 & Htrace2 & Habout2 & Hframe2 & Hsorted2).
    exists (e1 ++ e2). split; [|split; [|split]].
    + by rewrite Htrace2, Htrace1, <- app_assoc.
    + apply Forall_app. split.
      * eapply Forall_impl; [exact Habout1|]. cbn. intros e He d Hd.
        destruct He as [He|He]; rewrite He in Hd; [|discriminate].
        injection Hd as <-. left.
      * eapply Forall_impl; [exact Habout2|]. cbn. intros e He d Hd.
        right. by apply He.
    + intros d Hd. apply not_elem_of_cons in Hd as [Hne Hd].
      destruct (Hframe2 d Hd) as [-> ->]. split; [by apply Hdaily1 | by apply Htmp1].
    + intros Hs. apply StronglySorted_inv in Hs as [Hs Hlt].
      rewrite requested_days_app. apply StronglySorted_app_2.
      * intros a b Ha Hb.
        pose proof (requested_days_of day e1 Habout1) as H1.
        rewrite list.Forall_forall in H1. rewrite (H1 a Ha).
        unfold requested_days, requests in Hb.
        apply list_elem_of_fmap in Hb as (p & -> & Hp).
        apply list_elem_of_omap in Hp as (e & He & Hep).
        destruct e; try discriminate. injection Hep as ->.
        rewrite list.Forall_forall in Habout2.
        specialize (Habout2 _ He (refine_dateparution p) eq_refl).
        rewrite list.Forall_forall in Hlt. specialize (Hlt _ Habout2). lia.
      * apply (constant_sorted day). by apply requested_days_of.
      * by apply Hsorted2.
Qed.

Lemma date_window_bounds (today default_depth : Z) (start_arg end_arg : date_arg)
    (start_date end_date : date) :
  date_window today default_depth start_arg end_arg = Some (start_date, end_date) ->
  start_date <= end_date < today.
Proof.
  unfold date_window. destruct (arg_or start_arg _) as [s|]; [|discriminate].
  destruct (arg_or end_arg _) as [e|]; [|discriminate]. cbn.
  repeat case_bool_decide; intros [= <- <-]; lia.
Qed.

End MainDays.

(** X2.  The dates of [main].  Whatever the arguments, the day loop runs on
    a range that is not empty and ends before today: an end date of today or
    later is replaced by yesterday, an end date before today is kept, and a
    start date after the end date is an error.  Without arguments the range
    is the [default_depth] days that end yesterday, and an error when
    [default_depth] is below 1. *)
Theorem main_dates_end_before_today
    (today default_depth : Z) (start_arg end_arg : FetcherMain.date_arg)
    (start_date end_date : Fetcher.date)
    (Hwindow : FetcherMain.date_window today default_depth start_arg end_arg
               = Some (start_date, end_date)) :
  (start_date <= end_date < today)
  /\ (forall d, end_arg = FetcherMain.DateArg d -> end_date = Z.min d (today - 1))
  /\ (end_arg = FetcherMain.NoArg -> end_date = today - 1)
  /\ (forall d, start_arg = FetcherMain.DateArg d -> start_date = d)
  /\ (start_arg = FetcherMain.NoArg -> start_date = today - default_depth)
  /\ FetcherMain.date_window today default_depth FetcherMain.NoArg FetcherMain.NoArg
     = (if bool_decide (1 <= default_depth)
        then Some (today - default_depth, today - 1) else None)
  /\ (forall d e, today <= d ->
        FetcherMain.date_window today default_depth (FetcherMain.DateArg d) e = None).
Proof.
  split; [by eapply date_window_bounds|].
  unfold FetcherMain.date_window in *.
  repeat split.
  - intros d ->. destruct (FetcherMain.arg_or start_arg _); [|discriminate].
    cbn in Hwindow. repeat case_bool_decide; try discriminate;
      injection Hwindow as <- <-; lia.
  - intros ->. destruct (FetcherMain.arg_or start_arg _); [|discriminate].
    cbn in Hwindow. repeat case_bool_decide; try discriminate;
      injection Hwindow as <- <-; lia.
  - intros d ->. cbn in Hwindow.
    destruct (FetcherMain.arg_or end_arg _); [|discriminate].
    cbn in Hwindow. repeat case_bool_decide; try discriminate;
      by injection Hwindow as <- <-.
  - intros ->. cbn in Hwindow.
    destruct (FetcherMain.arg_or end_arg _); [|discriminate].
    cbn in Hwindow. repeat case_bool_decide; try discriminate;
      injection Hwindow as <- <-; lia.
  - cbn. repeat case_bool_decide; try lia; try done.
    do 2 f_equal; lia.
  - intros d e Hd. cbn. destruct (FetcherMain.arg_or e _) as [x|]; [|done].
    cbn. repeat case_bool_decide; try done; lia.
Qed.

Lemma main_dates_end_before_today_witness :
  738944 <= 738950 < 738951.
Proof.
  exact (proj1 (main_dates_end_before_today 738951 7 FetcherMain.NoArg
                  (FetcherMain.DateArg 738960) 738944 738950 eq_refl)).
Defined.

(** X3.  When [main] has run its day loop, every page request it made asked
    for a day of the range, so for a day before today, the requests came in
    the order of the days, and the daily file and the fragments of every day
    outside the range are as they were. *)
Theorem main_requests_within_dates
    (cfg : Fetcher.config) (today default_depth : Z)
    (start_arg end_arg : FetcherMain.date_arg)
    (script script' : list Fetcher.response) (w w' : Fetcher.world)
    (Hmain : FetcherMain.main cfg today default_depth start_arg end_arg script w
             = FetcherMain.MainRan (Some (w', script'))) :
  exists start_date end_date events,
    FetcherMain.date_window today default_depth start_arg end_arg
      = Some (start_date, end_date)
    /\ Fetcher.trace w' = Fetcher.trace w ++ events
    /\ Forall (fun d => start_date <= d <= end_date /\ d < today)
         (FetcherMain.requested_days events)
    /\ StronglySorted Z.le (FetcherMain.requested_days events)
    /\ (forall d, ~ start_date <= d <= end_date ->
          Fetcher.daily_dir w' !! d = Fetcher.daily_dir w !! d
          /\ Fetcher.tmp_dir w' !! d = Fetcher.tmp_dir w !! d).
Proof.
  unfold FetcherMain.main in Hmain.
  destruct (FetcherMain.date_window _ _ _ _) as [[start_date end_date]|] eqn:Hwin;
    [|discriminate].
  injection Hmain as Hrun. unfold Fetcher.run in Hrun.
  pose proof (date_window_bounds _ _ _ _ _ _ Hwin) as Hb.
  destruct (visit_days_frame cfg _ _ _ _ _ Hrun)
    as (events & Htrace & Habout & Hframe & Hsorted).
  exists start_date, end_date, events. repeat split; try done.
  - apply list.Forall_forall. intros d Hd.
    unfold FetcherMain.requested_days, Fetcher.requests in Hd.
    apply list_elem_of_fmap in Hd as (p & -> & Hp).
    apply list_elem_of_omap in Hp as (e & He & Hep).
    destruct e; try discriminate. injection Hep as ->.
    rewrite list.Forall_forall in Habout.
    specialize (Habout _ He _ eq_refl). apply date_range_elem in Habout. lia.
  - apply Hsorted, date_range_sorted.
  - apply Hframe. by rewrite date_range_elem.
  - apply Hframe. by rewrite date_range_elem.
Qed.

(** ** Fragment names *)

Section FragmentNames.
Import Fetcher Staging.

Lemma digits_value_app (a b : pystr) :
  digits_value (a ++ b) =
  foldl (fun acc c => (10 * acc + (N.to_nat c - 48))%nat) (digits_value a) b.
Proof. unfold digits_value. by rewrite foldl_app. Qed.

Lemma digits_value_zeros (n : nat) (s : pystr) :
  digits_value (replicate n 48%N ++ s) = digits_value s.
Proof.
  rewrite digits_value_app. f_equal.
  induction n as [|n IH]; [done|].
  rewrite replicate_S_end, digits_value_app, IH. reflexivity.
Qed.

Lemma digits_value_uint (d : Decimal.uint) (acc : nat) :
  foldl (fun acc c => (10 * acc + (N.to_nat c - 48))%nat) acc (uint_chars d)
  = Nat.of_uint_acc d acc.
Proof.
  revert acc. induction d as [|d IH|d IH|d IH|d IH|d IH|d IH|d IH|d IH|d IH|d IH];
    intros acc; [done|..];
    cbn [uint_chars foldl Nat.of_uint_acc]; rewrite IH;
    rewrite Nat.tail_mul_spec; f_equal; cbn; lia.
Qed.

(** The page number can be read back from its text. *)
Lemma fmt_03d_value (n : nat) : digits_value (fmt_03d n) = n.
Proof.
  unfold fmt_03d. cbn zeta. rewrite digits_value_zeros.
  unfold digits_value, str_of_nat. rewrite digits_value_uint.
  apply (DecimalNat.Unsigned.of_to n).
Qed.

Lemma fmt_03d_inj (n m : nat) : fmt_03d n = fmt_03d m -> n = m.
Proof. intros E. by rewrite <- (fmt_03d_value n), <- (fmt_03d_value m), E. Qed.

Lemma part_name_inj (t1 t2 : pystr) (i j : nat) :
  t1 ∈ PUBLICATION_TYPES -> t2 ∈ PUBLICATION_TYPES ->
  part_name t1 i = part_name t2 j -> t1 = t2 /\ i = j.
Proof.
  unfold PUBLICATION_TYPES, part_name. intros H1 H2 E.
  assert (t1 = t2) as ->.
  { set_unfold. destruct H1 as [->|[->|[->|[]]]], H2 as [->|[->|[->|[]]]];
      (done || discriminate E). }
  split; [done|]. by apply app_inv_head, app_inv_head, fmt_03d_inj in E.
Qed.

End FragmentNames.

(** X4.  The names of the fragments never collide: two pages of a day get
    the same file name only if they are the same page of the same category,
    whatever the page numbers, also from 1000 on, where the number takes more
    than three digits.  So the write of one page leaves the fragment of
    another as the first write left it: with the lines that could be written,
    which are all the records of the page when they all encode. *)
Theorem fragment_names_never_collide
    (day : Fetcher.date) (t1 t2 : pystr) (i j : nat)
    (r1 r2 : list json) (w : Fetcher.world)
    (Ht1 : t1 ∈ Fetcher.PUBLICATION_TYPES) (Ht2 : t2 ∈ Fetcher.PUBLICATION_TYPES)
    (Hdistinct : (t1, i) <> (t2, j)) :
  let after :=
    Fetcher.write_world
      (Fetcher._write_ndjson_part day t2 j r2
         (Fetcher.write_world (Fetcher._write_ndjson_part day t1 i r1 w))) in
  Fetcher.part_name t1 i <> Fetcher.part_name t2 j
  /\ Fetcher.day_parts day after !! Fetcher.part_name t1 i
     = Some (Fetcher.written_lines r1)
  /\ (forallb Fetcher.encodes r1 = true ->
      Fetcher.day_parts day after !! Fetcher.part_name t1 i = Some r1).
Proof.
  intros after.
  assert (Fetcher.part_name t1 i <> Fetcher.part_name t2 j) as Hne.
  { intros E. apply Hdistinct. by destruct (part_name_inj _ _ _ _ Ht1 Ht2 E) as [-> ->]. }
  assert (Fetcher.day_parts day after !! Fetcher.part_name t1 i
          = Some (Fetcher.written_lines r1)) as Hpart.
  { subst after. rewrite !write_ndjson_part_world.
    unfold Fetcher.day_parts. cbn.
    rewrite !lookup_insert_eq. cbn.
    rewrite lookup_insert_ne by done. by rewrite lookup_insert_eq. }
  split; [done|]. split; [done|].
  intros Henc. by rewrite Hpart, (written_lines_encoded _ Henc).
Qed.

Lemma fragment_names_never_collide_witness :
  Fetcher.part_name (u "A") 100 <> Fetcher.part_name (u "A") 1000.
Proof.
  refine (proj1 (fragment_names_never_collide Example.day1 (u "A") (u "A")
                   100 1000 [] [] Example.empty_world _ _ _)).
  - unfold Fetcher.PUBLICATION_TYPES. set_solver.
  - unfold Fetcher.PUBLICATION_TYPES. set_solver.
  - intros [=].
Defined.

(** ** What a pagination pass stages *)

Section StagedPages.
Import Fetcher Staging.

Variable cfg : config.
Variable day : date.
Variable publicationavis : pystr.

(** A relation between states that holds across every step of the two loops
    of [_fetch_day] holds across the loops, when the answers that carry a
    payload satisfy what the step of a page asks of them. *)
Lemma fetch_loop_invariant_on (Q : response -> Prop)
    (P : fetch_state -> fetch_state -> Prop) :
  (forall s, P s s) ->
  (forall s1 s2 s3, P s1 s2 -> P s2 s3 -> P s1 s3) ->
  (forall s e,
     match e with
     | Request _ | Sleep429 _ | SleepBackoff _ => True
     | _ => False
     end -> P s (with_world (emit e) s)) ->
  (forall payload s,
     Q (RespOk payload) ->
     P s (page_state (process_page cfg day publicationavis payload s))) ->
  forall script attempt s,
    Forall Q script ->
    P s (fetch_loop cfg day publicationavis script attempt s).1.2.
Proof.
  intros Hrefl Htrans Hemit Hpage script.
  induction script as [|r script IH]; intros attempt s HQ.
  - cbn. case_bool_decide; cbn; [by apply Hemit | apply Hrefl].
  - apply Forall_cons in HQ as [Hr HQ].
    rewrite fetch_loop_unfold. case_bool_decide; cbn; [|apply Hrefl].
    set (s0 := with_world (emit (Request (request_params cfg day publicationavis s))) s).
    assert (P s s0) as H0 by (by apply Hemit).
    destruct r as [| |payload].
    + eapply Htrans; [exact H0|]. eapply Htrans; [|by apply IH]. by apply Hemit.
    + eapply Htrans; [exact H0|]. eapply Htrans; [|by apply IH]. by apply Hemit.
    + pose proof (Hpage payload s0 Hr) as Hp.
      destruct (process_page cfg day publicationavis payload s0) as [s'|s'|s'];
        cbn in Hp.
      * eapply Htrans; [exact H0|]. eapply Htrans; [exact Hp|].
        eapply Htrans; [|by apply IH]. by apply Hemit.
      * by eapply Htrans.
      * eapply Htrans; [exact H0|]. eapply Htrans; [exact Hp|]. by apply IH.
Qed.

Lemma fetch_loop_invariant (P : fetch_state -> fetch_state -> Prop) :
  (forall s, P s s) ->
  (forall s1 s2 s3, P s1 s2 -> P s2 s3 -> P s1 s3) ->
  (forall s e,
     match e with
     | Request _ | Sleep429 _ | SleepBackoff _ => True
     | _ => False
     end -> P s (with_world (emit e) s)) ->
  (forall payload s,
     P s (page_state (process_page cfg day publicationavis payload s))) ->
  forall script attempt s,
    P s (fetch_loop cfg day publicationavis script attempt s).1.2.
Proof.
  intros Hrefl Htrans Hemit Hpage script attempt s.
  apply (fetch_loop_invariant_on (fun _ => True)); try done.
  by apply list.Forall_forall.
Qed.

(** The answers a call leaves are the last ones of those it was given. *)
Lemma fetch_loop_rest (script : list response) (attempt : nat) (s : fetch_state) :
  (fetch_loop cfg day publicationavis script attempt s).2 `suffix_of` script.
Proof.
  revert attempt s. induction script as [|r script IH]; intros attempt s.
  - cbn. by case_bool_decide.
  - rewrite fetch_loop_unfold. case_bool_decide; cbn; [|done].
    destruct r as [| |payload]; try (apply suffix_cons_r, IH).
    destruct (process_page cfg day publicationavis payload _) as [s'|s'|s'];
      [apply suffix_cons_r, IH | by apply suffix_cons_r | apply suffix_cons_r, IH].
Qed.

Lemma written_parts_app (a b : list event) :
  written_parts (a ++ b) = written_parts a ++ written_parts b.
Proof. apply omap_app. Qed.

Lemma page_files_app (first : nat) (p1 p2 : list (list json)) :
  page_files publicationavis first (p1 ++ p2) =
  page_files publicationavis first p1
  ++ page_files publicationavis (first + length p1) p2.
Proof.
  unfold page_files. rewrite imap_app. f_equal.
  apply imap_ext. intros i page _. cbn. do 2 f_equal. lia.
Qed.

Lemma staged_pages_refl (s : fetch_state) :
  staged_pages day publicationavis s s [].
Proof.
  exists []. rewrite !app_nil_r. repeat split; try done; cbn; lia.
Qed.

Lemma staged_pages_trans (s1 s2 s3 : fetch_state) (p1 p2 : list (list json)) :
  staged_pages day publicationavis s1 s2 p1 ->
  staged_pages day publicationavis s2 s3 p2 ->
  staged_pages day publicationavis s1 s3 (p1 ++ p2).
Proof.
  intros (e1 & Ht1 & Hw1 & Hi1 & Ha1 & Hd1 & Hn1)
         (e2 & Ht2 & Hw2 & Hi2 & Ha2 & Hd2 & Hn2).
  exists (e1 ++ e2). repeat split.
  - by rewrite Ht2, Ht1, <- app_assoc.
  - rewrite written_parts_app, map_app, page_files_app, Hw1, Hw2, Hi1, length_map.
    do 2 f_equal.
  - rewrite Hi2, Hi1, length_app. lia.
  - by rewrite Ha2, Ha1, concat_app, <- app_assoc.
  - rewrite Hd2, Hd1, written_parts_app. unfold apply_parts. by rewrite foldl_app.
  - by apply Forall_app.
Qed.

Lemma staged_pages_emit (s : fetch_state) (e : event) :
  match e with
  | Request _ | Sleep429 _ | SleepBackoff _ => True
  | _ => False
  end -> staged_pages day publicationavis s (with_world (emit e) s) [].
Proof.
  intros He. exists [e]. rewrite !app_nil_r.
  destruct e; try done; repeat split; cbn; try done; lia.
Qed.

Lemma day_parts_write (name : pystr) (records : list json) (w : world)
    (events : list event) :
  day_parts day
    {| daily_dir := daily_dir w;
       tmp_dir := <[day := <[name := records]> (day_parts day w)]> (tmp_dir w);
       trace := events |}
  = <[name := records]> (day_parts day w).
Proof. unfold day_parts at 1. cbn. by rewrite lookup_insert_eq. Qed.

Lemma written_lines_all_encode (pages : list (list json)) :
  all_encode pages -> map written_lines pages = pages.
Proof.
  induction 1 as [|page pages Hpage _ IH]; [done|].
  cbn. by rewrite (written_lines_encoded _ Hpage), IH.
Qed.

Lemma staged_pages_page (payload : json) (s : fetch_state) :
  exists pages,
    staged_pages day publicationavis s
      (page_state (process_page cfg day publicationavis payload s)) pages
    /\ (payload_encodes payload = true -> all_encode pages).
Proof.
  unfold process_page, payload_encodes.
  destruct (_extract_records payload) as [records|]; cbn;
    [|exists []; split; [apply staged_pages_refl | by constructor]].
  case_bool_decide as Hrec; cbn.
  { exists []. subst records. rewrite state_app_nil.
    split; [apply staged_pages_refl | by constructor]. }
  pose proof (write_ndjson_part_world day publicationavis (S (page_idx s)) records
                (fworld s)) as Hworld.
  assert (forall w' last,
            w' = write_world (_write_ndjson_part day publicationavis (S (page_idx s))
                                records (fworld s)) ->
            staged_pages day publicationavis s
              {| all_records := all_records s ++ records;
                 last_numero := last;
                 page_idx := S (page_idx s);
                 fworld := w' |} [records]) as Hstaged.
  { intros w' last ->. rewrite Hworld.
    exists [WritePart day (part_name publicationavis (S (page_idx s)))
              (written_lines records)].
    repeat split; cbn.
    - unfold page_files. cbn. do 3 f_equal. lia.
    - lia.
    - by rewrite app_nil_r.
    - unfold emit. cbn. apply day_parts_write.
    - by repeat constructor. }
  exists [records]. split; [|intros Henc; by repeat constructor].
  destruct (_write_ndjson_part day publicationavis (S (page_idx s)) records (fworld s))
    as [w'|w']; cbn [write_world] in *; [|by apply Hstaged].
  destruct (advance _ _) as [n|]; cbn; [|by apply Hstaged].
  case_bool_decide; cbn; by apply Hstaged.
Qed.

(** From any state on, the loops of [_fetch_day] stage pages under
    consecutive page numbers; when the records of the answers encode, the
    pages are staged whole. *)
Lemma fetch_loop_staged (script : list response) (attempt : nat) (s : fetch_state) :
  exists pages,
    staged_pages day publicationavis s
      (fetch_loop cfg day publicationavis script attempt s).1.2 pages
    /\ (forallb response_encodes script = true -> all_encode pages).
Proof.
  apply (fetch_loop_invariant_on
           (fun r => forallb response_encodes script = true ->
                     response_encodes r = true)
           (fun s s' => exists pages,
                          staged_pages day publicationavis s s' pages
                          /\ (forallb response_encodes script = true ->
                              all_encode pages))).
  - intros s0. exists []. split; [apply staged_pages_refl | by constructor].
  - intros s1 s2 s3 (p1 & H1 & E1) (p2 & H2 & E2). exists (p1 ++ p2).
    split; [by eapply staged_pages_trans|].
    intros Henc. apply Forall_app. split; [by apply E1 | by apply E2].
  - intros s0 e He. exists []. split; [by apply staged_pages_emit | by constructor].
  - intros payload s0 HQ.
    destruct (staged_pages_page payload s0) as (pages & Hpages & Henc).
    exists pages. split; [done|]. intros Hscript. by apply Henc, HQ.
  - apply list.Forall_forall. intros r Hr Hscript.
    apply (proj1 (forallb_forall _ _) Hscript). by apply list_elem_of_In.
Qed.

End StagedPages.

(** ** What a turn of the day loop leaves in the daily file *)

Section DayFile.
Import Fetcher Staging DayFiles.

Variable cfg : config.

Lemma forallb_suffix {A} (f : A -> bool) (l k : list A) :
  l `suffix_of` k -> forallb f k = true -> forallb f l = true.
Proof. intros [h ->]. rewrite forallb_app. by intros [_ H]%andb_prop. Qed.

Lemma fetch_day_staged (day : date) (publicationavis : pystr)
    (script : list response) (w : world) :
  let pass := _fetch_day cfg day publicationavis script w in
  exists events pages,
    trace (fworld pass.1.2) = trace w ++ events
    /\ written_parts events = page_files publicationavis 1 (map written_lines pages)
    /\ all_records pass.1.2 = concat pages
    /\ day_parts day (fworld pass.1.2)
       = apply_parts (written_parts events) (day_parts day w)
    /\ (forallb response_encodes script = true -> all_encode pages)
    /\ (forallb response_encodes script = true ->
        forallb response_encodes pass.2 = true).
Proof.
  cbn zeta. unfold _fetch_day.
  destruct (fetch_loop_staged cfg day publicationavis script 0
              {| all_records := []; last_numero := 0; page_idx := 0;
                 fworld := emit (CallFetch day publicationavis) w |})
    as (pages & (events & Ht & Hw & _ & Ha & Hd & _) & Henc).
  cbn in Ht, Hw, Ha, Hd.
  exists (CallFetch day publicationavis :: events), pages.
  repeat split; try done.
  - by rewrite Ht, <- app_assoc.
  - apply forallb_suffix, fetch_loop_rest.
Qed.

Lemma fetch_types_staged (day : date) (script script' : list response)
    (w w' : world) :
  fetch_types cfg day PUBLICATION_TYPES script w = Some (w', script') ->
  exists events pages_A pages_B pages_C,
    trace w' = trace w ++ events
    /\ written_parts events
       = day_files (map written_lines pages_A) (map written_lines pages_B)
           (map written_lines pages_C)
    /\ combined_records cfg day PUBLICATION_TYPES script w
       = concat pages_A ++ concat pages_B ++ concat pages_C
    /\ day_parts day w' = apply_parts (written_parts events) (day_parts day w)
    /\ (forallb response_encodes script = true ->
        all_encode pages_A /\ all_encode pages_B /\ all_encode pages_C).
Proof.
  unfold PUBLICATION_TYPES. cbn [fetch_types combined_records].
  destruct (fetch_day_staged day (u "A") script w)
    as (eA & pA & HtA & HwA & HaA & HdA & HeA & HrA).
  destruct (_fetch_day cfg day (u "A") script w) as [[stA sA] scriptA].
  cbn in HtA, HaA, HdA, HrA.
  destruct (fetch_day_staged day (u "B") scriptA (fworld sA))
    as (eB & pB & HtB & HwB & HaB & HdB & HeB & HrB).
  destruct (_fetch_day cfg day (u "B") scriptA (fworld sA)) as [[stB sB] scriptB].
  cbn in HtB, HaB, HdB, HrB.
  destruct (fetch_day_staged day (u "C") scriptB (fworld sB))
    as (eC & pC & HtC & HwC & HaC & HdC & HeC & _).
  destruct (_fetch_day cfg day (u "C") scriptB (fworld sB)) as [[stC sC] scriptC].
  cbn in HtC, HaC, HdC.
  intros Hrun.
  assert (w' = fworld sC) as ->.
  { destruct stA; try discriminate; destruct stB; try discriminate;
      destruct stC; try discriminate; by injection Hrun as <- _. }
  exists (eA ++ eB ++ eC), pA, pB, pC. split; [|split; [|split; [|split]]].
  - by rewrite HtC, HtB, HtA, <- !app_assoc.
  - unfold day_files. by rewrite !written_parts_app, HwA, HwB, HwC.
  - by rewrite HaA, HaB, HaC, app_nil_r.
  - rewrite HdC, HdB, HdA, !written_parts_app. unfold apply_parts.
    by rewrite !foldl_app.
  - intros Henc. split; [by apply HeA|].
    split; [by apply HeB, HrA | by apply HeC, HrB, HrA].
Qed.

Lemma page_files_names (publicationavis : pystr) (first : nat)
    (pages : list (list json)) :
  (page_files publicationavis first pages).*1
  = part_name publicationavis <$> seq first (length pages).
Proof.
  unfold page_files. rewrite fmap_imap.
  rewrite (imap_ext _ (fun j _ => part_name publicationavis (first + j))) by done.
  apply imap_seq.
Qed.

Lemma page_files_contents (publicationavis : pystr) (first : nat)
    (pages : list (list json)) :
  map snd (page_files publicationavis first pages) = pages.
Proof.
  unfold page_files. generalize first.
  induction pages as [|page pages IH]; intros k; [done|].
  rewrite imap_cons. cbn. f_equal.
  rewrite <- (IH (S k)) at 2. f_equal. apply imap_ext. intros i x _. cbn.
  do 2 f_equal. lia.
Qed.

Lemma written_parts_unlinks (day : date) (parts : list (pystr * list json)) :
  written_parts (map (fun p => UnlinkPart day p.1) parts) = [].
Proof. by induction parts. Qed.

Lemma cleanup_writes_no_part (day : date) (w : world) :
  exists events,
    trace (_cleanup_day_parts day w) = trace w ++ events
    /\ written_parts events = [].
Proof.
  unfold _cleanup_day_parts, unlink_all, emit. cbn.
  eexists. rewrite <- app_assoc. split; [reflexivity|].
  rewrite written_parts_app. apply written_parts_unlinks.
Qed.

Lemma merge_writes_no_part (day : date) (w : world) :
  exists events,
    trace (_merge_day_parts day w) = trace w ++ events
    /\ written_parts events = [].
Proof.
  unfold _merge_day_parts. cbn zeta. case_bool_decide.
  - unfold emit. cbn. eexists. rewrite <- app_assoc. by split.
  - unfold unlink_all, emit. cbn. eexists. rewrite <- !app_assoc.
    split; [reflexivity|].
    rewrite !written_parts_app. apply written_parts_unlinks.
Qed.

Lemma day_files_names_nodup (pages_A pages_B pages_C : list (list json)) :
  NoDup (day_files pages_A pages_B pages_C).*1.
Proof.
  unfold day_files. rewrite !fmap_app, !page_files_names.
  assert (forall t, t ∈ PUBLICATION_TYPES -> forall n,
            NoDup (part_name t <$> seq 1 n)) as Hone.
  { intros t Ht n. apply NoDup_fmap_2_strong; [|apply NoDup_seq].
    intros i j _ _ E. by destruct (part_name_inj t t i j Ht Ht E). }
  assert (forall t1 t2 n m x, t1 ∈ PUBLICATION_TYPES -> t2 ∈ PUBLICATION_TYPES ->
            t1 <> t2 -> x ∈ part_name t1 <$> seq 1 n ->
            x ∉ part_name t2 <$> seq 1 m) as Hcross.
  { intros t1 t2 n m x Ht1 Ht2 Hne H1 H2.
    apply list_elem_of_fmap in H1 as (i & -> & _).
    apply list_elem_of_fmap in H2 as (j & E & _).
    by destruct (part_name_inj t1 t2 i j Ht1 Ht2 E). }
  assert (u "A" ∈ PUBLICATION_TYPES /\ u "B" ∈ PUBLICATION_TYPES
          /\ u "C" ∈ PUBLICATION_TYPES) as (HA & HB & HC)
    by (unfold PUBLICATION_TYPES; set_solver).
  apply NoDup_app. split; [by apply Hone|]. split.
  - intros x Hx Hin. apply elem_of_app in Hin as [Hin|Hin].
    + exact (Hcross (u "A") (u "B") _ _ x HA HB ltac:(done) Hx Hin).
    + exact (Hcross (u "A") (u "C") _ _ x HA HC ltac:(done) Hx Hin).
  - apply NoDup_app. split; [by apply Hone|]. split; [|by apply Hone].
    intros x Hx Hin. exact (Hcross (u "B") (u "C") _ _ x HB HC ltac:(done) Hx Hin).
Qed.

Lemma apply_parts_fresh (parts : list (pystr * list json))
    (dir : gmap pystr (list json)) :
  NoDup parts.*1 -> (forall name, name ∈ parts.*1 -> dir !! name = None) ->
  apply_parts parts dir = list_to_map parts ∪ dir.
Proof.
  revert dir. induction parts as [|[name content] parts IH]; intros dir Hnd Hfresh.
  - cbn. by rewrite (left_id_L ∅ (∪)).
  - cbn in Hnd. apply NoDup_cons in Hnd as [Hname Hnd].
    change (apply_parts ((name, content) :: parts) dir)
      with (apply_parts parts (<[name := content]> dir)).
    rewrite IH; [|done|].
    + cbn [list_to_map foldr]. cbn. rewrite <- insert_union_l.
      rewrite insert_union_r; [done|].
      by apply not_elem_of_list_to_map_1.
    + intros k Hk. rewrite lookup_insert_ne.
      * apply Hfresh. cbn. by right.
      * intros ->. done.
Qed.

Lemma concat_contents_perm (l1 l2 : list (pystr * list json)) :
  l1 ≡ₚ l2 -> concat (map snd l1) ≡ₚ concat (map snd l2).
Proof.
  induction 1 as [|x l l' _ IH|x y l|l l' l'' _ IH1 _ IH2]; cbn.
  - done.
  - by rewrite IH.
  - rewrite !app_assoc. by rewrite (Permutation_app_comm y.2 x.2).
  - by rewrite IH1.
Qed.

(** The sorted fragments of a directory that holds the files [parts], all
    of different names. *)
Lemma part_files_of_parts (day : date) (w : world)
    (parts : list (pystr * list json)) :
  NoDup parts.*1 -> day_parts day w = list_to_map parts ->
  part_files day w = merge_sort name_le parts.
Proof.
  intros Hnd Hparts. unfold part_files. rewrite Hparts.
  assert (map_to_list (list_to_map (M := gmap pystr (list json)) parts) ≡ₚ parts)
    as Hperm by (by apply map_to_list_to_map).
  apply (StronglySorted_unique_strong name_le).
  - intros x1 x2 H1 H2 Hle1 Hle2.
    pose proof (name_le_antisym _ _ Hle1 Hle2) as Hname.
    rewrite merge_sort_Permutation, Hperm in H1.
    rewrite merge_sort_Permutation in H2.
    destruct x1 as [n1 c1], x2 as [n2 c2]. cbn in Hname. subst n2. f_equal.
    pose proof (elem_of_list_to_map_1 (M := gmap pystr) _ _ _ Hnd H1) as E1.
    pose proof (elem_of_list_to_map_1 (M := gmap pystr) _ _ _ Hnd H2) as E2.
    congruence.
  - apply StronglySorted_merge_sort; apply _.
  - apply StronglySorted_merge_sort; apply _.
  - by rewrite !merge_sort_Permutation.
Qed.

(** A turn of the day loop for a day without its file: the fragments written
    are the pages of the three categories, each with the lines that could be
    written, [combined_records] holds the records of the pages, page after
    page, and the daily file holds the fragments in the order of their
    names. *)
Lemma visit_day_content (day : date) (script script' : list response)
    (w w' : world) :
  daily_dir w !! day = None ->
  visit_day cfg day script w = Some (w', script') ->
  exists events pages_A pages_B pages_C,
    let files := day_files (map written_lines pages_A) (map written_lines pages_B)
                   (map written_lines pages_C) in
    trace w' = trace w ++ events
    /\ written_parts events = files
    /\ combined_records cfg day PUBLICATION_TYPES script (_cleanup_day_parts day w)
       = concat pages_A ++ concat pages_B ++ concat pages_C
    /\ daily_dir w' !! day = Some (concat (map snd (merge_sort name_le files)))
    /\ (forallb response_encodes script = true ->
        all_encode pages_A /\ all_encode pages_B /\ all_encode pages_C).
Proof.
  intros Habs Hvisit. rewrite visit_day_absent in Hvisit by done.
  destruct (fetch_types cfg day PUBLICATION_TYPES script (_cleanup_day_parts day w))
    as [[w1 script1]|] eqn:Hfetch; [|discriminate].
  injection Hvisit as <- <-.
  destruct (cleanup_touches day w) as (_ & Hdc & Hpc).
  destruct (cleanup_writes_no_part day w) as (evc & Htc & Hwc).
  destruct (fetch_types_staged day _ _ _ _ Hfetch)
    as (ev & pA & pB & pC & Ht & Hw & Hc & Hd & Henc).
  destruct (fetch_types_touches cfg day _ _ _ _ _ Hfetch) as (_ & _ & _ & Hdaily).
  destruct (merge_day_parts_spec day w1) as (Hm & _ & _).
  destruct (merge_writes_no_part day w1) as (evm & Htm & Hwm).
  pose proof (day_files_names_nodup (map written_lines pA) (map written_lines pB)
                (map written_lines pC)) as Hnd.
  rewrite Hpc, Hw in Hd.
  rewrite apply_parts_fresh in Hd; [|exact Hnd|intros name _; apply lookup_empty].
  rewrite (right_id_L ∅ (∪)) in Hd.
  pose proof (part_files_of_parts day w1 _ Hnd Hd) as Hpf.
  exists (evc ++ ev ++ evm), pA, pB, pC. cbn zeta.
  split; [|split; [|split; [|split]]].
  - by rewrite Htm, Ht, Htc, <- !app_assoc.
  - by rewrite !written_parts_app, Hwc, Hw, Hwm, app_nil_r.
  - exact Hc.
  - rewrite Hm, Hpf.
    destruct (decide (merge_sort name_le
                        (day_files (map written_lines pA) (map written_lines pB)
                           (map written_lines pC)) = [])) as [E|E].
    + rewrite bool_decide_eq_true_2 by done. by rewrite Hdaily, Hdc, Habs, E.
    + by rewrite bool_decide_eq_false_2 by done.
  - exact Henc.
Qed.

Lemma written_lines_sublist (records : list json) :
  written_lines records `sublist_of` records.
Proof.
  induction records as [|record records IH]; [done|].
  cbn. destruct (encodes record); [by apply sublist_skip | apply sublist_nil_l].
Qed.

Lemma concat_written_lines_sublist (pages : list (list json)) :
  concat (map written_lines pages) `sublist_of` concat pages.
Proof.
  induction pages as [|page pages IH]; [done|].
  cbn. apply sublist_app; [apply written_lines_sublist | exact IH].
Qed.

Lemma day_files_contents (pages_A pages_B pages_C : list (list json)) :
  concat (map snd (day_files pages_A pages_B pages_C))
  = concat pages_A ++ concat pages_B ++ concat pages_C.
Proof.
  unfold day_files. by rewrite !map_app, !concat_app, !page_files_contents.
Qed.

End DayFile.

Section DayFileOrder.
Import Fetcher Staging DayFiles.

Lemma page_files_elem (publicationavis : pystr) (first : nat)
    (pages : list (list json)) (x : pystr * list json) :
  x ∈ page_files publicationavis first pages ->
  exists j c, x = (part_name publicationavis j, c)
              /\ (first <= j < first + length pages)%nat.
Proof.
  unfold page_files. intros Hx. apply elem_of_lookup_imap in Hx as (i & c & -> & Hi).
  exists (first + i)%nat, c. split; [done|].
  apply lookup_lt_Some in Hi. lia.
Qed.

Lemma page_files_cons (publicationavis : pystr) (first : nat)
    (page : list json) (pages : list (list json)) :
  page_files publicationavis first (page :: pages) =
  (part_name publicationavis first, page)
    :: page_files publicationavis (S first) pages.
Proof.
  unfold page_files. rewrite imap_cons. f_equal; [by rewrite Nat.add_0_r|].
  apply imap_ext. intros i x _. cbn. do 2 f_equal. lia.
Qed.

Lemma page_files_sorted (publicationavis : pystr) (first : nat)
    (pages : list (list json)) :
  (first + length pages <= 1000)%nat ->
  StronglySorted name_lt (page_files publicationavis first pages).
Proof.
  revert first. induction pages as [|page pages IH]; intros first Hn.
  - constructor.
  - rewrite page_files_cons. cbn in Hn. constructor; [apply IH; lia|].
    apply list.Forall_forall. intros x Hx.
    apply page_files_elem in Hx as (j & c & -> & Hj).
    apply part_name_lt. lia.
Qed.

Lemma day_files_sorted (pages_A pages_B pages_C : list (list json)) :
  (length pages_A < 1000)%nat -> (length pages_B < 1000)%nat ->
  (length pages_C < 1000)%nat ->
  StronglySorted name_lt (day_files pages_A pages_B pages_C).
Proof.
  intros HA HB HC. unfold day_files.
  assert (forall t1 t2 p1 p2 x1 x2,
            (t1 = u "A" /\ (t2 = u "B" \/ t2 = u "C")) \/ (t1 = u "B" /\ t2 = u "C") ->
            x1 ∈ page_files t1 1 p1 -> x2 ∈ page_files t2 1 p2 ->
            name_lt x1 x2) as Hcross.
  { intros t1 t2 p1 p2 x1 x2 Ht H1 H2.
    apply page_files_elem in H1 as (i & c1 & -> & _).
    apply page_files_elem in H2 as (j & c2 & -> & _).
    by apply type_name_lt. }
  apply StronglySorted_app_2.
  - intros x1 x2 H1 H2. apply elem_of_app in H2 as [H2|H2].
    + apply (Hcross (u "A") (u "B") pages_A pages_B); auto.
    + apply (Hcross (u "A") (u "C") pages_A pages_C); auto.
  - apply page_files_sorted. lia.
  - apply StronglySorted_app_2.
    + intros x1 x2 H1 H2. apply (Hcross (u "B") (u "C") pages_B pages_C); auto.
    + apply page_files_sorted. lia.
    + apply page_files_sorted. lia.
Qed.

(** Sorting by file name leaves a list as it is when the names are in
    strictly ascending order already. *)
Lemma merge_sort_sorted (parts : list (pystr * list json)) :
  StronglySorted name_lt parts -> merge_sort name_le parts = parts.
Proof.
  intros Hs. pose proof (name_lt_sorted_nodup _ Hs) as Hnd.
  apply (StronglySorted_unique_strong name_le).
  - intros x1 x2 H1 H2 Hle1 Hle2.
    pose proof (name_le_antisym _ _ Hle1 Hle2) as Hname.
    rewrite merge_sort_Permutation in H1.
    destruct x1 as [n1 c1], x2 as [n2 c2]. cbn in Hname. subst n2. f_equal.
    pose proof (elem_of_list_to_map_1 (M := gmap pystr) _ _ _ Hnd H1) as E1.
    pose proof (elem_of_list_to_map_1 (M := gmap pystr) _ _ _ Hnd H2) as E2.
    congruence.
  - apply StronglySorted_merge_sort; apply _.
  - by apply name_lt_sorted_le.
  - apply merge_sort_Permutation.
Qed.

End DayFileOrder.

(** X5.  What a call of [_fetch_day] stages and what it returns.  Whatever
    the answers, and whatever attempts failed in between, the list it
    returns is the records of the pages 1, 2, ..., n it went through, page
    after page and none of them empty; the fragments it writes are the
    fragments 1, 2, ..., n of the category, in this order, each with the
    records of its page up to the first one that cannot be written; and it
    does nothing else to the fragments of the day.  When every record of the
    answers can be written, the fragments hold what the call returns. *)
Theorem fetch_day_returns_what_it_staged
    (cfg : Fetcher.config) (day : Fetcher.date) (publicationavis : pystr)
    (script : list Fetcher.response) (w : Fetcher.world) :
  let pass := Fetcher._fetch_day cfg day publicationavis script w in
  exists events pages,
    Fetcher.trace (Fetcher.fworld pass.1.2) = Fetcher.trace w ++ events
    /\ map fst (Fetcher.written_parts events)
       = map (Fetcher.part_name publicationavis) (seq 1 (length pages))
    /\ map snd (Fetcher.written_parts events) = map Fetcher.written_lines pages
    /\ Forall (fun page => page <> []) pages
    /\ Fetcher.page_idx pass.1.2 = length pages
    /\ Fetcher.all_records pass.1.2 = concat pages
    /\ Fetcher.day_parts day (Fetcher.fworld pass.1.2)
       = Staging.apply_parts (Fetcher.written_parts events) (Fetcher.day_parts day w)
    /\ (forallb Fetcher.response_encodes script = true ->
        map snd (Fetcher.written_parts events) = pages
        /\ Fetcher.all_records pass.1.2
           = concat (map snd (Fetcher.written_parts events))).
Proof.
  cbn zeta. unfold Fetcher._fetch_day.
  destruct (fetch_loop_staged cfg day publicationavis script 0
              {| Fetcher.all_records := []; Fetcher.last_numero := 0;
                 Fetcher.page_idx := 0;
                 Fetcher.fworld :=
                   Fetcher.emit (Fetcher.CallFetch day publicationavis) w |})
    as (pages & (events & Ht & Hw & Hi & Ha & Hd & Hn) & Henc).
  cbn in Ht, Hw, Hi, Ha, Hd.
  exists (Fetcher.CallFetch day publicationavis :: events), pages.
  change (Fetcher.written_parts (Fetcher.CallFetch day publicationavis :: events))
    with (Fetcher.written_parts events).
  split; [by rewrite Ht, <- app_assoc|].
  split; [rewrite Hw, page_files_names; by rewrite length_map|].
  split; [rewrite Hw; apply page_files_contents|].
  split; [exact Hn|]. split; [exact Hi|]. split; [exact Ha|]. split; [exact Hd|].
  intros Hscript.
  rewrite Hw, page_files_contents, (written_lines_all_encode _ (Henc Hscript)).
  by split.
Qed.

(** X6.  The daily file of a day that had none is the fragments written
    during the turn of the day loop, taken in the order of their file names:
    fragments left in the temporary directory by an earlier run do not come
    into it.  It holds no record the turn did not collect, and none more
    often than it was collected.  When every record of the answers can be
    written, it holds the records the turn collected, each one as many times
    as it was collected: no page is lost, whatever the number of pages. *)
Theorem daily_file_holds_the_fetched_records
    (cfg : Fetcher.config) (day : Fetcher.date)
    (script script' : list Fetcher.response) (w w' : Fetcher.world)
    (Habsent : Fetcher.daily_dir w !! day = None)
    (Hvisit : Fetcher.visit_day cfg day script w = Some (w', script')) :
  exists events content,
    Fetcher.trace w' = Fetcher.trace w ++ events
    /\ Fetcher.daily_dir w' !! day = Some content
    /\ content = concat (map snd (merge_sort Fetcher.name_le
                                    (Fetcher.written_parts events)))
    /\ content ⊆+ Staging.combined_records cfg day Fetcher.PUBLICATION_TYPES script
                    (Fetcher._cleanup_day_parts day w)
    /\ (forallb Fetcher.response_encodes script = true ->
        content ≡ₚ Staging.combined_records cfg day Fetcher.PUBLICATION_TYPES script
                     (Fetcher._cleanup_day_parts day w))
    /\ Fetcher.day_parts day w' = ∅.
Proof.
  destruct (visit_day_content cfg day script script' w w' Habsent Hvisit)
    as (events & pA & pB & pC & Ht & Hw & Hc & Hd & Henc).
  cbn zeta in Hw, Hd.
  destruct (visit_day_calls cfg day script script' w w' Habsent Hvisit)
    as (_ & _ & _ & _ & Hparts).
  set (files := DayFiles.day_files (map Fetcher.written_lines pA)
                  (map Fetcher.written_lines pB) (map Fetcher.written_lines pC)) in *.
  assert (concat (map snd (merge_sort Fetcher.name_le files))
          ≡ₚ concat (map Fetcher.written_lines pA)
             ++ concat (map Fetcher.written_lines pB)
             ++ concat (map Fetcher.written_lines pC)) as Hperm.
  { rewrite <- day_files_contents.
    apply concat_contents_perm, merge_sort_Permutation. }
  exists events, (concat (map snd (merge_sort Fetcher.name_le files))).
  split; [done|]. split; [done|]. split; [by rewrite Hw|].
  split; [|split; [|done]].
  - rewrite Hc, Hperm. apply sublist_submseteq.
    repeat apply sublist_app; apply concat_written_lines_sublist.
  - intros Hscript. destruct (Henc Hscript) as (HA & HB & HC).
    rewrite Hc, Hperm. by rewrite !written_lines_all_encode.
Qed.

Lemma daily_file_holds_the_fetched_records_witness :
  exists events content,
    Fetcher.trace RunExample.after_three_a
      = Fetcher.trace Example.empty_world ++ events
    /\ Fetcher.daily_dir RunExample.after_three_a !! Example.day1 = Some content
    /\ content = concat (map snd (merge_sort Fetcher.name_le
                                    (Fetcher.written_parts events)))
    /\ content ⊆+ Staging.combined_records Example.config3 Example.day1
                    Fetcher.PUBLICATION_TYPES RunExample.three_a
                    (Fetcher._cleanup_day_parts Example.day1 Example.empty_world)
    /\ (forallb Fetcher.response_encodes RunExample.three_a = true ->
        content ≡ₚ Staging.combined_records Example.config3 Example.day1
                     Fetcher.PUBLICATION_TYPES RunExample.three_a
                     (Fetcher._cleanup_day_parts Example.day1 Example.empty_world))
    /\ Fetcher.day_parts Example.day1 RunExample.after_three_a = ∅.
Proof.
  apply (daily_file_holds_the_fetched_records Example.config3 Example.day1
           RunExample.three_a [] Example.empty_world RunExample.after_three_a).
  - reflexivity.
  - vm_compute. reflexivity.
Defined.

(** X7.  The turn of the day loop for a day that had no file writes the
    fragments of the pages of A, then of B, then of C, and [combined_records]
    is the records of these pages in this order.  With fewer than 1000 pages
    in each category the daily file is the lines of these fragments in the
    same order, each category in page order; when every record of the answers
    can be written, it is [combined_records], record for record. *)
Theorem daily_file_in_fetch_order
    (cfg : Fetcher.config) (day : Fetcher.date)
    (script script' : list Fetcher.response) (w w' : Fetcher.world)
    (Habsent : Fetcher.daily_dir w !! day = None)
    (Hvisit : Fetcher.visit_day cfg day script w = Some (w', script')) :
  exists events pages_A pages_B pages_C,
    Fetcher.trace w' = Fetcher.trace w ++ events
    /\ Fetcher.written_parts events
       = Staging.page_files (u "A") 1 (map Fetcher.written_lines pages_A)
         ++ Staging.page_files (u "B") 1 (map Fetcher.written_lines pages_B)
         ++ Staging.page_files (u "C") 1 (map Fetcher.written_lines pages_C)
    /\ Staging.combined_records cfg day Fetcher.PUBLICATION_TYPES script
         (Fetcher._cleanup_day_parts day w)
       = concat pages_A ++ concat pages_B ++ concat pages_C
    /\ ((length pages_A < 1000)%nat -> (length pages_B < 1000)%nat ->
        (length pages_C < 1000)%nat ->
        Fetcher.daily_dir w' !! day
        = Some (concat (map Fetcher.written_lines pages_A)
                ++ concat (map Fetcher.written_lines pages_B)
                ++ concat (map Fetcher.written_lines pages_C))
        /\ (forallb Fetcher.response_encodes script = true ->
            Fetcher.daily_dir w' !! day
            = Some (Staging.combined_records cfg day Fetcher.PUBLICATION_TYPES
                      script (Fetcher._cleanup_day_parts day w)))).
Proof.
  destruct (visit_day_content cfg day script script' w w' Habsent Hvisit)
    as (events & pA & pB & pC & Ht & Hw & Hc & Hd & Henc).
  cbn zeta in Hw, Hd.
  exists events, pA, pB, pC.
  split; [done|]. split; [exact Hw|]. split; [exact Hc|].
  intros HA HB HC.
  assert (Fetcher.daily_dir w' !! day
          = Some (concat (map Fetcher.written_lines pA)
                  ++ concat (map Fetcher.written_lines pB)
                  ++ concat (map Fetcher.written_lines pC))) as Hfile.
  { rewrite Hd, merge_sort_sorted; [by rewrite day_files_contents|].
    apply day_files_sorted; by rewrite length_map. }
  split; [exact Hfile|].
  intros Hscript. destruct (Henc Hscript) as (EA & EB & EC).
  rewrite Hfile, Hc. by rewrite !written_lines_all_encode.
Qed.

Lemma daily_file_in_fetch_order_witness :
  exists events pages_A pages_B pages_C,
    Fetcher.trace RunExample.after_three_a
      = Fetcher.trace Example.empty_world ++ events
    /\ Fetcher.written_parts events
       = Staging.page_files (u "A") 1 (map Fetcher.written_lines pages_A)
         ++ Staging.page_files (u "B") 1 (map Fetcher.written_lines pages_B)
         ++ Staging.page_files (u "C") 1 (map Fetcher.written_lines pages_C)
    /\ Staging.combined_records Example.config3 Example.day1
         Fetcher.PUBLICATION_TYPES RunExample.three_a
         (Fetcher._cleanup_day_parts Example.day1 Example.empty_world)
       = concat pages_A ++ concat pages_B ++ concat pages_C
    /\ ((length pages_A < 1000)%nat -> (length pages_B < 1000)%nat ->
        (length pages_C < 1000)%nat ->
        Fetcher.daily_dir RunExample.after_three_a !! Example.day1
        = Some (concat (map Fetcher.written_lines pages_A)
                ++ concat (map Fetcher.written_lines pages_B)
                ++ concat (map Fetcher.written_lines pages_C))
        /\ (forallb Fetcher.response_encodes RunExample.three_a = true ->
            Fetcher.daily_dir RunExample.after_three_a !! Example.day1
            = Some (Staging.combined_records Example.config3 Example.day1
                      Fetcher.PUBLICATION_TYPES RunExample.three_a
                      (Fetcher._cleanup_day_parts Example.day1
                         Example.empty_world)))).
Proof.
  apply (daily_file_in_fetch_order Example.config3 Example.day1
           RunExample.three_a [] Example.empty_world RunExample.after_three_a).
  - reflexivity.
  - vm_compute. reflexivity.
Defined.

(** ** Running the day loop again, and a day of outage *)

Section Rerun.
Import Fetcher.

Variable cfg : config.

Lemma visit_days_done (days : list date) (script script' : list response)
    (w w' : world) :
  visit_days cfg days script w = Some (w', script') ->
  forall d, d ∈ days -> is_Some (daily_dir w' !! d).
Proof.
  revert script w. induction days as [|day days IH]; intros script w Hrun d Hd.
  - by apply elem_of_nil in Hd.
  - cbn [visit_days] in Hrun.
    destruct (visit_day cfg day script w) as [[w1 script1]|] eqn:Hday;
      [|discriminate].
    cbn in Hrun. apply elem_of_cons in Hd as [->|Hd]; [|by eapply IH].
    assert (is_Some (daily_dir w1 !! day)) as [artifact Hfile].
    { destruct (daily_dir w !! day) as [artifact|] eqn:Hw.
      - unfold visit_day in Hday. rewrite Hw in Hday.
        rewrite bool_decide_eq_true_2 in Hday by eauto.
        injection Hday as <- _. eauto.
      - by destruct (visit_day_calls cfg day script script1 w w1 Hw Hday)
          as (_ & _ & _ & Hsome & _). }
    destruct (visit_days_keeps cfg days day artifact script1 script' w1 w'
                Hfile Hrun) as (Hkeep & _).
    eauto.
Qed.

Lemma visit_days_skip (days : list date) (script : list response) (w : world) :
  (forall d, d ∈ days -> is_Some (daily_dir w !! d)) ->
  visit_days cfg days script w = Some (w, script).
Proof.
  induction days as [|day days IH]; intros Hall; [done|].
  cbn [visit_days]. unfold visit_day.
  rewrite bool_decide_eq_true_2 by (apply Hall; left).
  cbn. apply IH. intros d Hd. apply Hall. by right.
Qed.

Lemma fetch_day_outage (day : date) (publicationavis : pystr)
    (fails script : list response) (w : world) :
  Forall (fun r => r = Resp429 \/ r = RespFail) fails ->
  Z.of_nat (length fails) = Z.max 0 (max_retries cfg) ->
  exists s',
    _fetch_day cfg day publicationavis (fails ++ script) w = (Abandoned, s', script)
    /\ all_records s' = []
    /\ daily_dir (fworld s') = daily_dir w
    /\ tmp_dir (fworld s') = tmp_dir w.
Proof.
  intros Hfails Hlen.
  pose proof (fetch_day_touches cfg day publicationavis (fails ++ script) w)
    as (_ & _ & _ & Hdaily).
  unfold _fetch_day in *.
  set (s0 := {| all_records := []; last_numero := 0; page_idx := 0;
                fworld := emit (CallFetch day publicationavis) w |}) in *.
  destruct (decide (0 <= max_retries cfg)) as [Hpos|Hneg].
  - destruct (fetch_loop_failures cfg day publicationavis fails script 0 s0 Hfails)
      as (s' & Hloop & _ & _ & Hrec & Htmp); [lia|].
    rewrite Hloop in *. exists s'. by repeat split.
  - assert (fails = []) as -> by (apply length_zero_iff_nil; lia).
    cbn [app] in *.
    rewrite fetch_loop_exhausted in * by lia. exists s0. by repeat split.
Qed.

End Rerun.

(** X8.  Running the day loop a second time on the same dates fetches
    nothing.  After a run that came to its end, every day of the range has
    its daily file, and a second run over the same range returns at once:
    it asks for no page and leaves every file and the trace as they are. *)
Theorem second_run_fetches_nothing
    (cfg : Fetcher.config) (start_date end_date : Fetcher.date)
    (script script' : list Fetcher.response) (w w' : Fetcher.world)
    (Hrun : Fetcher.run cfg start_date end_date script w = Some (w', script')) :
  (forall d, start_date <= d <= end_date -> is_Some (Fetcher.daily_dir w' !! d))
  /\ (forall script2,
        Fetcher.run cfg start_date end_date script2 w' = Some (w', script2)).
Proof.
  unfold Fetcher.run in *.
  assert (forall d, d ∈ Fetcher._date_range start_date end_date ->
                    is_Some (Fetcher.daily_dir w' !! d)) as Hdone
    by (by eapply visit_days_done).
  split.
  - intros d Hd. by apply Hdone, date_range_elem.
  - intros script2. by apply visit_days_skip.
Qed.

Lemma second_run_fetches_nothing_witness :
  Fetcher.run Example.config3 Example.day1 Example.day1
    [Fetcher.RespOk (Example.page [9])] RunExample.after_three_a
  = Some (RunExample.after_three_a, [Fetcher.RespOk (Example.page [9])]).
Proof.
  apply (second_run_fetches_nothing Example.config3 Example.day1 Example.day1
           RunExample.three_a [] Example.empty_world RunExample.after_three_a).
  vm_compute. reflexivity.
Defined.

(** X9.  A day of outage is marked as done.  When every attempt of the three
    categories fails, [max_retries] attempts each, the turn of the day loop
    still ends with the merge: the day gets an empty daily file, and from
    then on the day loop skips the day, so its announcements are never
    fetched.  With [max_retries] at 0 or below this happens without any
    request. *)
Theorem outage_leaves_an_empty_daily_file
    (cfg : Fetcher.config) (day : Fetcher.date)
    (fails_A fails_B fails_C rest : list Fetcher.response) (w : Fetcher.world)
    (Habsent : Fetcher.daily_dir w !! day = None)
    (Hfails : Forall (fun r => r = Fetcher.Resp429 \/ r = Fetcher.RespFail)
                (fails_A ++ fails_B ++ fails_C))
    (HA : Z.of_nat (length fails_A) = Z.max 0 (Fetcher.max_retries cfg))
    (HB : Z.of_nat (length fails_B) = Z.max 0 (Fetcher.max_retries cfg))
    (HC : Z.of_nat (length fails_C) = Z.max 0 (Fetcher.max_retries cfg)) :
  exists w',
    Fetcher.visit_day cfg day (fails_A ++ fails_B ++ fails_C ++ rest) w
      = Some (w', rest)
    /\ Fetcher.daily_dir w' !! day = Some []
    /\ Fetcher.day_parts day w' = ∅
    /\ (forall script, Fetcher.visit_day cfg day script w' = Some (w', script)).
Proof.
  apply Forall_app in Hfails as [HfA Hfails].
  apply Forall_app in Hfails as [HfB HfC].
  rewrite visit_day_absent by done.
  destruct (cleanup_touches day w) as (_ & Hdc & Hpc).
  set (w0 := Fetcher._cleanup_day_parts day w) in *.
  unfold Fetcher.PUBLICATION_TYPES. cbn [Fetcher.fetch_types].
  destruct (fetch_day_outage cfg day (u "A") fails_A (fails_B ++ fails_C ++ rest)
              w0 HfA HA) as (sA & -> & _ & HdA & HtA).
  destruct (fetch_day_outage cfg day (u "B") fails_B (fails_C ++ rest)
              (Fetcher.fworld sA) HfB HB) as (sB & -> & _ & HdB & HtB).
  destruct (fetch_day_outage cfg day (u "C") fails_C rest
              (Fetcher.fworld sB) HfC HC) as (sC & -> & _ & HdC & HtC).
  destruct (merge_day_parts_spec day (Fetcher.fworld sC)) as (Hm & Hparts & _).
  assert (Fetcher.day_parts day (Fetcher.fworld sC) = ∅) as Hnone.
  { unfold Fetcher.day_parts in *. by rewrite HtC, HtB, HtA. }
  assert (Fetcher.daily_dir (Fetcher._merge_day_parts day (Fetcher.fworld sC)) !! day
          = Some []) as Hfile.
  { rewrite Hm. rewrite bool_decide_eq_true_2 by (by apply part_files_nil).
    by rewrite HdC, HdB, HdA, Hdc, Habsent. }
  eexists. split; [reflexivity|]. split; [exact Hfile|]. split; [exact Hparts|].
  intros script. unfold Fetcher.visit_day.
  by rewrite bool_decide_eq_true_2 by (rewrite Hfile; eauto).
Qed.

Lemma outage_leaves_an_empty_daily_file_witness :
  exists w',
    Fetcher.visit_day Example.config3 Example.day1
      ([Fetcher.RespFail; Fetcher.Resp429; Fetcher.RespFail]
       ++ [Fetcher.RespFail; Fetcher.RespFail; Fetcher.Resp429]
       ++ [Fetcher.Resp429; Fetcher.Resp429; Fetcher.Resp429]
       ++ [Fetcher.RespOk (Example.page [1])]) Example.empty_world
      = Some (w', [Fetcher.RespOk (Example.page [1])])
    /\ Fetcher.daily_dir w' !! Example.day1 = Some []
    /\ Fetcher.day_parts Example.day1 w' = ∅
    /\ (forall script,
          Fetcher.visit_day Example.config3 Example.day1 script w'
          = Some (w', script)).
Proof.
  apply (outage_leaves_an_empty_daily_file Example.config3 Example.day1);
    [reflexivity | | reflexivity | reflexivity | reflexivity].
  cbn [app]. repeat (constructor; [auto|]). constructor.
Defined.

(** ** A page that raises after it was staged *)

Section RaisingPage.
Import Fetcher.

Variable cfg : config.
Variable day : date.
Variable publicationavis : pystr.

Lemma part_name_page_inj (i j : nat) :
  part_name publicationavis i = part_name publicationavis j -> i = j.
Proof.
  unfold part_name. intros E. by apply app_inv_head, app_inv_head, fmt_03d_inj in E.
Qed.

Lemma fetch_loop_raising (payload : json) (records : list json)
    (rest : list response) (n attempt : nat) (s : fetch_state) :
  _extract_records payload = Some records -> records <> [] ->
  forallb encodes records = false \/ page_numbers records = None ->
  Z.of_nat attempt + Z.of_nat n = max_retries cfg ->
  exists s',
    fetch_loop cfg day publicationavis (replicate n (RespOk payload) ++ rest)
      attempt s = (Abandoned, s', rest)
    /\ all_records s' = all_records s ++ concat (replicate n records)
    /\ page_idx s' = (page_idx s + n)%nat
    /\ last_numero s' = last_numero s
    /\ (forall i, (i < n)%nat ->
          day_parts day (fworld s')
            !! part_name publicationavis (S (page_idx s + i))
          = Some (written_lines records))
    /\ (forall name, (forall i, (i < n)%nat ->
                        name <> part_name publicationavis (S (page_idx s + i))) ->
          day_parts day (fworld s') !! name = day_parts day (fworld s) !! name).
Proof.
  intros Hp Hne Hraise. revert attempt s.
  induction n as [|n IH]; intros attempt s Hn.
  - cbn [replicate app]. rewrite fetch_loop_exhausted by lia.
    exists s. rewrite app_nil_r, Nat.add_0_r. repeat split; try done.
    intros i Hi. lia.
  - cbn [replicate app]. rewrite fetch_loop_unfold.
    rewrite bool_decide_eq_true_2 by lia. cbn zeta.
    rewrite (process_page_raises cfg day publicationavis payload records) by done.
    set (s1 := with_world (emit (SleepBackoff attempt))
                 (staged day publicationavis records
                    (last_numero
                       (with_world
                          (emit (Request (request_params cfg day publicationavis s)))
                          s))
                    (with_world
                       (emit (Request (request_params cfg day publicationavis s)))
                       s))).
    destruct (IH (S attempt) s1) as (s' & Hloop & Hall & Hidx & Hlast & Hin & Hout);
      [lia|].
    assert (day_parts day (fworld s1)
            = <[part_name publicationavis (S (page_idx s)) := written_lines records]>
                (day_parts day (fworld s))) as Hparts.
    { unfold s1, staged, with_world. cbn [fworld page_idx].
      rewrite write_ndjson_part_world. unfold emit. cbn.
      unfold day_parts at 1. cbn. by rewrite lookup_insert_eq. }
    exists s'. split; [exact Hloop|].
    change (page_idx s1) with (S (page_idx s)) in *.
    change (all_records s1) with (all_records s ++ records) in *.
    change (last_numero s1) with (last_numero s) in *.
    split; [by rewrite Hall, <- app_assoc|].
    split; [lia|]. split; [done|]. split.
    + intros i Hi. destruct i as [|i].
      * rewrite Nat.add_0_r. rewrite Hout.
        -- rewrite Hparts. apply lookup_insert_eq.
        -- intros j Hj E. apply part_name_page_inj in E. lia.
      * replace (S (page_idx s + S i)) with (S (S (page_idx s) + i)) by lia.
        apply Hin. lia.
    + intros name Hname. rewrite Hout.
      * rewrite Hparts. apply lookup_insert_ne.
        specialize (Hname 0%nat ltac:(lia)). rewrite Nat.add_0_r in Hname. done.
      * intros i Hi. replace (S (S (page_idx s) + i)) with (S (page_idx s + S i)) by lia.
        apply Hname. lia.
Qed.

End RaisingPage.

(** X21.  A page that raises after it went into [all_records] is staged
    again.  When a page holds a record that cannot be written, or a
    [numeroannonce] that does not compare with the cursor, a text for one,
    its records are added to [all_records] and its fragment is written, up to
    the record that cannot be, before the exception; the cursor stays, the
    attempt counts as failed, and the next attempt gets the same page and
    stages it once more under the next page number.  Against an API that
    keeps answering with this page, the pass gives up after [max_retries]
    attempts with [max_retries] fragments that hold the same lines: the
    records of the page, when they can all be written. *)
Theorem page_that_raises_is_staged_again
    (cfg : Fetcher.config) (day : Fetcher.date) (publicationavis : pystr)
    (payload : json) (records : list json) (rest : list Fetcher.response)
    (n : nat) (w : Fetcher.world)
    (Hpayload : Fetcher._extract_records payload = Some records)
    (Hrecords : records <> [])
    (Hraises : forallb Fetcher.encodes records = false
               \/ Fetcher.page_numbers records = None)
    (Hn : Z.of_nat n = Fetcher.max_retries cfg) :
  exists s',
    Fetcher._fetch_day cfg day publicationavis
      (replicate n (Fetcher.RespOk payload) ++ rest) w
    = (Fetcher.Abandoned, s', rest)
    /\ Fetcher.all_records s' = concat (replicate n records)
    /\ Fetcher.page_idx s' = n
    /\ Fetcher.last_numero s' = 0
    /\ (forall i, (1 <= i <= n)%nat ->
          Fetcher.day_parts day (Fetcher.fworld s')
            !! Fetcher.part_name publicationavis i
          = Some (Fetcher.written_lines records))
    /\ (forallb Fetcher.encodes records = true ->
        forall i, (1 <= i <= n)%nat ->
          Fetcher.day_parts day (Fetcher.fworld s')
            !! Fetcher.part_name publicationavis i = Some records).
Proof.
  unfold Fetcher._fetch_day.
  destruct (fetch_loop_raising cfg day publicationavis payload records rest n 0
              {| Fetcher.all_records := []; Fetcher.last_numero := 0;
                 Fetcher.page_idx := 0;
                 Fetcher.fworld :=
                   Fetcher.emit (Fetcher.CallFetch day publicationavis) w |}
              Hpayload Hrecords Hraises)
    as (s' & Hloop & Hall & Hidx & Hlast & Hin & _); [lia|].
  exists s'. cbn in Hall, Hidx, Hlast, Hin.
  assert (forall i, (1 <= i <= n)%nat ->
            Fetcher.day_parts day (Fetcher.fworld s')
              !! Fetcher.part_name publicationavis i
            = Some (Fetcher.written_lines records)) as Hparts.
  { intros i Hi. destruct i as [|i]; [lia|]. apply Hin. lia. }
  do 5 (split; [done|]).
  intros Henc i Hi. by rewrite (Hparts i Hi), (written_lines_encoded _ Henc).
Qed.

Lemma page_that_raises_is_staged_again_witness :
  exists s',
    Fetcher._fetch_day Example.config3 Example.day1 (u "A")
      (replicate 3 (Fetcher.RespOk RunExample.lone_surrogate)
       ++ [Fetcher.RespOk (Example.page [])]) Example.empty_world
    = (Fetcher.Abandoned, s', [Fetcher.RespOk (Example.page [])])
    /\ Fetcher.all_records s' = concat (replicate 3 RunExample.surrogate_records)
    /\ Fetcher.page_idx s' = 3%nat
    /\ Fetcher.last_numero s' = 0
    /\ (forall i, (1 <= i <= 3)%nat ->
          Fetcher.day_parts Example.day1 (Fetcher.fworld s')
            !! Fetcher.part_name (u "A") i
          = Some (Fetcher.written_lines RunExample.surrogate_records))
    /\ (forallb Fetcher.encodes RunExample.surrogate_records = true ->
        forall i, (1 <= i <= 3)%nat ->
          Fetcher.day_parts Example.day1 (Fetcher.fworld s')
            !! Fetcher.part_name (u "A") i
          = Some RunExample.surrogate_records).
Proof.
  apply (page_that_raises_is_staged_again Example.config3 Example.day1 (u "A")
           RunExample.lone_surrogate);
    [reflexivity | discriminate | left; reflexivity | reflexivity].
Defined.

(** A page of two records where the second one holds a lone surrogate: the
    fragment of each attempt holds the first record only, the list returned
    holds both, once for each attempt, and the cursor has not moved. *)
Lemma lone_surrogate_cuts_the_fragment :
  let pass :=
    Fetcher._fetch_day Example.config3 Example.day1 (u "A")
      (replicate 3 (Fetcher.RespOk RunExample.lone_surrogate)) Example.empty_world in
  pass.1.1 = Fetcher.Abandoned
  /\ Fetcher.written_lines RunExample.surrogate_records
     = [Example.announcement 1 (u "123 456 789") (u "radiation")]
  /\ map snd (Fetcher.written_parts (Fetcher.trace (Fetcher.fworld pass.1.2)))
     = replicate 3 [Example.announcement 1 (u "123 456 789") (u "radiation")]
  /\ length (Fetcher.all_records pass.1.2) = 6%nat
  /\ Fetcher.cursors (Fetcher.trace (Fetcher.fworld pass.1.2)) = [0; 0; 0].
Proof. vm_compute. done. Qed.

(** A page whose record has a text as its [numeroannonce]: each attempt
    leaves a fragment with the whole page. *)
Lemma text_numero_is_staged_whole :
  let pass :=
    Fetcher._fetch_day Example.config3 Example.day1 (u "A")
      (replicate 3 (Fetcher.RespOk RunExample.text_numero)) Example.empty_world in
  pass.1.1 = Fetcher.Abandoned
  /\ map snd (Fetcher.written_parts (Fetcher.trace (Fetcher.fworld pass.1.2)))
     = replicate 3 [JDict [ (u "numeroannonce", JStr (u "A12"));
                            (u "dateparution", JStr (u "2024-03-05")) ]]
  /\ Fetcher.cursors (Fetcher.trace (Fetcher.fworld pass.1.2)) = [0; 0; 0].
Proof. vm_compute. done. Qed.

(** ** The cleanup and the merge *)

(** X22.  [_cleanup_day_parts] deletes every fragment of the day and nothing
    else: the temporary directory of the day is empty afterwards, the daily
    files and the fragments of the other days are as they were, and the
    files deleted are the fragments that were there. *)
Theorem cleanup_deletes_the_fragments_of_the_day
    (day : Fetcher.date) (w : Fetcher.world) :
  Fetcher.day_parts day (Fetcher._cleanup_day_parts day w) = ∅
  /\ Fetcher.daily_dir (Fetcher._cleanup_day_parts day w) = Fetcher.daily_dir w
  /\ (forall d, d <> day ->
        Fetcher.day_parts d (Fetcher._cleanup_day_parts day w)
        = Fetcher.day_parts d w)
  /\ exists names,
       Fetcher.trace (Fetcher._cleanup_day_parts day w)
       = Fetcher.trace w ++ Fetcher.CallCleanup day
           :: map (Fetcher.UnlinkPart day) names
       /\ (forall name, name ∈ names <->
                        is_Some (Fetcher.day_parts day w !! name)).
Proof.
  destruct (cleanup_touches day w) as ((Ht & _ & _ & Htmp) & Hd & Hp).
  split; [done|]. split; [done|]. split.
  - intros d Hne. unfold Fetcher.day_parts. by rewrite Htmp.
  - exists (map fst (map_to_list (Fetcher.day_parts day w))). split.
    + rewrite Ht. by rewrite map_map.
    + intros name. rewrite list_elem_of_fmap. split.
      * intros ([k c] & -> & Hin). apply elem_of_map_to_list in Hin. by eexists.
      * intros [c Hc]. exists (name, c). split; [done|].
        by apply elem_of_map_to_list.
Qed.

(** X23.  [_merge_day_parts] and the daily file.  Without any fragment the
    daily file is created empty when it is not there and left as it is when
    it is; with fragments it becomes their contents, one after the other in
    the order of the file names.  In both cases no fragment of the day is
    left, and the files of the other days are not touched. *)
Theorem merge_writes_the_fragments_in_name_order
    (day : Fetcher.date) (w : Fetcher.world) :
  (Fetcher.day_parts day w = ∅ ->
   Fetcher.daily_dir (Fetcher._merge_day_parts day w) !! day
   = Some (default [] (Fetcher.daily_dir w !! day)))
  /\ (Fetcher.day_parts day w <> ∅ ->
      Fetcher.daily_dir (Fetcher._merge_day_parts day w) !! day
      = Some (concat (map snd (Fetcher.part_files day w))))
  /\ StronglySorted Fetcher.name_le (Fetcher.part_files day w)
  /\ (forall name content,
        (name, content) ∈ Fetcher.part_files day w <->
        Fetcher.day_parts day w !! name = Some content)
  /\ Fetcher.day_parts day (Fetcher._merge_day_parts day w) = ∅
  /\ (forall d, d <> day ->
        Fetcher.daily_dir (Fetcher._merge_day_parts day w) !! d
        = Fetcher.daily_dir w !! d
        /\ Fetcher.tmp_dir (Fetcher._merge_day_parts day w) !! d
           = Fetcher.tmp_dir w !! d).
Proof.
  destruct (merge_day_parts_spec day w)
    as (Hm & Hempty & events & (_ & _ & Hdaily & Htmp) & _).
  split; [|split; [|split; [|split; [|split]]]].
  - intros Hnone. rewrite Hm.
    rewrite bool_decide_eq_true_2 by (by apply part_files_nil).
    by destruct (Fetcher.daily_dir w !! day).
  - intros Hsome. rewrite Hm.
    by rewrite bool_decide_eq_false_2 by (by rewrite part_files_nil).
  - unfold Fetcher.part_files. apply StronglySorted_merge_sort; apply _.
  - intros name content. apply part_files_elem.
  - done.
  - intros d Hne. split; [by apply Hdaily | by apply Htmp].
Qed.

(** ** A worked run of [main] *)

Lemma main_requests_within_dates_witness :
  exists start_date end_date events,
    FetcherMain.date_window (Example.day1 + 1) 1 FetcherMain.NoArg FetcherMain.NoArg
      = Some (start_date, end_date)
    /\ Fetcher.trace RunExample.after_three_a
       = Fetcher.trace Example.empty_world ++ events
    /\ Forall (fun d => start_date <= d <= end_date /\ d < Example.day1 + 1)
         (FetcherMain.requested_days events)
    /\ StronglySorted Z.le (FetcherMain.requested_days events)
    /\ (forall d, ~ start_date <= d <= end_date ->
          Fetcher.daily_dir RunExample.after_three_a !! d
          = Fetcher.daily_dir Example.empty_world !! d
          /\ Fetcher.tmp_dir RunExample.after_three_a !! d
             = Fetcher.tmp_dir Example.empty_world !! d).
Proof.
  apply (main_requests_within_dates Example.config3 (Example.day1 + 1) 1
           FetcherMain.NoArg FetcherMain.NoArg RunExample.three_a []).
  vm_compute. reflexivity.
Defined.

(** ** Payloads that are no object, and results that are no objects *)

Section ExtractMore.
Import Fetcher.

Lemma clean_item_dicts (item : json) :
  Forall (fun r => is_dict r = true) (clean_item item)
  /\ (length (clean_item item) <= 1)%nat
  /\ (clean_item item = [] <-> is_dict item = false).
Proof.
  assert (forall r : list (pystr * json),
            Forall (fun r => is_dict r = true) [JDict r]
            /\ (length [JDict r] <= 1)%nat
            /\ ([JDict r] = [] <-> true = false)) as Hone.
  { intros r. split; [by repeat constructor|]. split; [cbn; lia|].
    split; intros; discriminate. }
  destruct item as [| | | | |d];
    try (cbn; split; [constructor|]; split; [lia|]; split; done).
  unfold clean_item. cbn [is_dict].
  destruct (dict_get (u "record") d) as [[| | | | |r]|];
    try apply Hone;
    (destruct (dict_get (u "fields") d) as [[| | | | |f]|]; apply Hone).
Qed.

Lemma cleaned_dicts (items : list json) :
  Forall (fun r => is_dict r = true) (cleaned items)
  /\ (length (cleaned items) <= length items)%nat
  /\ (cleaned items = [] <-> Forall (fun item => is_dict item = false) items).
Proof.
  unfold cleaned. induction items as [|item items (IH1 & IH2 & IH3)]; cbn.
  - repeat split; (done || constructor).
  - destruct (clean_item_dicts item) as (H1 & H2 & H3).
    split; [by apply Forall_app|]. split; [rewrite length_app; lia|].
    split.
    + intros [E1 E2]%app_eq_nil. constructor; [by apply H3 | by apply IH3].
    + intros [E1 E2]%Forall_cons. apply H3 in E1. apply IH3 in E2.
      by rewrite E1, E2.
Qed.

End ExtractMore.

(** X18.  What [_extract_records] does with the shapes the type does not
    name.  Records come out of a JSON object only: a payload that is a list,
    a string, a number, a boolean or [null] gives no record or raises, and
    the call then counts as a failed attempt.  The records taken from
    [results] are all objects, at most one for each item; when no item of
    [results] is an object the page counts as empty, which ends the
    pagination. *)
Theorem extract_records_other_shapes :
  (forall payload,
     (forall d, payload <> JDict d) ->
     Fetcher._extract_records payload = Some []
     \/ Fetcher._extract_records payload = None)
  /\ (forall items,
        items <> [] -> JStr (u "results") ∈ items ->
        Fetcher._extract_records (JList items) = None)
  /\ (forall d items,
        dict_get (u "results") d = Some (JList items) ->
        exists records,
          Fetcher._extract_records (JDict d) = Some records
          /\ Forall (fun r => is_dict r = true) records
          /\ (length records <= length items)%nat
          /\ (records = [] <-> Forall (fun item => is_dict item = false) items))
  /\ (forall cfg day publicationavis d items s,
        dict_get (u "results") d = Some (JList items) ->
        Forall (fun item => is_dict item = false) items ->
        Fetcher.process_page cfg day publicationavis (JDict d) s
        = Fetcher.PageReturn s).
Proof.
  assert (forall d items,
            dict_get (u "results") d = Some (JList items) ->
            Fetcher._extract_records (JDict d) = Some (Fetcher.cleaned items)) as Hres.
  { intros d items Hd. unfold Fetcher._extract_records.
    destruct d as [|kv d]; [discriminate Hd|].
    change (negb (truthy (JDict (kv :: d)))) with false. cbv iota.
    rewrite !list_under_dict. by rewrite Hd. }
  split; [|split; [|split]].
  - intros payload Hno. unfold Fetcher._extract_records.
    destruct (truthy payload) eqn:Ht; cbn [negb]; [|by left].
    destruct payload as [|b|z|s|l|d]; try (by right); try (by left).
    + rewrite !list_under_str.
      destruct (str_contains (u "results") s); [by right|].
      destruct (str_contains (u "records") s); [by right | by left].
    + rewrite !list_under_list.
      repeat (destruct (existsb _ l); try (by right); try (by left)).
    + by destruct (Hno d).
  - intros items Hne Hin. unfold Fetcher._extract_records.
    assert (truthy (JList items) = true) as ->
      by (cbn; by rewrite bool_decide_eq_false_2).
    cbn [negb]. by rewrite (list_under_list_elem (u "results")) by done.
  - intros d items Hd. exists (Fetcher.cleaned items).
    split; [by apply Hres|]. apply cleaned_dicts.
  - intros cfg day publicationavis d items s Hd Hno.
    apply process_page_empty. rewrite (Hres d items Hd). f_equal.
    by apply cleaned_dicts.
Qed.

(** ** The registry and the keywords [main] loads *)

Section FilterInputs.
Import Filter FilterMain.

Variable isdigit : N -> bool.
Variable isspace : N -> bool.
Variable str_lower : pystr -> pystr.
Variable splitlines : pystr -> list pystr.

Abbreviation siren_of := (row_siren isdigit isspace).
Abbreviation cell := (get_stripped isspace).
Abbreviation load1 := (load_row isdigit isspace).
Abbreviation load := (load_rows isdigit isspace).
Abbreviation registry := (_load_sirens_with_info isdigit isspace).

Abbreviation valid_key := (FilterMain.valid_key isdigit).

Lemma load_row_spec (data : gmap pystr (pystr * pystr * pystr)) (row : csv_row) :
  load1 data row =
  if bool_decide (length (siren_of row) <> 9%nat) then Some data
  else match cell (u "MATRICULE_PICRIS_CCPMA") row,
             cell (u "MATRICULE_PICRIS_CPCEA") row,
             cell (u "MATRICULE_PICRIS_AGRI") row with
       | Some a, Some b, Some c => Some (<[siren_of row := (a, b, c)]> data)
       | _, _, _ => None
       end.
Proof.
  unfold load_row. cbn zeta. case_bool_decide; [done|].
  destruct (cell _ row) as [a|]; [|done].
  destruct (cell _ row) as [b|]; [|done].
  by destruct (cell _ row) as [c|].
Qed.

Lemma row_siren_digits (row : csv_row) :
  Forall (fun c => isdigit c = true) (siren_of row).
Proof.
  unfold row_siren. apply list.Forall_forall. intros c Hc.
  apply list_elem_of_In, filter_In in Hc. tauto.
Qed.

Lemma load_row_keys (data data' : gmap pystr (pystr * pystr * pystr))
    (row : csv_row) :
  load1 data row = Some data' ->
  (forall siren, is_Some (data !! siren) -> valid_key siren) ->
  forall siren, is_Some (data' !! siren) -> valid_key siren.
Proof.
  rewrite load_row_spec. case_bool_decide as Hlen.
  - intros [= <-]. auto.
  - destruct (cell _ row) as [a|]; [|discriminate].
    destruct (cell _ row) as [b|]; [|discriminate].
    destruct (cell _ row) as [c|]; [|discriminate].
    intros [= <-] Hdata siren Hsome.
    destruct (decide (siren = siren_of row)) as [->|Hne].
    + split; [|apply row_siren_digits].
      destruct (decide (length (siren_of row) = 9%nat)); [done|]. by destruct Hlen.
    + rewrite lookup_insert_ne in Hsome by done. auto.
Qed.

Lemma load_rows_keys (rows : list csv_row)
    (data data' : gmap pystr (pystr * pystr * pystr)) :
  load data rows = Some data' ->
  (forall siren, is_Some (data !! siren) -> valid_key siren) ->
  forall siren, is_Some (data' !! siren) -> valid_key siren.
Proof.
  revert data. induction rows as [|row rows IH]; intros data Hload Hdata.
  - cbn in Hload. injection Hload as <-. exact Hdata.
  - cbn [load_rows] in Hload.
    destruct (load1 data row) as [data1|] eqn:Hrow; [|discriminate].
    cbn in Hload. eapply IH; [exact Hload|]. by eapply load_row_keys.
Qed.

Lemma registry_keys (file : option (list csv_row)) (siren : pystr) :
  is_Some (registry file !! siren) -> valid_key siren.
Proof.
  unfold _load_sirens_with_info. destruct file as [rows|].
  - destruct (load ∅ rows) as [data|] eqn:Hload; cbn.
    + eapply load_rows_keys; [exact Hload|].
      intros s Hs. rewrite lookup_empty in Hs. by destruct Hs.
    + intros Hs. rewrite lookup_empty in Hs. by destruct Hs.
  - intros Hs. rewrite lookup_empty in Hs. by destruct Hs.
Qed.

Lemma load_rows_raise (rows : list csv_row) (row : csv_row)
    (data : gmap pystr (pystr * pystr * pystr)) :
  row ∈ rows -> (forall data0, load1 data0 row = None) -> load data rows = None.
Proof.
  intros Hin Hraise. revert data.
  induction rows as [|r rows IH]; intros data; [by apply elem_of_nil in Hin|].
  cbn [load_rows]. apply elem_of_cons in Hin as [<-|Hin].
  - by rewrite Hraise.
  - destruct (load1 data r); [|done]. cbn. by apply IH.
Qed.

Lemma load_rows_other (rows : list csv_row) (siren : pystr)
    (data data' : gmap pystr (pystr * pystr * pystr)) :
  load data rows = Some data' ->
  Forall (fun r => siren_of r <> siren) rows ->
  data' !! siren = data !! siren.
Proof.
  revert data. induction rows as [|row rows IH]; intros data Hload Hother.
  - cbn in Hload. by injection Hload as <-.
  - apply Forall_cons in Hother as [Hrow Hother].
    cbn [load_rows] in Hload.
    destruct (load1 data row) as [data1|] eqn:Hrow1; [|discriminate].
    cbn in Hload. rewrite (IH _ Hload Hother).
    rewrite load_row_spec in Hrow1. case_bool_decide.
    + by injection Hrow1 as <-.
    + destruct (cell _ row) as [a|]; [|discriminate].
      destruct (cell _ row) as [b|]; [|discriminate].
      destruct (cell _ row) as [c|]; [|discriminate].
      injection Hrow1 as <-. by rewrite lookup_insert_ne.
Qed.

Lemma load_rows_app (pre post : list csv_row)
    (data : gmap pystr (pystr * pystr * pystr)) :
  load data (pre ++ post) = (data' ← load data pre; load data' post).
Proof.
  revert data. induction pre as [|row pre IH]; intros data; [done|].
  cbn [app load_rows]. destruct (load1 data row); [|done]. cbn. apply IH.
Qed.

(** X10.  The registry [_load_sirens_with_info] returns.  Every key is a
    string of exactly nine digits, so never the empty string.  When two rows
    have the same SIREN the later one gives the three numbers.  A row with a
    nine-digit SIREN that is too short for one of the three columns of
    numbers makes the function return the empty registry, whatever the other
    rows hold, and [main] then stops before it writes anything. *)
Theorem registry_keys_have_nine_digits :
  (forall file siren,
     siren ∈ dom (registry file) ->
     length siren = 9%nat /\ Forall (fun c => isdigit c = true) siren)
  /\ (forall file, [] ∉ dom (registry file))
  /\ (forall pre row post a b c,
        length (siren_of row) = 9%nat ->
        cell (u "MATRICULE_PICRIS_CCPMA") row = Some a ->
        cell (u "MATRICULE_PICRIS_CPCEA") row = Some b ->
        cell (u "MATRICULE_PICRIS_AGRI") row = Some c ->
        Forall (fun r => siren_of r <> siren_of row) post ->
        is_Some (load ∅ (pre ++ row :: post)) ->
        registry (Some (pre ++ row :: post)) !! siren_of row = Some (a, b, c))
  /\ (forall rows row column,
        row ∈ rows -> length (siren_of row) = 9%nat ->
        column ∈ [u "MATRICULE_PICRIS_CCPMA"; u "MATRICULE_PICRIS_CPCEA";
                  u "MATRICULE_PICRIS_AGRI"] ->
        row !! column = Some None ->
        registry (Some rows) = ∅
        /\ forall nfd category_Mn json_loads strptime_strftime
                  input_files raw_keywords target_dir0,
             main isdigit isspace str_lower splitlines nfd category_Mn json_loads
               strptime_strftime input_files (Some rows) raw_keywords target_dir0
             = None).
Proof.
  split; [|split; [|split]].
  - intros file siren Hin. apply elem_of_dom in Hin. by apply (registry_keys file).
  - intros file Hin. apply elem_of_dom in Hin.
    by destruct (registry_keys file _ Hin) as [Hlen _].
  - intros pre row post a b c Hlen Ha Hb Hc Hpost [data Hload].
    unfold _load_sirens_with_info. rewrite Hload. cbn.
    rewrite load_rows_app in Hload.
    destruct (load ∅ pre) as [data0|]; [|discriminate]. cbn in Hload.
    cbn [load_rows] in Hload.
    destruct (load1 data0 row) as [data1|] eqn:Hrow; [|discriminate].
    cbn in Hload. rewrite (load_rows_other _ _ _ _ Hload Hpost).
    rewrite load_row_spec in Hrow.
    rewrite bool_decide_eq_false_2 in Hrow by (intros H; by apply H).
    rewrite Ha, Hb, Hc in Hrow. injection Hrow as <-.
    apply lookup_insert_eq.
  - intros rows row column Hin Hlen Hcol Hnone.
    assert (registry (Some rows) = ∅) as Hempty.
    { unfold _load_sirens_with_info.
      rewrite (load_rows_raise rows row ∅ Hin); [done|].
      intros data0. rewrite load_row_spec.
      rewrite bool_decide_eq_false_2 by (intros H; by apply H).
      assert (cell column row = None) as Hcell by (unfold get_stripped; by rewrite Hnone).
      set_unfold. destruct Hcol as [->|[->|[->|[]]]]; rewrite Hcell.
      - done.
      - destruct (cell (u "MATRICULE_PICRIS_CCPMA") row); reflexivity.
      - destruct (cell (u "MATRICULE_PICRIS_CCPMA") row),
          (cell (u "MATRICULE_PICRIS_CPCEA") row); reflexivity. }
    split; [done|]. intros. unfold main. case_bool_decide; [done|].
    cbn zeta. rewrite Hempty. by rewrite dom_empty_L, bool_decide_eq_true_2.
Qed.

(** X11.  The keywords [main] gives to the filter.  The list is never empty
    and holds no empty keyword: a keyword of the configuration is a line of
    the option that is not blank, stripped and in lower case, and without
    such a line the default list is taken.  ([str.lower] gives the empty
    string on the empty string only.) *)
Theorem keywords_are_never_empty
    (Hlower : forall s, str_lower s = [] -> s = []) :
  (forall raw_value,
     topage_keywords isspace str_lower splitlines raw_value <> []
     /\ Forall (fun keyword => keyword <> [])
          (topage_keywords isspace str_lower splitlines raw_value))
  /\ (forall raw keyword,
        keyword ∈ _read_keywords isspace str_lower splitlines (Some raw) <->
        exists line, line ∈ splitlines raw /\ strip isspace line <> []
                     /\ keyword = str_lower (strip isspace line))
  /\ (forall raw_value,
        _read_keywords isspace str_lower splitlines raw_value = [] ->
        topage_keywords isspace str_lower splitlines raw_value
        = DEFAULT_TOPAGE_KEYWORDS).
Proof.
  assert (forall raw keyword,
            keyword ∈ _read_keywords isspace str_lower splitlines (Some raw) <->
            exists line, line ∈ splitlines raw /\ strip isspace line <> []
                         /\ keyword = str_lower (strip isspace line)) as Hread.
  { intros raw keyword. unfold _read_keywords.
    change (map ?f ?l) with (f <$> l). rewrite list_elem_of_fmap. split.
    - intros (line & -> & Hin). apply list_elem_of_In, filter_In in Hin as [Hin Hne].
      exists line. split; [by apply list_elem_of_In|]. split; [|done].
      by case_bool_decide.
    - intros (line & Hin & Hne & ->). exists line. split; [done|].
      apply list_elem_of_In, filter_In. split; [by apply list_elem_of_In|].
      by rewrite bool_decide_eq_false_2. }
  split; [|split; [exact Hread|]].
  - intros raw_value. unfold topage_keywords. cbn zeta. case_bool_decide as E.
    + split; [done|]. by repeat constructor.
    + split; [done|]. apply list.Forall_forall. intros keyword Hin.
      destruct raw_value as [raw|]; [|by apply elem_of_nil in Hin].
      apply Hread in Hin as (line & _ & Hne & ->). intros E'. by apply Hne, Hlower.
  - intros raw_value E. unfold topage_keywords. cbn zeta.
    by rewrite bool_decide_eq_true_2.
Qed.

End FilterInputs.

Lemma latin1_lower_not_empty (s : pystr) : Latin1.str_lower s = [] -> s = [].
Proof. by destruct s. Qed.

Lemma keywords_are_never_empty_witness :
  FilterMain._read_keywords Latin1Text.isspace Latin1.str_lower Latin1Text.splitlines
    (Some (u "  Radiation " ++ [13; 10; 10]%N ++ u "Plan de Cession" ++ [10; 32]%N))
  = [u "radiation"; u "plan de cession"]
  /\ Forall (fun keyword : pystr => keyword <> [])
       (FilterMain.topage_keywords Latin1Text.isspace Latin1.str_lower
          Latin1Text.splitlines None).
Proof.
  split; [vm_compute; reflexivity|].
  exact (proj2 (proj1 (keywords_are_never_empty Latin1Text.isspace Latin1.str_lower
                         Latin1Text.splitlines latin1_lower_not_empty) None)).
Defined.

(** ** The fields of a kept record *)

Lemma dict_get_set (k k' : pystr) (v : json) (d : list (pystr * json)) :
  dict_get k (dict_set k' v d) = if decide (k' = k) then Some v else dict_get k d.
Proof.
  induction d as [|[k0 v0] d IH]; cbn.
  - repeat case_decide; congruence.
  - repeat (case_decide; cbn); try congruence.
Qed.

Lemma dict_set_keys (k : pystr) (v : json) (d : list (pystr * json)) :
  map fst (dict_set k v d) =
  if bool_decide (k ∈ map fst d) then map fst d else map fst d ++ [k].
Proof.
  induction d as [|[k0 v0] d IH]; [done|].
  cbn [dict_set map fst]. destruct (decide (k0 = k)) as [->|E].
  - rewrite bool_decide_eq_true_2 by left. done.
  - cbn [map fst]. rewrite IH.
    destruct (decide (k ∈ map fst d)) as [Hin|Hout].
    + rewrite !bool_decide_eq_true_2; [done| by right | done].
    + rewrite !bool_decide_eq_false_2; [done| |done].
      intros Hin'. apply elem_of_cons in Hin' as [->|Hin']; done.
Qed.

Section Enrichment.
Import Filter FilterState.

Variable isdigit : N -> bool.
Variable sirens_info : gmap pystr (pystr * pystr * pystr).

(** X14.  What the filter sets on a record it keeps.  With the registry
    [main] builds, the keys of the table of numbers, a record that matches
    gets [topage_DDJC] at ["oui"] and the three PICRIS numbers of the first
    identifier of its [registre] that matches, whatever the later ones are.
    Every other field keeps its value, and the fields that were there keep
    their places: a field that is new goes after them. *)
Theorem kept_record_carries_first_match
    (d : list (pystr * json)) (siren : pystr) (rest : list pystr)
    (Hmatch : _matched_sirens isdigit d (dom sirens_info) = siren :: rest) :
  exists ccpma cpcea agri e,
    sirens_info !! siren = Some (ccpma, cpcea, agri)
    /\ enriched isdigit (dom sirens_info) sirens_info d = JDict e
    /\ dict_get (u "topage_DDJC") e = Some (JStr (u "oui"))
    /\ dict_get (u "MATRICULE_PICRIS_CCPMA") e = Some (JStr ccpma)
    /\ dict_get (u "MATRICULE_PICRIS_CPCEA") e = Some (JStr cpcea)
    /\ dict_get (u "MATRICULE_PICRIS_AGRI") e = Some (JStr agri)
    /\ (forall k, k ∉ FIELDS_SET -> dict_get k e = dict_get k d)
    /\ map fst d `prefix_of` map fst e.
Proof.
  assert (siren ∈ dom sirens_info) as Hin.
  { assert (siren ∈ _matched_sirens isdigit d (dom sirens_info)) as H
      by (rewrite Hmatch; left).
    unfold _matched_sirens in H. apply list_elem_of_In, filter_In in H as [_ H].
    by apply bool_decide_eq_true in H. }
  apply elem_of_dom in Hin as [[[ccpma cpcea] agri] Hinfo].
  exists ccpma, cpcea, agri. eexists. split; [exact Hinfo|].
  unfold enriched. rewrite Hmatch. cbn [enrich]. rewrite Hinfo.
  split; [reflexivity|].
  rewrite !dict_get_set. repeat split; try done.
  - intros k Hk. unfold FIELDS_SET in Hk. rewrite !dict_get_set.
    repeat case_decide; try done; subst k; destruct Hk; set_solver.
  - rewrite !dict_set_keys.
    repeat case_bool_decide;
      repeat (etrans; [|apply prefix_app_r; reflexivity]); done.
Qed.

End Enrichment.

Lemma kept_record_carries_first_match_witness :
  exists ccpma cpcea agri e,
    FilterExample.sirens_info !! u "123456789" = Some (ccpma, cpcea, agri)
    /\ Filter.enriched Latin1.isdigit (dom FilterExample.sirens_info)
         FilterExample.sirens_info
         [(u "registre", JList [JStr (u "RCS 123 456 789"); JStr (u "123456789")])]
       = JDict e
    /\ dict_get (u "topage_DDJC") e = Some (JStr (u "oui"))
    /\ dict_get (u "MATRICULE_PICRIS_CCPMA") e = Some (JStr ccpma)
    /\ dict_get (u "MATRICULE_PICRIS_CPCEA") e = Some (JStr cpcea)
    /\ dict_get (u "MATRICULE_PICRIS_AGRI") e = Some (JStr agri)
    /\ (forall k, k ∉ FilterState.FIELDS_SET ->
          dict_get k e
          = dict_get k [(u "registre",
                         JList [JStr (u "RCS 123 456 789"); JStr (u "123456789")])])
    /\ map fst [(u "registre",
                 JList [JStr (u "RCS 123 456 789"); JStr (u "123456789")])]
       `prefix_of` map fst e.
Proof.
  apply (kept_record_carries_first_match Latin1.isdigit FilterExample.sirens_info
           _ (u "123456789") [u "123456789"]).
  vm_compute. reflexivity.
Defined.

(** ** Filtering again, and a file with a line that is no object *)

Section FilterAgain.
Import Filter FilterState.

Variable isdigit : N -> bool.
Variable str_lower nfd : pystr -> pystr.
Variable category_Mn : N -> bool.
Variable json_loads : pystr -> option json.
Variable strptime_strftime : pystr -> pystr -> option pystr.
Variable sirens : gset pystr.
Variable keywords : list pystr.
Variable sirens_info : gmap pystr (pystr * pystr * pystr).

Abbreviation day_of := (publication_day strptime_strftime).
Abbreviation fresh := (fresh_days strptime_strftime).
Abbreviation flines := (filter_lines isdigit str_lower nfd category_Mn json_loads
                          strptime_strftime sirens keywords sirens_info).
Abbreviation frecord := (filter_record isdigit str_lower nfd category_Mn json_loads
                           strptime_strftime sirens keywords sirens_info).
Abbreviation frecords := (_filter_records isdigit str_lower nfd category_Mn
                            json_loads strptime_strftime sirens keywords
                            sirens_info).
Abbreviation ffile := (filter_file isdigit str_lower nfd category_Mn json_loads
                         strptime_strftime sirens keywords sirens_info).
Abbreviation read_spec := (filter_file_read isdigit str_lower nfd category_Mn
                             json_loads strptime_strftime sirens keywords
                             sirens_info).

Lemma filter_lines_raise (existing : gset pystr) (records : list json)
    (acc : per_file) (record : json) :
  record ∈ records -> is_dict record = false ->
  flines existing acc records = None.
Proof.
  intros Hin Hno. revert acc.
  induction records as [|r records IH]; intros acc; [by apply elem_of_nil in Hin|].
  cbn [filter_lines]. apply elem_of_cons in Hin as [<-|Hin].
  - by destruct record.
  - destruct r as [| | | | |d]; try done.
    rewrite (filter_record_dict isdigit str_lower nfd category_Mn json_loads
               strptime_strftime sirens keywords sirens_info).
    cbn. by apply IH.
Qed.

Lemma filter_file_bad (st : filter_state) (f : input_file) (record : json) :
  record ∈ lines f -> is_dict record = false -> ffile st f = st.
Proof.
  intros Hin Hno. unfold filter_file. destruct (skipped _ _ _); [done|].
  by rewrite (filter_lines_raise _ _ _ record).
Qed.

Lemma lines_dicts_or_not (f : input_file) :
  Forall (fun record => is_dict record = true) (lines f)
  \/ exists record, record ∈ lines f /\ is_dict record = false.
Proof.
  induction (lines f) as [|r l [IH|(record & Hin & Hno)]].
  - left. constructor.
  - destruct (is_dict r) eqn:E.
    + left. by constructor.
    + right. exists r. split; [left|done].
  - right. exists record. split; [by right|done].
Qed.

Lemma filter_state_eq (st st' : filter_state) :
  existing st = existing st' ->
  (forall d, target_dir st !! d = target_dir st' !! d) -> st = st'.
Proof.
  destruct st as [e t], st' as [e' t']. cbn. intros -> Ht.
  f_equal. by apply map_eq.
Qed.

Lemma filter_file_mono (st : filter_state) (f : input_file) :
  existing st ⊆ existing (ffile st f).
Proof.
  destruct (skipped isdigit (existing st) f) eqn:Hskip.
  - unfold filter_file. by rewrite Hskip.
  - destruct (lines_dicts_or_not f) as [Hd|(record & Hin & Hno)].
    + destruct (read_spec st f Hskip Hd) as [-> _]. set_solver.
    + by rewrite (filter_file_bad st f record).
Qed.

Lemma filter_files_mono (files : list input_file) (st : filter_state) :
  existing st ⊆ existing (foldl ffile st files).
Proof.
  revert st. induction files as [|f files IH]; intros st; [done|].
  cbn [foldl]. etrans; [apply (filter_file_mono st f) | apply IH].
Qed.

(** Once the days a file brought are in [existing], the file brings
    nothing more. *)
Lemma filter_file_absorbed (st st2 : filter_state) (f : input_file) :
  existing (ffile st f) ⊆ existing st2 -> ffile st2 f = st2.
Proof.
  intros Hsub.
  destruct (skipped isdigit (existing st2) f) eqn:Hskip2;
    [unfold filter_file; by rewrite Hskip2|].
  destruct (lines_dicts_or_not f) as [Hd|(record & Hin & Hno)];
    [|by apply (filter_file_bad st2 f record)].
  destruct (read_spec st2 f Hskip2 Hd) as [He2 Ht2].
  destruct (skipped isdigit (existing st) f) eqn:Hskip.
  { unfold filter_file in Hsub. rewrite Hskip in Hsub.
    unfold skipped in Hskip, Hskip2.
    destruct (day_from_name isdigit f) as [target_day|]; [|done].
    apply bool_decide_eq_true in Hskip. apply bool_decide_eq_false in Hskip2.
    destruct Hskip2. by apply Hsub. }
  destruct (read_spec st f Hskip Hd) as [He _]. rewrite He in Hsub.
  assert (fresh (existing st2) (lines f) = ∅) as Hnone.
  { apply set_eq. intros d. split; [|set_solver]. intros Hfresh.
    apply (fresh_days_elem strptime_strftime) in Hfresh as [Hnot (r & Hr & Hday)].
    destruct Hnot. apply Hsub.
    destruct (decide (d ∈ existing st)) as [Hin|Hout]; [set_solver|].
    apply elem_of_union_r, (fresh_days_elem strptime_strftime). eauto. }
  apply filter_state_eq.
  - rewrite He2, Hnone. set_solver.
  - intros d. rewrite Ht2, Hnone. destruct (target_dir st2 !! d); [done|].
    by rewrite bool_decide_eq_false_2 by set_solver.
Qed.

Lemma filter_files_absorbed (files : list input_file) (st st2 : filter_state)
    (f : input_file) :
  f ∈ files -> existing (foldl ffile st files) ⊆ existing st2 ->
  ffile st2 f = st2.
Proof.
  revert st. induction files as [|g files IH]; intros st Hin Hsub;
    [by apply elem_of_nil in Hin|].
  cbn [foldl] in Hsub. apply elem_of_cons in Hin as [->|Hin].
  - apply (filter_file_absorbed st). etrans; [|exact Hsub].
    apply filter_files_mono.
  - by apply (IH (ffile st g)).
Qed.

Lemma filter_files_fixed (files : list input_file) (st : filter_state) :
  (forall f, f ∈ files -> ffile st f = st) -> foldl ffile st files = st.
Proof.
  induction files as [|f files IH]; intros Hfix; [done|].
  cbn [foldl]. rewrite Hfix by left. apply IH. intros g Hg. apply Hfix. by right.
Qed.

Lemma existing_days_exact (target0 : gmap pystr (list json)) :
  (forall d, is_Some (target0 !! d) -> length d = 8%nat) ->
  _existing_days target0 = dom target0.
Proof.
  intros Hlen. unfold _existing_days. apply set_eq. intros d.
  rewrite elem_of_list_to_set, list_elem_of_omap. split.
  - intros (k & Hk & H). apply elem_of_elements in Hk.
    case_bool_decide; [|done]. injection H as <-.
    rewrite take_app_length' by (symmetry; by apply Hlen, elem_of_dom). done.
  - intros Hd. exists d. split; [by apply elem_of_elements|].
    assert (length d = 8%nat) as Hd8 by (by apply Hlen, elem_of_dom).
    rewrite bool_decide_eq_true_2 by (rewrite length_app; lia).
    by rewrite take_app_length' by done.
Qed.

Hypothesis eight_characters :
  forall value fmt day, strptime_strftime value fmt = Some day -> length day = 8%nat.

Lemma first_format_some (value : pystr) (fmts : list pystr) (day : pystr) :
  first_format strptime_strftime value fmts = Some day ->
  exists fmt, fmt ∈ fmts /\ strptime_strftime value fmt = Some day.
Proof.
  induction fmts as [|fmt fmts IH]; [done|]. cbn [first_format].
  destruct (strptime_strftime value fmt) as [d|] eqn:E.
  - intros [= <-]. exists fmt. split; [left|done].
  - intros H. destruct (IH H) as (fmt' & Hin & Hfmt). exists fmt'.
    split; [by right|done].
Qed.

Lemma publication_day_length (record : json) (day : pystr) :
  day_of record = Some day -> length day = 8%nat.
Proof.
  unfold publication_day. destruct record as [| | | | |d]; try done.
  destruct (dict_get _ d) as [[| | |value| |]|]; try done.
  unfold _parse_day.
  destruct (first_format strptime_strftime value _) as [day_str|] eqn:E; [|done].
  case_bool_decide; [done|]. intros [= ->].
  apply first_format_some in E as (fmt & _ & E). by eapply eight_characters.
Qed.

Lemma filter_file_in_step (st : filter_state) (f : input_file) :
  in_step st -> in_step (ffile st f).
Proof.
  intros [Hdom Hlen].
  destruct (skipped isdigit (existing st) f) eqn:Hskip;
    [unfold filter_file; by rewrite Hskip|].
  destruct (lines_dicts_or_not f) as [Hd|(record & Hin & Hno)];
    [|by rewrite (filter_file_bad st f record)].
  destruct (read_spec st f Hskip Hd) as [He Ht]. split.
  - rewrite He, Hdom. apply set_eq. intros d.
    rewrite elem_of_union, !elem_of_dom, Ht.
    destruct (target_dir st !! d) eqn:E.
    + split; intros _; eauto.
    + case_bool_decide as Hf; rewrite Hdom in Hf.
      * split; [intros _; eauto | intros _; by right].
      * split; [intros [Hs|Hs]|intros Hs]; try done;
          by apply is_Some_None in Hs.
  - intros d. rewrite He, elem_of_union. intros [Hd8|Hfresh]; [by apply Hlen|].
    apply (fresh_days_elem strptime_strftime) in Hfresh as [_ (r & _ & Hday)].
    by eapply publication_day_length.
Qed.

Lemma filter_files_in_step (files : list input_file) (st : filter_state) :
  in_step st -> in_step (foldl ffile st files).
Proof.
  revert st. induction files as [|f files IH]; intros st Hst; [done|].
  cbn [foldl]. by apply IH, filter_file_in_step.
Qed.

(** X12.  Filtering the same files again changes nothing.  When the names
    of the filtered files there are start with a day of eight characters, and
    [strftime] writes a day with eight characters, a second call of
    [_filter_records] on the files of the first one leaves the filtered
    directory as the first call left it. *)
Theorem filter_again_changes_nothing
    (files : list input_file) (target0 : gmap pystr (list json))
    (Hnames : forall d, is_Some (target0 !! d) -> length d = 8%nat) :
  frecords files (frecords files target0) = frecords files target0.
Proof.
  unfold _filter_records.
  set (st0 := {| existing := _existing_days target0; target_dir := target0 |}).
  set (final := foldl ffile st0 files).
  assert (in_step st0) as Hst0.
  { split; cbn.
    - by apply existing_days_exact.
    - intros d Hd. rewrite existing_days_exact in Hd by done.
      by apply Hnames, elem_of_dom. }
  destruct (filter_files_in_step files st0 Hst0) as [Hdom Hlen].
  fold final in Hdom, Hlen.
  assert ({| existing := _existing_days (target_dir final);
             target_dir := target_dir final |} = final) as ->.
  { apply filter_state_eq; [|done]. cbn.
    rewrite existing_days_exact; [done|].
    intros d Hd. apply Hlen. rewrite Hdom. by apply elem_of_dom. }
  f_equal. apply filter_files_fixed. intros f Hf.
  by apply (filter_files_absorbed files st0).
Qed.

(** X13.  A file with a line that is JSON but no object is dropped whole.
    The exception of this line ends the reading of the file: none of its
    records is kept, not even those read before the line, none of its days is
    marked, and the filtered directory comes out as if the file were not
    among the inputs. *)
Theorem line_that_is_no_object_drops_the_file
    (f : input_file) (record : json)
    (Hline : record ∈ lines f) (Hno : is_dict record = false) :
  (forall st, ffile st f = st)
  /\ (forall pre post target0,
        frecords (pre ++ f :: post) target0 = frecords (pre ++ post) target0).
Proof.
  assert (forall st, ffile st f = st) as Hfix
    by (intros st; by apply (filter_file_bad st f record)).
  split; [exact Hfix|].
  intros pre post target0. unfold _filter_records.
  rewrite !foldl_app. cbn [foldl]. by rewrite Hfix.
Qed.

End FilterAgain.

(** ** Keywords and normalised text *)

Section NormalForm.
Import Filter.

Variable str_lower nfd : pystr -> pystr.
Variable category_Mn : N -> bool.

Lemma normalize_no_mark (text : pystr) :
  Forall (fun c => category_Mn c = false)
    (_normalize_text str_lower nfd category_Mn text).
Proof.
  unfold _normalize_text. apply list.Forall_forall. intros c Hc.
  apply list_elem_of_In, filter_In in Hc as [_ Hc]. by apply negb_true_iff.
Qed.

End NormalForm.

Lemma latin1_decompose_lower_range (c : N) (x : N * N) :
  Latin1.decompose_lower c = Some x -> (c < 256)%N.
Proof.
  unfold Latin1.decompose_lower. repeat case_match; intros; try discriminate; lia.
Qed.

Lemma latin1_normalize_char (c : N) :
  latin1_normalize [c]
  = List.filter (fun x => negb (Latin1.category_Mn x))
      (Latin1.decompose (Latin1.lower_cp c)).
Proof.
  unfold Filter._normalize_text, Latin1.nfd, Latin1.str_lower. cbn [map flat_map].
  by rewrite app_nil_r.
Qed.

(** A character of a normalised text is left as it is by the normalisation. *)
Lemma latin1_normalize_char_stable (c x : N) :
  x ∈ latin1_normalize [c] -> latin1_normalize [x] = [x].
Proof.
  destruct (N.ltb_spec c 880) as [Hc|Hc].
  - assert (forallb (fun c =>
              forallb (fun x => bool_decide (latin1_normalize [x] = [x]))
                (latin1_normalize [c]))
              (map N.of_nat (seq 0 880)) = true) as H
      by (vm_compute; reflexivity).
    rewrite forallb_forall in H.
    assert (In c (map N.of_nat (seq 0 880))) as Hin.
    { apply in_map_iff. exists (N.to_nat c). split; [lia|]. apply in_seq. lia. }
    specialize (H c Hin). rewrite forallb_forall in H.
    intros Hx. apply list_elem_of_In in Hx.
    by apply (bool_decide_eq_true_1 _), H.
  - assert (Latin1.lower_cp c = c) as Hlow.
    { unfold Latin1.lower_cp.
      destruct (N.leb_spec 65 c), (N.leb_spec c 90), (N.leb_spec 192 c),
        (N.leb_spec c 222); cbn; try lia; done. }
    assert (Latin1.decompose c = [c]) as Hdec.
    { unfold Latin1.decompose.
      destruct (Latin1.decompose_lower c) as [x'|] eqn:E.
      - apply latin1_decompose_lower_range in E. lia.
      - destruct (N.leb_spec 192 c), (N.leb_spec c 221); cbn; try lia.
        repeat case_match; try done; lia. }
    assert (latin1_normalize [c]
            = if Latin1.category_Mn c then [] else [c]) as Hnorm.
    { rewrite (latin1_normalize_char c), Hlow, Hdec. cbn.
      by destruct (Latin1.category_Mn c). }
    rewrite Hnorm. destruct (Latin1.category_Mn c) eqn:Hmn.
    + by intros ?%elem_of_nil.
    + intros Hx. apply list_elem_of_singleton in Hx. subst x.
      by rewrite Hnorm.
Qed.

Lemma latin1_normalize_elem (text : pystr) (x : N) :
  x ∈ latin1_normalize text -> exists c, c ∈ text /\ x ∈ latin1_normalize [c].
Proof.
  induction text as [|c text IH]; [by intros ?%elem_of_nil|].
  change (c :: text) with ([c] ++ text). rewrite latin1_normalize_app.
  intros [Hx|Hx]%elem_of_app.
  - exists c. split; [left|done].
  - destruct (IH Hx) as (c' & Hin & Hc'). exists c'. split; [by right|done].
Qed.

Lemma latin1_normalize_fixed (text : pystr) :
  Forall (fun x => latin1_normalize [x] = [x]) text -> latin1_normalize text = text.
Proof.
  induction 1 as [|x text Hx _ IH]; [done|].
  change (x :: text) with ([x] ++ text). by rewrite latin1_normalize_app, Hx, IH.
Qed.

Lemma latin1_keyword_normal (keyword text : pystr) :
  str_contains keyword (latin1_normalize text) = true ->
  latin1_normalize keyword = keyword.
Proof.
  intros (before & after & E)%str_contains_spec.
  apply latin1_normalize_fixed, list.Forall_forall. intros x Hx.
  assert (x ∈ latin1_normalize text) as Hin.
  { rewrite E. apply elem_of_app. right. apply elem_of_app. by left. }
  apply latin1_normalize_elem in Hin as (c & _ & Hc).
  by apply (latin1_normalize_char_stable c).
Qed.

(** X15.  A keyword matches only if it is in normalised form itself.  The
    text is normalised before the search and the keywords are not: a keyword
    with a combining mark never matches, whatever the library functions; on
    Latin-1 text a keyword with an accented or an upper-case letter never
    matches, so that the accented keyword ["clôture"] finds nothing, not even
    in a text that holds this very word. *)
Theorem keyword_matches_only_if_normalised :
  (forall str_lower nfd category_Mn text keywords,
     Filter._flag_keywords str_lower nfd category_Mn text keywords = true ->
     exists keyword, keyword ∈ keywords
                     /\ Forall (fun c => category_Mn c = false) keyword)
  /\ (forall text keywords,
        latin1_flag text keywords = true ->
        exists keyword, keyword ∈ keywords
                        /\ latin1_normalize keyword = keyword
                        /\ str_contains keyword (latin1_normalize text) = true)
  /\ (forall text, latin1_flag text [u "cl" ++ [244%N] ++ u "ture"] = false)
  /\ (forall text, latin1_flag text [u "Radiation"] = false)
  /\ latin1_flag (u "cl" ++ [244%N] ++ u "ture") [u "cloture"] = true.
Proof.
  split; [|split; [|split; [|split]]].
  - intros str_lower nfd category_Mn text keywords H.
    apply flag_keywords_spec in H as (_ & keyword & Hin & before & after & E).
    exists keyword. split; [done|].
    pose proof (normalize_no_mark str_lower nfd category_Mn text) as Hno.
    rewrite E in Hno. by apply Forall_app in Hno as [_ [Hno _]%Forall_app].
  - intros text keywords H.
    assert (text <> []) as Hne by (intros ->; discriminate H).
    unfold Filter._flag_keywords in H.
    rewrite bool_decide_eq_false_2 in H by done. cbn zeta in H.
    apply existsb_exists in H as (keyword & Hin & Hc).
    exists keyword. split; [by apply list_elem_of_In|].
    split; [by apply (latin1_keyword_normal keyword text)|done].
  - intros text. destruct (latin1_flag text _) eqn:H; [|done].
    unfold Filter._flag_keywords in H. case_bool_decide; [done|].
    cbn in H. rewrite orb_false_r in H.
    apply latin1_keyword_normal in H. vm_compute in H. discriminate H.
  - intros text. destruct (latin1_flag text _) eqn:H; [|done].
    unfold Filter._flag_keywords in H. case_bool_decide; [done|].
    cbn in H. rewrite orb_false_r in H.
    apply latin1_keyword_normal in H. vm_compute in H. discriminate H.
  - vm_compute. reflexivity.
Qed.

(** ** The strings [_deep_collect_text] reaches *)

Lemma flat_map_sublist {A B} (f g : A -> list B) (l : list A) :
  (forall x, x ∈ l -> f x `sublist_of` g x) ->
  flat_map f l `sublist_of` flat_map g l.
Proof.
  induction l as [|x l IH]; intros H; cbn; [done|].
  apply sublist_app; [apply H; left|]. apply IH. intros y Hy. apply H. by right.
Qed.

Section StringsInside.
Import Filter.

Variable json_loads : pystr -> option json.

Lemma collect_text_strings (n : nat) (obj : json) :
  (json_size obj <= n)%nat ->
  strings_of obj `sublist_of` collect_text json_loads n obj.
Proof.
  revert obj. induction n as [|n IH]; intros obj Hn.
  - pose proof (json_size_pos obj). lia.
  - destruct obj as [| | |s|l|d]; cbn [strings_of collect_text]; try done.
    + by apply sublist_skip, sublist_nil_l.
    + apply flat_map_sublist. intros v Hv. apply IH.
      pose proof (json_size_list_elem l v Hv). lia.
    + apply flat_map_sublist. intros kv Hkv. apply IH.
      pose proof (json_size_dict_elem d kv Hkv). lia.
Qed.

Lemma collect_text_plain (n : nat) (obj : json) :
  (json_size obj <= n)%nat ->
  (forall s, s ∈ strings_of obj -> json_loads s = None) ->
  collect_text json_loads n obj = strings_of obj.
Proof.
  revert obj. induction n as [|n IH]; intros obj Hn Hplain.
  - pose proof (json_size_pos obj). lia.
  - destruct obj as [| | |s|l|d]; cbn [strings_of collect_text]; try done.
    + rewrite Hplain; [done|]. cbn. left.
    + apply flat_map_ext_elem. intros v Hv. apply IH.
      * pose proof (json_size_list_elem l v Hv). lia.
      * intros s Hs. apply Hplain. cbn [strings_of].
        apply list_elem_of_In, in_flat_map. exists v.
        split; by apply list_elem_of_In.
    + apply flat_map_ext_elem. intros kv Hkv. apply IH.
      * pose proof (json_size_dict_elem d kv Hkv). lia.
      * intros s Hs. apply Hplain. cbn [strings_of].
        apply list_elem_of_In, in_flat_map. exists kv.
        split; by apply list_elem_of_In.
Qed.

(** X16.  [_deep_collect_text] misses no string.  Every string that is the
    value or sits inside it, at any depth of lists and objects, is among the
    texts collected, in the order of the value; the keys of the objects, the
    numbers, the booleans and [null] give no text.  When none of these
    strings is JSON text itself, the texts collected are exactly these
    strings. *)
Theorem deep_collect_text_misses_no_string (obj : json) :
  strings_of obj `sublist_of` _deep_collect_text json_loads obj
  /\ (forall s, s ∈ strings_of obj -> s ∈ _deep_collect_text json_loads obj)
  /\ ((forall s, s ∈ strings_of obj -> json_loads s = None) ->
      _deep_collect_text json_loads obj = strings_of obj).
Proof.
  unfold _deep_collect_text.
  pose proof (collect_text_strings (json_size obj) obj (Nat.le_refl _)) as Hsub.
  split; [done|]. split.
  - intros s Hs. by eapply elem_of_sublist.
  - by apply collect_text_plain.
Qed.

End StringsInside.

(** ** A keyword inside a field *)

Lemma str_join_elem (sep part : pystr) (parts : list pystr) :
  part ∈ parts -> exists before after, str_join sep parts = before ++ part ++ after.
Proof.
  induction parts as [|p parts IH]; [by intros ?%elem_of_nil|].
  intros [->|Hin]%elem_of_cons.
  - destruct parts as [|q parts].
    + exists [], []. cbn. by rewrite app_nil_r.
    + exists [], (sep ++ str_join sep (q :: parts)). done.
  - destruct (IH Hin) as (before & after & E).
    destruct parts as [|q parts]; [by apply elem_of_nil in Hin|].
    exists (p ++ sep ++ before), after.
    change (str_join sep (p :: q :: parts))
      with (p ++ sep ++ str_join sep (q :: parts)).
    by rewrite E, <- !app_assoc.
Qed.

(** X17.  A keyword inside any string of a candidate field tags the record.
    On Latin-1 text, when a keyword that is not empty is found in the
    normalised form of a string that sits at any depth inside one of the ten
    fields of the record, the record is tagged. *)
Theorem keyword_in_a_nested_string_tags
    (json_loads : pystr -> option json) (record : list (pystr * json))
    (field : pystr) (v : json) (s keyword : pystr) (keywords : list pystr)
    (Hfield : field ∈ Filter.TAG_FIELDS)
    (Hvalue : dict_get field record = Some v)
    (Hinside : s ∈ strings_of v)
    (Hkeyword : keyword ∈ keywords) (Hnot_empty : keyword <> [])
    (Hfound : str_contains keyword (latin1_normalize s) = true) :
  Filter._should_tag_topage Latin1.str_lower Latin1.nfd Latin1.category_Mn
    json_loads record keywords = true.
Proof.
  unfold Filter._should_tag_topage.
  rewrite bool_decide_eq_false_2 by (intros ->; by apply elem_of_nil in Hkeyword).
  assert (s ∈ Filter.text_parts json_loads record) as Hpart.
  { unfold Filter.text_parts. apply list_elem_of_In, in_flat_map.
    exists field. split; [by apply list_elem_of_In|]. rewrite Hvalue.
    apply list_elem_of_In. eapply elem_of_sublist; [exact Hinside|]. by apply collect_text_strings. }
  destruct (str_join_elem (u " ") s _ Hpart) as (before & after & E).
  apply str_contains_spec in Hfound as (b & a & Hs).
  assert (s <> []) as Hne.
  { intros ->. destruct b, keyword; done. }
  apply flag_keywords_spec. split.
  - rewrite E. intros H. apply app_eq_nil in H as [_ H].
    by apply app_eq_nil in H as [H _].
  - exists keyword. split; [done|].
    rewrite E, !latin1_normalize_app, Hs.
    exists (latin1_normalize before ++ b), (a ++ latin1_normalize after).
    by rewrite <- !app_assoc.
Qed.

(** ** Reading back the JSON-lines files *)

Section NdjsonRoundTrip.
Import Ndjson.

Variable json_dumps : json -> pystr.
Variable json_loads : pystr -> option json.
Variable isspace : N -> bool.

Abbreviation text_of := (part_text json_dumps).
Abbreviation load_text := (_load_bodacc_jsonl json_loads isspace).
Abbreviation good := (reads_back json_dumps json_loads isspace).

Lemma stream_lines_line (cur line rest : pystr) :
  one_line line ->
  stream_lines cur (line ++ 10%N :: rest)
  = (cur ++ line ++ [10%N]) :: stream_lines [] rest.
Proof.
  intros Hline. revert cur.
  induction Hline as [|c line [Hc1 Hc2] _ IH]; intros cur.
  - cbn. by rewrite bool_decide_eq_true_2.
  - cbn [app stream_lines].
    rewrite !bool_decide_eq_false_2 by done.
    rewrite IH. by rewrite <- !app_assoc.
Qed.

Lemma lstrip_head (s : pystr) (c : N) :
  head s = Some c -> isspace c = false -> lstrip isspace s = s.
Proof. destruct s as [|x s]; [done|]. cbn. intros [= ->] ->. done. Qed.

Lemma strip_line (line : pystr) :
  isspace 10%N = true ->
  (exists c, head line = Some c /\ isspace c = false) ->
  (exists c, last line = Some c /\ isspace c = false) ->
  strip isspace (line ++ [10%N]) = line.
Proof.
  intros Hlf (c & Hc & Hcs) (e & He & Hes). unfold strip.
  rewrite (lstrip_head (line ++ [10%N]) c); [|by destruct line|done].
  rewrite reverse_app. cbn. rewrite Hlf.
  rewrite (lstrip_head (reverse line) e); [apply reverse_involutive| |done].
  by rewrite head_reverse.
Qed.

Lemma load_text_line (line rest : pystr) :
  one_line line ->
  load_text (line ++ 10%N :: rest) =
  (let stripped := strip isspace (line ++ [10%N]) in
   if bool_decide (stripped = []) then []
   else match json_loads stripped with
        | Some record => [record]
        | None => []
        end) ++ load_text rest.
Proof.
  intros Hline. unfold _load_bodacc_jsonl.
  by rewrite stream_lines_line.
Qed.

Lemma universal_newlines_id (text : pystr) :
  Forall (fun c => c <> 13%N) text -> universal_newlines text = text.
Proof.
  induction 1 as [|c text Hc _ IH]; [done|]. cbn [universal_newlines].
  by rewrite bool_decide_eq_false_2, IH.
Qed.

Lemma part_text_no_return (records : list json) :
  Forall good records -> Forall (fun c => c <> 13%N) (text_of records).
Proof.
  induction 1 as [|record records (_ & Hline & _) _ IH]; [constructor|].
  unfold part_text. cbn [flat_map]. apply Forall_app. split; [|exact IH].
  apply Forall_app. split.
  - eapply Forall_impl; [exact Hline|]. by intros c [_ Hc].
  - by repeat constructor.
Qed.

Lemma load_text_records (records : list json) (rest : pystr) :
  isspace 10%N = true -> Forall good records ->
  load_text (text_of records ++ rest) = records ++ load_text rest.
Proof.
  intros Hlf Hgood.
  induction Hgood as [|record records (Hload & Hline & Hhead & Hlast) _ IH];
    [done|].
  unfold part_text. cbn [flat_map]. rewrite <- !app_assoc. cbn [app].
  rewrite load_text_line by done. cbn zeta.
  rewrite strip_line by done.
  rewrite bool_decide_eq_false_2
    by (destruct Hhead as (c & Hc & _); by destruct (json_dumps record)).
  rewrite Hload. cbn [app]. f_equal. apply IH.
Qed.

(** X19.  The daily file the fetcher leaves reads back record for record.
    When [json.dumps] writes each record on one line, without white space at
    its two ends, and [json.loads] reads it back, [_load_bodacc_jsonl] on the
    text [_merge_day_parts] makes of the fragments gives the records of the
    fragments, in order.  A line between them that is blank or that [json.loads] refuses
    is passed over.  The lines [_write_day_file] writes give the same text as
    [_write_ndjson_part] would. *)
Theorem daily_file_reads_back
    (pages : list (list json))
    (Hline_feed : isspace 10%N = true)
    (Hrecords : Forall (Forall good) pages) :
  load_text (merged_text (map text_of pages)) = concat pages
  /\ (forall before after line,
        Forall good before -> Forall good after -> one_line line ->
        strip isspace (line ++ [10%N]) = []
        \/ json_loads (strip isspace (line ++ [10%N])) = None ->
        load_text (text_of before ++ line ++ [10%N] ++ text_of after)
        = before ++ after)
  /\ (forall records,
        day_file_text (map json_dumps records) = text_of records).
Proof.
  split; [|split].
  - unfold merged_text.
    assert (concat (map universal_newlines (map text_of pages))
            = text_of (concat pages)) as ->.
    { induction pages as [|page pages IH]; [done|]. cbn [map concat].
      apply Forall_cons in Hrecords as [Hpage Hrest]. rewrite (IH Hrest).
      rewrite universal_newlines_id by (by apply part_text_no_return).
      unfold part_text. by rewrite flat_map_app. }
    rewrite <- (app_nil_r (text_of (concat pages))).
    rewrite load_text_records; [by rewrite app_nil_r|done|].
    clear Hline_feed. induction Hrecords as [|page pages Hp _ IH]; [constructor|].
    cbn. by apply Forall_app.
  - intros before after line Hb Ha Hline Hskip.
    rewrite load_text_records by done. f_equal.
    cbn [app]. rewrite load_text_line by done. cbn zeta.
    rewrite <- (app_nil_r (text_of after)).
    rewrite load_text_records by done. rewrite app_nil_r.
    destruct Hskip as [->| ->]; [done|]. by case_bool_decide.
  - intros records. unfold day_file_text, part_text.
    destruct records as [|r records]; [done|].
    rewrite bool_decide_eq_false_2 by done.
    revert r. induction records as [|r' records IH]; intros r;
      [cbn; by rewrite app_nil_r|].
    change (map json_dumps (r :: r' :: records))
      with (json_dumps r :: map json_dumps (r' :: records)).
    change (str_join [10%N] (json_dumps r :: map json_dumps (r' :: records)))
      with (json_dumps r ++ [10%N] ++ str_join [10%N] (map json_dumps (r' :: records))).
    change (flat_map ?f (r :: ?l)) with (f r ++ flat_map f l).
    rewrite <- (IH r'). by rewrite <- !app_assoc.
Qed.

End NdjsonRoundTrip.

Lemma daily_file_reads_back_witness :
  Ndjson._load_bodacc_jsonl Latin1.json_loads Latin1Text.isspace
    (Ndjson.merged_text
       (map (Ndjson.part_text JsonText.json_dumps)
          [[JInt 7; JStr (u "radiation")]; [JInt 42]]))
  = [JInt 7; JStr (u "radiation"); JInt 42].
Proof.
  refine (proj1 (daily_file_reads_back JsonText.json_dumps Latin1.json_loads
                   Latin1Text.isspace
                   [[JInt 7; JStr (u "radiation")]; [JInt 42]] eq_refl _)).
  repeat constructor; try (vm_compute; intros [=]); vm_compute; eauto.
Defined.

(** ** Values of the configuration in [ENC(...)] *)

Section ConfigValues.
Import ConfigCipher.

Lemma encrypted_part_wrapped (token : pystr) :
  encrypted_part (ENC_PREFIX ++ token ++ ENC_SUFFIX) = token.
Proof.
  unfold encrypted_part.
  replace (length (ENC_PREFIX ++ token ++ ENC_SUFFIX) - length ENC_SUFFIX)%nat
    with (length (ENC_PREFIX ++ token))
    by (rewrite !length_app; lia).
  rewrite app_assoc, take_app_length. by rewrite drop_app_length.
Qed.

Lemma is_encrypted_wrapped (value : pystr) :
  is_encrypted value = true <->
  exists token, value = ENC_PREFIX ++ token ++ ENC_SUFFIX.
Proof.
  unfold is_encrypted, endswith. rewrite andb_true_iff, !is_prefix_spec. split.
  - intros [[rest ->] [rest' Hrev]].
    assert (reverse (reverse (ENC_PREFIX ++ rest))
            = reverse (reverse ENC_SUFFIX ++ rest')) as E by (by rewrite Hrev).
    rewrite reverse_involutive, reverse_app, reverse_involutive in E.
    set (m := reverse rest') in E.
    assert (m = ENC_PREFIX ++ drop (length ENC_PREFIX) m) as Hm.
    { destruct m as [|a [|b [|c [|d l]]]]; cbn in E; try discriminate E.
      by injection E as <- <- <- <- _. }
    exists (drop (length ENC_PREFIX) m). rewrite E. rewrite Hm at 1.
    by rewrite <- app_assoc.
  - intros [token ->]. split.
    + by eexists.
    + exists (reverse (ENC_PREFIX ++ token)).
      by rewrite app_assoc, reverse_app.
Qed.

(** X20.  A value the cipher tool wrote is read back by the loader.
    [encrypt_value] gives a value [is_encrypted] recognises, the slice of
    [decrypt_value] is the token between [ENC(] and [)] and nothing else, so
    that the loader gets the clear text back whenever Fernet decrypts what it
    encrypted.  A value [is_encrypted] recognises is [ENC(], a token and [)],
    five characters at least; any other value, and every value when there is
    no key, is left as it is, and so is a value whose token does not
    decrypt. *)
Theorem encrypted_value_round_trip
    (encrypt : pystr -> pystr) (decrypt : pystr -> option pystr)
    (settable : pystr -> bool) :
  (forall value,
     is_encrypted (encrypt_value encrypt value) = true
     /\ encrypted_part (encrypt_value encrypt value) = encrypt value
     /\ (decrypt (encrypt value) = Some value -> settable value = true ->
         decrypt_option decrypt settable true (encrypt_value encrypt value)
         = value))
  /\ (forall value,
        is_encrypted value = true <->
        value = ENC_PREFIX ++ encrypted_part value ++ ENC_SUFFIX)
  /\ (forall value, is_encrypted value = true -> (5 <= length value)%nat)
  /\ (forall value, is_encrypted value = false ->
        decrypt_option decrypt settable true value = value)
  /\ (forall value, decrypt_option decrypt settable false value = value)
  /\ (forall value, decrypt_value decrypt value = None ->
        decrypt_option decrypt settable true value = value).
Proof.
  split; [|split; [|split; [|split; [|split]]]].
  - intros value. unfold encrypt_value.
    assert (is_encrypted (ENC_PREFIX ++ encrypt value ++ ENC_SUFFIX) = true) as He
      by (apply is_encrypted_wrapped; by eexists).
    split; [done|]. split; [apply encrypted_part_wrapped|].
    intros Hd Hset. unfold decrypt_option, decrypt_value.
    by rewrite He, encrypted_part_wrapped, Hd, Hset.
  - intros value. split.
    + intros [token ->]%is_encrypted_wrapped. by rewrite encrypted_part_wrapped.
    + intros E. apply is_encrypted_wrapped. by eexists.
  - intros value [token ->]%is_encrypted_wrapped. rewrite !length_app. cbn. lia.
  - intros value E. unfold decrypt_option. by rewrite E.
  - done.
  - intros value E. unfold decrypt_option. rewrite E.
    by destruct (is_encrypted value).
Qed.

End ConfigValues.

(** ** Worked cases *)

Lemma latin1_day_has_eight_characters (value fmt day : pystr) :
  Latin1.strptime_strftime value fmt = Some day -> length day = 8%nat.
Proof.
  unfold Latin1.strptime_strftime. case_bool_decide; [|done].
  repeat case_match; try discriminate. by intros [= <-].
Qed.

Lemma filter_again_changes_nothing_witness :
  FilterExample.filter_records
    [FilterExample.file_0304; FilterExample.file_0305]
    (FilterExample.filter_records
       [FilterExample.file_0304; FilterExample.file_0305] ∅)
  = FilterExample.filter_records
      [FilterExample.file_0304; FilterExample.file_0305] ∅.
Proof.
  apply (filter_again_changes_nothing Latin1.isdigit Latin1.str_lower Latin1.nfd
           Latin1.category_Mn Latin1.json_loads Latin1.strptime_strftime
           FilterExample.sirens Filter.DEFAULT_TOPAGE_KEYWORDS
           FilterExample.sirens_info latin1_day_has_eight_characters).
  apply no_filtered_file_yet.
Defined.

Lemma line_that_is_no_object_drops_the_file_witness :
  FilterExample.filter_records
    ([FilterExample.file_0304] ++ FilterRunExample.file_0306 :: []) ∅
  = FilterExample.filter_records ([FilterExample.file_0304] ++ []) ∅.
Proof.
  refine (proj2 (line_that_is_no_object_drops_the_file Latin1.isdigit
                   Latin1.str_lower Latin1.nfd Latin1.category_Mn
                   Latin1.json_loads Latin1.strptime_strftime
                   FilterExample.sirens Filter.DEFAULT_TOPAGE_KEYWORDS
                   FilterExample.sirens_info FilterRunExample.file_0306
                   (JList [JInt 1]) _ eq_refl) _ _ _).
  cbn. apply list_elem_of_further, list_elem_of_here.
Defined.

Lemma keyword_in_a_nested_string_tags_witness :
  Filter._should_tag_topage Latin1.str_lower Latin1.nfd Latin1.category_Mn
    Latin1.json_loads FilterRunExample.nested Filter.DEFAULT_TOPAGE_KEYWORDS
  = true.
Proof.
  apply (keyword_in_a_nested_string_tags Latin1.json_loads FilterRunExample.nested
           (u "jugement")
           (JDict [ (u "date", JStr (u "2024-03-05"));
                    (u "nature",
                     JList [JStr (u "Jugement de Liquidation Judiciaire")]) ])
           (u "Jugement de Liquidation Judiciaire")
           (u "liquidation judiciaire") Filter.DEFAULT_TOPAGE_KEYWORDS).
  - unfold Filter.TAG_FIELDS, Filter.TEXT_COLUMNS_CANDIDATES. cbn [app].
    repeat first [apply list_elem_of_here | apply list_elem_of_further].
  - reflexivity.
  - cbn. apply list_elem_of_further, list_elem_of_here.
  - unfold Filter.DEFAULT_TOPAGE_KEYWORDS.
    repeat first [apply list_elem_of_here | apply list_elem_of_further].
  - discriminate.
  - vm_compute. reflexivity.
Defined.

(** ** The name of the SIREN file *)

Section SirenFileName.
Import SirenFile.

Variable str_lower : pystr -> pystr.
Variable isspace : N -> bool.

Lemma strip_letters (s : pystr) :
  Forall (fun c => isspace c = false) s -> strip isspace s = s.
Proof.
  intros Hs. assert (forall t, Forall (fun c => isspace c = false) t ->
                               lstrip isspace t = t) as Hl.
  { intros t Ht. destruct Ht as [|c t Hc _]; [done|]. cbn. by rewrite Hc. }
  unfold strip. rewrite (Hl s Hs), Hl; [apply reverse_involutive|].
  by apply Forall_reverse.
Qed.

(** X24.  The filter reads [siren.csv] whatever the configuration says.
    [configparser] keeps the names of the options in lower case, and the
    filter looks [SIREN_FILENAME] up in a copy of the section that is a plain
    [dict], where the name in upper case is no key: the base name is always
    the default [siren].  The extraction of the SIREN asks the section itself
    and writes its file under the name configured, so that the filter finds
    the file only when this name is [siren]. *)
Theorem filter_reads_siren_csv
    (bodacc_files exports_files : gmap pystr pystr)
    (Hbodacc : kept_in_lower_case str_lower bodacc_files)
    (Hexports : kept_in_lower_case str_lower exports_files)
    (Hupper : str_lower (u "SIREN_FILENAME") <> u "SIREN_FILENAME")
    (Hletters : Forall (fun c => isspace c = false) (u "siren")) :
  siren_base isspace exports_files bodacc_files = u "siren"
  /\ (forall name,
        proxy_get str_lower (u "SIREN_FILENAME") bodacc_files = Some name -> name <> [] ->
        nom_base str_lower isspace bodacc_files exports_files = strip isspace name
        /\ (nom_base str_lower isspace bodacc_files exports_files
            = siren_base isspace exports_files bodacc_files
            <-> strip isspace name = u "siren"))
  /\ (forall name,
        proxy_get str_lower (u "SIREN_FILENAME") bodacc_files = None ->
        proxy_get str_lower (u "SIREN_FILENAME") exports_files = Some name -> name <> [] ->
        nom_base str_lower isspace bodacc_files exports_files = strip isspace name)
  /\ (proxy_get str_lower (u "SIREN_FILENAME") bodacc_files = None ->
      proxy_get str_lower (u "SIREN_FILENAME") exports_files = None ->
      nom_base str_lower isspace bodacc_files exports_files
      = strip isspace (u "01_get_SIREN_from_SEMARCHY_MDM")).
Proof.
  assert (forall section, kept_in_lower_case str_lower section ->
                          section !! u "SIREN_FILENAME" = None) as Hnone.
  { intros section Hkept.
    destruct (section !! u "SIREN_FILENAME") eqn:E; [|done].
    destruct Hupper. apply Hkept. by rewrite E. }
  assert (siren_base isspace exports_files bodacc_files = u "siren") as Hbase.
  { unfold siren_base. rewrite !Hnone by done. cbn [default].
    by apply strip_letters. }
  split; [exact Hbase|]. split; [|split].
  - intros name Hname Hne.
    assert (nom_base str_lower isspace bodacc_files exports_files
            = strip isspace name) as Hnom.
    { unfold nom_base. rewrite Hname. cbn [or_else].
      by rewrite bool_decide_eq_false_2. }
    split; [exact Hnom|]. by rewrite Hnom, Hbase.
  - intros name Hb He Hne. unfold nom_base. rewrite Hb, He.
    cbn [or_else]. by rewrite bool_decide_eq_false_2.
  - intros Hb He. unfold nom_base. by rewrite Hb, He.
Qed.

End SirenFileName.

Lemma filter_reads_siren_csv_witness :
  SirenFile.siren_base Latin1Text.isspace
    {[ u "siren_filename" := u "registre_siren" ]} ∅ = u "siren"
  /\ SirenFile.nom_base Latin1.str_lower Latin1Text.isspace
       ∅ {[ u "siren_filename" := u "registre_siren" ]} = u "registre_siren".
Proof.
  destruct (filter_reads_siren_csv Latin1.str_lower Latin1Text.isspace
              ∅ {[ u "siren_filename" := u "registre_siren" ]})
    as (Hbase & _ & Hexports & _).
  - intros name Hname. rewrite lookup_empty in Hname. by destruct Hname.
  - intros name Hname.
    destruct (decide (name = u "siren_filename")) as [->|Hne]; [reflexivity|].
    rewrite lookup_singleton_ne in Hname by done. by destruct Hname.
  - discriminate.
  - repeat constructor.
  - split; [exact Hbase|].
    rewrite (Hexports (u "registre_siren")); [vm_compute; reflexivity|..];
      (reflexivity || discriminate).
Defined.
